(** * Food-Bank-Database: barcode resolution, normalisation and workflow

    A shallow embedding of the barcode pipeline of the food tracking
    backend ([barcode_detector.py], the [upload_barcode_image] endpoint
    of [main.py], and the parts of [crud.py] and [models.py] they use),
    together with the properties established about it.

    Python values are dynamically typed, so the embedding keeps one type
    of Python values ([pyval]); Python text is a sequence of Unicode code
    points; exceptions are explicit results; the database session, the
    clock and the trace of calls to the symbol detector are threaded as
    an explicit world state. The database is the SQLite file that
    [database.py] opens by default, driven through SQLAlchemy: a value
    is bound, kept under the affinity of its column and read back as
    these libraries do it. *)

From Stdlib Require Import ZArith NArith List Bool Lia.
From Stdlib Require Import Strings.String Strings.Ascii Strings.Byte.
From Stdlib Require Import Sorting.Permutation Sorting.Sorted.
From Stdlib Require QArith.
Import ListNotations.

Set Implicit Arguments.
Set Warnings "-register-all".

(* ================================================================== *)
(** * Python text *)
(* ================================================================== *)

Module PyStr.

(** A Python [str] is a sequence of Unicode code points. *)
Definition pystr : Type := list N.

(** Source literals are written as Rocq strings (ASCII only). *)
Definition lit (s : string) : pystr :=
  map N_of_ascii (list_ascii_of_string s).

Fixpoint eqb (a b : pystr) : bool :=
  match a, b with
  | [], [] => true
  | x :: a', y :: b' => N.eqb x y && eqb a' b'
  | _, _ => false
  end.

Definition in_ranges (tbl : list (N * N)) (c : N) : bool :=
  existsb (fun r => N.leb (fst r) c && N.leb c (snd r)) tbl.

(** Code points for which [str.isdigit] holds: Numeric_Type Decimal or
    Digit (Unicode 14.0, the table of CPython 3.11). *)
Definition digit_ranges : list (N * N) :=
  [ (48, 57); (178, 179); (185, 185); (1632, 1641); (1776, 1785);
    (1984, 1993); (2406, 2415); (2534, 2543); (2662, 2671); (2790, 2799);
    (2918, 2927); (3046, 3055); (3174, 3183); (3302, 3311); (3430, 3439);
    (3558, 3567); (3664, 3673); (3792, 3801); (3872, 3881); (4160, 4169);
    (4240, 4249); (4969, 4977); (6112, 6121); (6160, 6169); (6470, 6479);
    (6608, 6618); (6784, 6793); (6800, 6809); (6992, 7001); (7088, 7097);
    (7232, 7241); (7248, 7257); (8304, 8304); (8308, 8313); (8320, 8329);
    (9312, 9320); (9332, 9340); (9352, 9360); (9450, 9450); (9461, 9469);
    (9471, 9471); (10102, 10110); (10112, 10120); (10122, 10130);
    (42528, 42537); (43216, 43225); (43264, 43273); (43472, 43481);
    (43504, 43513); (43600, 43609); (44016, 44025); (65296, 65305);
    (66720, 66729); (68160, 68163); (68912, 68921); (69216, 69224);
    (69714, 69722); (69734, 69743); (69872, 69881); (69942, 69951);
    (70096, 70105); (70384, 70393); (70736, 70745); (70864, 70873);
    (71248, 71257); (71360, 71369); (71472, 71481); (71904, 71913);
    (72016, 72025); (72784, 72793); (73040, 73049); (73120, 73129);
    (92768, 92777); (92864, 92873); (93008, 93017); (120782, 120831);
    (123200, 123209); (123632, 123641); (125264, 125273);
    (127232, 127242); (130032, 130041) ]%N.

(** Code points for which [str.isspace] holds; [str.strip()] removes
    exactly these. *)
Definition space_ranges : list (N * N) :=
  [ (9, 13); (28, 32); (133, 133); (160, 160); (5760, 5760);
    (8192, 8202); (8232, 8233); (8239, 8239); (8287, 8287);
    (12288, 12288) ]%N.

Definition char_isdigit (c : N) : bool := in_ranges digit_ranges c.
Definition char_isspace (c : N) : bool := in_ranges space_ranges c.

(** The ASCII decimal digits ['0'..'9']. *)
Definition ascii_digit (c : N) : bool := N.leb 48 c && N.leb c 57.

(** [s.isdigit()]: at least one character, and all of them digits. *)
Definition isdigit (s : pystr) : bool :=
  match s with
  | [] => false
  | _ => forallb char_isdigit s
  end.

(** [s.lstrip()], [s.rstrip()], [s.strip()] without argument. *)
Fixpoint lstrip (s : pystr) : pystr :=
  match s with
  | c :: s' => if char_isspace c then lstrip s' else s
  | [] => []
  end.

Definition rstrip (s : pystr) : pystr := rev (lstrip (rev s)).

Definition strip (s : pystr) : pystr := rstrip (lstrip s).

(** [s.split(sep)] for a one-character separator: the fields between
    the separators, empty fields kept, never an empty list. *)
Fixpoint split (sep : N) (s : pystr) : list pystr :=
  match s with
  | [] => [[]]
  | c :: s' =>
      if N.eqb c sep then [] :: split sep s'
      else match split sep s' with
           | w :: ws => (c :: w) :: ws
           | [] => [[c]]
           end
  end.

(** [sep.join(parts)] for a one-character separator. *)
Fixpoint join (sep : N) (parts : list pystr) : pystr :=
  match parts with
  | [] => []
  | [w] => w
  | w :: ws => w ++ sep :: join sep ws
  end.

Definition comma : N := 44.

End PyStr.

Import PyStr.

(* ================================================================== *)
(** * Exceptions and results *)
(* ================================================================== *)

(** The exception classes the modelled code can meet; [ExternalError]
    stands for the classes of the libraries (network, OpenCV, ORM). All
    of them derive from [Exception], so every [except Exception] clause
    catches them. *)
Inductive exn_class : Type :=
| TypeError | AttributeError | KeyError | ValueError | LookupError
| OverflowError | UnicodeDecodeError | UnicodeEncodeError | IntegrityError
| ExternalError
| HTTPException (status : Z).

(** An exception object: its class and the text [str(e)] yields. *)
Record exn : Type := mk_exn { exn_cls : exn_class; exn_text : pystr }.

(** The result of evaluating a Python expression: a value, or a raised
    exception. *)
Inductive outcome (A : Type) : Type :=
| Ok (a : A)
| Raise (e : exn).

Arguments Ok {A} a.
Arguments Raise {A} e.

Definition obind {A B} (m : outcome A) (k : A -> outcome B) : outcome B :=
  match m with
  | Ok a => k a
  | Raise e => Raise e
  end.

Declare Scope py_scope.
Delimit Scope py_scope with py.
Notation "x <- m ;; k" := (obind m (fun x => k))
  (at level 61, m at next level, right associativity) : py_scope.
Local Open Scope py_scope.

Fixpoint omap {A B} (f : A -> outcome B) (l : list A) : outcome (list B) :=
  match l with
  | [] => Ok []
  | x :: l' =>
      y <- f x ;;
      ys <- omap f l' ;;
      Ok (y :: ys)
  end.

(* ================================================================== *)
(** * Python values *)
(* ================================================================== *)

Module Py.

Local Open Scope Z_scope.

(** The Python objects that flow through the pipeline: the values a
    parsed JSON document is made of, plus [bytes] and dates for the
    database columns. A [float] is kept as its IEEE 754 binary64 bit
    pattern; a [date]/[datetime] by its ISO 8601 text, which is all the
    code ever asks of it ([isoformat()]). A [dict] keeps insertion
    order. *)
Inductive pyval : Type :=
| PNone
| PBool (b : bool)
| PInt (z : Z)
| PFloat (bits : Z)
| PStr (s : pystr)
| PBytes (b : list byte)
| PDate (iso : pystr)
| PList (l : list pyval)
| PDict (d : list (pystr * pyval)).

Definition dict : Type := list (pystr * pyval).

Definition type_name (v : pyval) : pystr :=
  match v with
  | PNone => lit "NoneType"
  | PBool _ => lit "bool"
  | PInt _ => lit "int"
  | PFloat _ => lit "float"
  | PStr _ => lit "str"
  | PBytes _ => lit "bytes"
  | PDate _ => lit "datetime.date"
  | PList _ => lit "list"
  | PDict _ => lit "dict"
  end.

Definition no_attribute (v : pyval) (attr : string) : exn :=
  mk_exn AttributeError
    (lit "'" ++ type_name v ++ lit "' object has no attribute '"
         ++ lit attr ++ lit "'").

(** ** Floats as bit patterns *)

Definition float_sign (bits : Z) : bool := Z.testbit bits 63.
Definition float_expo (bits : Z) : Z := Z.land (Z.shiftr bits 52) 2047.
Definition float_frac (bits : Z) : Z := Z.land bits (2 ^ 52 - 1).

Definition float_is_zero (bits : Z) : bool :=
  Z.eqb (float_expo bits) 0 && Z.eqb (float_frac bits) 0.

Definition float_is_finite (bits : Z) : bool :=
  negb (Z.eqb (float_expo bits) 2047).

(** A finite float is [m * 2^e] for the pair [(m, e)] below, [m >= 0];
    the sign is separate. *)
Definition float_mantissa (bits : Z) : Z :=
  if Z.eqb (float_expo bits) 0 then float_frac bits
  else 2 ^ 52 + float_frac bits.

Definition float_exponent (bits : Z) : Z :=
  if Z.eqb (float_expo bits) 0 then -1074 else float_expo bits - 1075.

(** [n / d] rounded to the nearest integer, ties to even
    ([n >= 0], [d > 0]). *)
Definition div_half_even (n d : Z) : Z :=
  let q := n / d in
  let r := n mod d in
  if Z.ltb d (2 * r) then q + 1
  else if Z.eqb (2 * r) d then (if Z.even q then q else q + 1)
  else q.

(** [m * 2^e * scale] rounded to the nearest integer, ties to even. *)
Definition scaled_half_even (m e scale : Z) : Z :=
  if Z.leb 0 e then m * 2 ^ e * scale
  else div_half_even (m * scale) (2 ^ (- e)).

(** The binary64 nearest to [n / d], ties to even, with the given sign
    ([n >= 0], [d > 0]); [None] on overflow. *)
Definition nearest_float (sign : bool) (n d : Z) : option Z :=
  let s := if sign then 2 ^ 63 else 0 in
  if Z.eqb n 0 then Some s
  else
    let e0 := Z.log2 n - Z.log2 d - 52 in
    let fits e :=
      if Z.leb 0 e then Z.leb (2 ^ 52) (n / (d * 2 ^ e))
      else Z.leb (2 ^ 52) (n * 2 ^ (- e) / d) in
    let e1 := if fits e0 then e0 else e0 - 1 in
    let e := Z.max e1 (-1074) in
    let m := if Z.leb 0 e then div_half_even n (d * 2 ^ e)
             else div_half_even (n * 2 ^ (- e)) d in
    let '(m, e) := if Z.eqb m (2 ^ 53) then (2 ^ 52, e + 1) else (m, e) in
    if Z.ltb 971 e then None
    else if Z.ltb m (2 ^ 52) then Some (s + m)
    else Some (s + Z.shiftl (e + 1075) 52 + (m - 2 ^ 52)).

(** ** Builtins *)

(** [bool(v)], the test of [if v] and [v or w]. *)
Definition truthy (v : pyval) : bool :=
  match v with
  | PNone => false
  | PBool b => b
  | PInt z => negb (Z.eqb z 0)
  | PFloat f => negb (float_is_zero f)
  | PStr s => match s with [] => false | _ => true end
  | PBytes b => match b with [] => false | _ => true end
  | PDate _ => true
  | PList l => match l with [] => false | _ => true end
  | PDict d => match d with [] => false | _ => true end
  end.

(** [v == 0] for the integer literal [0]. *)
Definition eq_zero (v : pyval) : bool :=
  match v with
  | PBool b => negb b
  | PInt z => Z.eqb z 0
  | PFloat f => float_is_zero f
  | _ => false
  end.

(** [v is not None and v != '' and v != []]. *)
Definition is_provided (v : pyval) : bool :=
  match v with
  | PNone => false
  | PStr [] => false
  | PList [] => false
  | _ => true
  end.

Fixpoint dict_get (k : pystr) (d : dict) : option pyval :=
  match d with
  | [] => None
  | (k', v) :: d' => if PyStr.eqb k' k then Some v else dict_get k d'
  end.

(** [o.get(k, default)]; only a [dict] has the method. *)
Definition get (o : pyval) (k : string) (default : pyval) : outcome pyval :=
  match o with
  | PDict d =>
      Ok (match dict_get (lit k) d with Some v => v | None => default end)
  | _ => Raise (no_attribute o "get")
  end.

(** [o[k]] for a string key. *)
Definition getitem (o : pyval) (k : string) : outcome pyval :=
  match o with
  | PDict d =>
      match dict_get (lit k) d with
      | Some v => Ok v
      | None => Raise (mk_exn KeyError (lit "'" ++ lit k ++ lit "'"))
      end
  | PNone | PBool _ | PInt _ | PFloat _ | PDate _ =>
      Raise (mk_exn TypeError
               (lit "'" ++ type_name o ++ lit "' object is not subscriptable"))
  | PStr _ =>
      Raise (mk_exn TypeError (lit "string indices must be integers, not 'str'"))
  | PBytes _ =>
      Raise (mk_exn TypeError (lit "byte indices must be integers or slices, not str"))
  | PList _ =>
      Raise (mk_exn TypeError (lit "list indices must be integers or slices, not str"))
  end.

(** [o.strip()]. *)
Definition strip (o : pyval) : outcome pystr :=
  match o with
  | PStr s => Ok (PyStr.strip s)
  | _ => Raise (no_attribute o "strip")
  end.

(** [o.split(',')]. *)
Definition split_comma (o : pyval) : outcome (list pystr) :=
  match o with
  | PStr s => Ok (PyStr.split comma s)
  | _ => Raise (no_attribute o "split")
  end.

Definition cannot_round (v : pyval) : exn :=
  mk_exn TypeError
    (lit "type " ++ type_name v ++ lit " doesn't define __round__ method").

(** [round(v)]: the nearest integer, ties to even. *)
Definition round (v : pyval) : outcome pyval :=
  match v with
  | PBool b => Ok (PInt (if b then 1 else 0))
  | PInt z => Ok (PInt z)
  | PFloat f =>
      if float_is_finite f then
        let n := scaled_half_even (float_mantissa f) (float_exponent f) 1 in
        Ok (PInt (if float_sign f then - n else n))
      else if Z.eqb (float_frac f) 0 then
        Raise (mk_exn OverflowError (lit "cannot convert float infinity to integer"))
      else
        Raise (mk_exn ValueError (lit "cannot convert float NaN to integer"))
  | _ => Raise (cannot_round v)
  end.

(** [round(v, 2)]: for a float, the float nearest to the value rounded
    to two decimals (ties to even). *)
Definition round2 (v : pyval) : outcome pyval :=
  match v with
  | PBool b => Ok (PInt (if b then 1 else 0))
  | PInt z => Ok (PInt z)
  | PFloat f =>
      if float_is_finite f then
        let n := scaled_half_even (float_mantissa f) (float_exponent f) 100 in
        match nearest_float (float_sign f) n 100 with
        | Some r => Ok (PFloat r)
        | None =>
            Raise (mk_exn OverflowError (lit "rounded value too large to represent"))
        end
      else Ok (PFloat f)
  | _ => Raise (cannot_round v)
  end.

End Py.

Import Py.

(* ================================================================== *)
(** * UTF-8 *)
(* ================================================================== *)

Module Utf8.

Local Open Scope N_scope.

Definition between (lo hi b : N) : bool := N.leb lo b && N.leb b hi.

Definition cont (b : N) : bool := between 128 191 b.

(** The second byte of a three-byte sequence: no overlong forms, no
    surrogates. *)
Definition second_of_3 (b0 b1 : N) : bool :=
  if N.eqb b0 224 then between 160 191 b1
  else if N.eqb b0 237 then between 128 159 b1
  else cont b1.

(** The second byte of a four-byte sequence: no overlong forms, nothing
    above U+10FFFF. *)
Definition second_of_4 (b0 b1 : N) : bool :=
  if N.eqb b0 240 then between 144 191 b1
  else if N.eqb b0 244 then between 128 143 b1
  else cont b1.

Fixpoint points (bs : list N) : option pystr :=
  match bs with
  | [] => Some []
  | b0 :: t0 =>
      if N.ltb b0 128 then option_map (cons b0) (points t0)
      else
        match t0 with
        | [] => None
        | b1 :: t1 =>
            if between 194 223 b0 then
              if cont b1
              then option_map (cons ((b0 - 192) * 64 + (b1 - 128))) (points t1)
              else None
            else
              match t1 with
              | [] => None
              | b2 :: t2 =>
                  if between 224 239 b0 then
                    if second_of_3 b0 b1 && cont b2
                    then option_map
                           (cons ((b0 - 224) * 4096 + (b1 - 128) * 64 + (b2 - 128)))
                           (points t2)
                    else None
                  else
                    match t2 with
                    | [] => None
                    | b3 :: t3 =>
                        if between 240 244 b0 && second_of_4 b0 b1
                           && cont b2 && cont b3
                        then option_map
                               (cons ((b0 - 240) * 262144 + (b1 - 128) * 4096
                                      + (b2 - 128) * 64 + (b3 - 128)))
                               (points t3)
                        else None
                    end
              end
        end
  end.

(** [b.decode('utf-8')] (strict). *)
Definition decode (b : list byte) : outcome pystr :=
  match points (map Byte.to_N b) with
  | Some s => Ok s
  | None =>
      Raise (mk_exn UnicodeDecodeError (lit "'utf-8' codec can't decode bytes"))
  end.

End Utf8.

(* ================================================================== *)
(** * SQLAlchemy over SQLite *)
(* ================================================================== *)

(** database.py connects to SQLite unless the environment names another
    server, and models.py declares the tables through SQLAlchemy. A
    value on its way into a row passes the bind processor of the
    column's SQLAlchemy type, then the binding of the statement's
    parameter by [sqlite3], then the type affinity of the column; on its
    way back to the session it passes the result processor of the type.
    These stations are modelled below for every Python value. Five
    conversions among them rest on text formats and parsers of the
    libraries themselves, or on the class machinery of the declarative
    base; they are taken as given. *)
Class Engine : Type := {
  (* [float(x)] for a [str] or [bytes] [x], as the bind processor of a
     [Float] column calls it; an exception is the [StatementError] it
     is wrapped in *)
  float_of_text : pyval -> outcome Z;
  (* the text SQLite makes of a REAL stored under TEXT affinity *)
  real_to_text : Z -> pystr;
  (* what SQLite keeps of a text stored under INTEGER affinity: the
     number when the text is a numeric literal, the text otherwise *)
  text_to_number : pystr -> pyval;
  (* what is read back from a [JSON] column that was given a bare
     number *)
  json_number : pyval -> pyval;
  (* [setattr(food, k, v)] for a name [k] that is not a column of
     [Food]: [None] when the class has no such attribute, otherwise what
     the assignment does on a new instance (such an attribute is not
     part of the row) *)
  class_attribute : pystr -> pyval -> option (outcome unit)
}.

Module Sql.
Section Sql.

Context {G : Engine}.

Local Open Scope Z_scope.

(** The column types of models.py, under the names of their DDL:
    [String], [Integer], [Float], [JSON], [Date], [DateTime],
    [LargeBinary]. *)
Inductive column_type : Type :=
| VARCHAR | INTEGER | FLOAT | JSON | DATE | DATETIME | BLOB.

(** [sqlite3] binds an [int] as a signed 64-bit integer and a [str] as
    UTF-8, which has no form for a surrogate code point. *)
Definition int64 (z : Z) : bool := Z.leb (- 2 ^ 63) z && Z.ltb z (2 ^ 63).

Definition surrogate (c : N) : bool := N.leb 55296 c && N.leb c 57343.

Definition encodable (s : pystr) : bool :=
  forallb (fun c => negb (surrogate c)) s.

(** Decimal and hexadecimal digits, for texts and messages. *)
Fixpoint digits (d : Decimal.uint) : pystr :=
  match d with
  | Decimal.Nil => []
  | Decimal.D0 d => 48%N :: digits d
  | Decimal.D1 d => 49%N :: digits d
  | Decimal.D2 d => 50%N :: digits d
  | Decimal.D3 d => 51%N :: digits d
  | Decimal.D4 d => 52%N :: digits d
  | Decimal.D5 d => 53%N :: digits d
  | Decimal.D6 d => 54%N :: digits d
  | Decimal.D7 d => 55%N :: digits d
  | Decimal.D8 d => 56%N :: digits d
  | Decimal.D9 d => 57%N :: digits d
  end.

(** [str(z)]. *)
Definition decimal (z : Z) : pystr :=
  match z with
  | Zneg p => 45%N :: digits (Pos.to_uint p)
  | _ => digits (N.to_uint (Z.to_N z))
  end.

Definition hex_digit (n : N) : N :=
  if N.ltb n 10 then (48 + n)%N else (87 + n)%N.

Definition hex4 (c : N) : pystr :=
  [ hex_digit (N.modulo (N.div c 4096) 16); hex_digit (N.modulo (N.div c 256) 16);
    hex_digit (N.modulo (N.div c 16) 16); hex_digit (N.modulo c 16) ].

(** The first run of surrogates in a text: where it starts, its first
    code point and its length. *)
Fixpoint run_length (s : pystr) : nat :=
  match s with
  | c :: rest => if surrogate c then S (run_length rest) else O
  | [] => O
  end.

Fixpoint first_surrogates (position : nat) (s : pystr) : option (nat * N * nat) :=
  match s with
  | [] => None
  | c :: rest =>
      if surrogate c then Some (position, c, S (run_length rest))
      else first_surrogates (S position) rest
  end.

Definition int_too_large : exn :=
  mk_exn OverflowError (lit "Python int too large to convert to SQLite INTEGER").

Definition surrogates_not_allowed (s : pystr) : exn :=
  mk_exn UnicodeEncodeError
    (match first_surrogates 0 s with
     | Some (position, c, 1%nat) =>
         lit "'utf-8' codec can't encode character '\u" ++ hex4 c
           ++ lit "' in position " ++ decimal (Z.of_nat position)
           ++ lit ": surrogates not allowed"
     | Some (position, _, n) =>
         lit "'utf-8' codec can't encode characters in position "
           ++ decimal (Z.of_nat position) ++ lit "-"
           ++ decimal (Z.of_nat (position + n - 1))
           ++ lit ": surrogates not allowed"
     | None => lit "surrogates not allowed"
     end).

(** An error of SQLAlchemy's own classes ([StatementError],
    [ProgrammingError]); the text is the head of its message, which
    goes on with the statement and its parameters. *)
Definition orm_error (head : string) (v : pyval) (tail : string) : exn :=
  mk_exn ExternalError (lit head ++ type_name v ++ lit tail).

(** ** Floats *)

Definition float_is_nan (bits : Z) : bool :=
  Z.eqb (float_expo bits) 2047 && negb (Z.eqb (float_frac bits) 0).

Definition quiet_nan : Z := 9221120237041090560.

Definition float_one : Z := 4607182418800017408.

(** [float(z)]: the nearest float, [None] when there is none. *)
Definition float_of_int (z : Z) : option Z :=
  nearest_float (Z.ltb z 0) (Z.abs z) 1.

(** The integer a finite float is equal to, if it is equal to one. *)
Definition float_integer (bits : Z) : option Z :=
  if float_is_finite bits then
    let m := float_mantissa bits in
    let e := float_exponent bits in
    let signed n := if float_sign bits then - n else n in
    if Z.leb 0 e then Some (signed (m * 2 ^ e))
    else if Z.eqb (m mod 2 ^ (- e)) 0 then Some (signed (m / 2 ^ (- e)))
    else None
  else None.

(** ** Dates *)

(** A [date] has the ISO text [YYYY-MM-DD]; the text of a [datetime]
    goes on with [T], the time, the microseconds if there are any and
    the offset if there is one. The [Date] type keeps the date; the
    [DateTime] type keeps date, time and microseconds, midnight for a
    [date]; [sqlite3] itself writes a [datetime] with a blank for the
    [T]. *)
Definition date_part (iso : pystr) : pystr := firstn 10 iso.

Definition naive_datetime (iso : pystr) : pystr :=
  if Nat.leb (List.length iso) 10 then iso ++ lit "T00:00:00"
  else if N.eqb (nth 19 iso 0%N) 46 then firstn 26 iso
  else firstn 19 iso.

Definition adapted (iso : pystr) : pystr :=
  map (fun c => if N.eqb c 84 then 32%N else c) iso.

(** ** JSON *)

(** [json.dumps] takes what JSON can say and names the class of the
    first object it cannot; [json.loads] gives the value back, every NaN
    as the one quiet NaN. *)
Fixpoint unserialisable (v : pyval) : option pystr :=
  let first :=
    fix first (l : list pyval) : option pystr :=
      match l with
      | [] => None
      | x :: rest =>
          match unserialisable x with
          | Some class => Some class
          | None => first rest
          end
      end in
  let first_value :=
    fix first_value (d : list (pystr * pyval)) : option pystr :=
      match d with
      | [] => None
      | (_, x) :: rest =>
          match unserialisable x with
          | Some class => Some class
          | None => first_value rest
          end
      end in
  match v with
  | PBytes _ => Some (lit "bytes")
  | PDate iso =>
      Some (if Nat.leb (List.length iso) 10 then lit "date" else lit "datetime")
  | PList l => first l
  | PDict d => first_value d
  | _ => None
  end.

Fixpoint json_loaded (v : pyval) : pyval :=
  match v with
  | PFloat f => PFloat (if float_is_nan f then quiet_nan else f)
  | PList l => PList (map json_loaded l)
  | PDict d => PDict (map (fun kv : pystr * pyval => let (k, x) := kv in (k, json_loaded x)) d)
  | _ => v
  end.

(** ** The three stations *)

(** The bind processor of the column's type. An exception it raises
    reaches the caller wrapped in a [StatementError]. [String] and
    [Integer] have none; [Float] applies [float]; [JSON] serialises;
    [Date] and [DateTime] format dates and refuse everything else;
    [LargeBinary] wraps in a [memoryview]. *)
Definition process (t : column_type) (v : pyval) : outcome pyval :=
  match t, v with
  | _, PNone => Ok PNone
  | VARCHAR, _ | INTEGER, _ => Ok v
  | FLOAT, PBool b => Ok (PFloat (if b then float_one else 0))
  | FLOAT, PInt z =>
      match float_of_int z with
      | Some f => Ok (PFloat f)
      | None =>
          Raise (mk_exn ExternalError
                   (lit "(builtins.OverflowError) int too large to convert to float"))
      end
  | FLOAT, PFloat _ => Ok v
  | FLOAT, PStr _ | FLOAT, PBytes _ =>
      f <- float_of_text v ;;
      Ok (PFloat f)
  | FLOAT, _ =>
      Raise (orm_error "(builtins.TypeError) float() argument must be a string or a real number, not '"
                       v "'")
  | JSON, _ =>
      match unserialisable v with
      | None => Ok v
      | Some class =>
          Raise (mk_exn ExternalError
                   (lit "(builtins.TypeError) Object of type " ++ class
                      ++ lit " is not JSON serializable"))
      end
  | DATE, PDate iso => Ok (PDate (date_part iso))
  | DATE, _ =>
      Raise (mk_exn ExternalError
               (lit "(builtins.TypeError) SQLite Date type only accepts Python date objects as input."))
  | DATETIME, PDate iso => Ok (PDate (naive_datetime iso))
  | DATETIME, _ =>
      Raise (mk_exn ExternalError
               (lit "(builtins.TypeError) SQLite DateTime type only accepts Python datetime and date objects as input."))
  | BLOB, PBytes _ => Ok v
  | BLOB, _ =>
      Raise (orm_error "(builtins.TypeError) memoryview: a bytes-like object is required, not '"
                       v "'")
  end.

(** The binding of a parameter by [sqlite3]: [None] is NULL, a [bool]
    is an [int], an [int] must fit 64 bits, a NaN is NULL, a [str] must
    be encodable, a date is written as text, and a [list] or a [dict]
    is refused. *)
Definition bind (v : pyval) : outcome pyval :=
  match v with
  | PNone => Ok PNone
  | PBool b => Ok (PInt (if b then 1 else 0))
  | PInt z => if int64 z then Ok v else Raise int_too_large
  | PFloat f => Ok (if float_is_nan f then PNone else v)
  | PStr s => if encodable s then Ok v else Raise (surrogates_not_allowed s)
  | PBytes _ => Ok v
  | PDate iso => Ok (PStr (adapted iso))
  | PList _ | PDict _ =>
      Raise (orm_error "(sqlite3.ProgrammingError) Error binding parameter: type '"
                       v "' is not supported")
  end.

(** INTEGER affinity turns a REAL into an INTEGER when nothing is lost
    and the integer is not one of the two extreme ones. *)
Definition integer_affinity (v : pyval) : pyval :=
  match v with
  | PFloat f =>
      match float_integer f with
      | Some z => if Z.ltb (- 2 ^ 63) z && Z.ltb z (2 ^ 63 - 1) then PInt z else v
      | None => v
      end
  | PStr s => text_to_number s
  | _ => v
  end.

Definition real_affinity (v : pyval) : pyval :=
  match integer_affinity v with
  | PInt z => match float_of_int z with Some f => PFloat f | None => PInt z end
  | x => x
  end.

Definition text_affinity (v : pyval) : pyval :=
  match v with
  | PInt z => PStr (decimal z)
  | PFloat f => PStr (real_to_text f)
  | _ => v
  end.

(** What the session reads back after the INSERT of a processed value:
    the parameter is bound, SQLite applies the affinity of the column,
    and the result processor of the type reads the stored value. The
    texts made by the processors of [JSON], [Date] and [DateTime]
    always bind, and are read back as the values they stand for; a
    BLOB column has no affinity. *)
Definition store (t : column_type) (v : pyval) : outcome pyval :=
  match t with
  | VARCHAR => x <- bind v ;; Ok (text_affinity x)
  | INTEGER => x <- bind v ;; Ok (integer_affinity x)
  | FLOAT => x <- bind v ;; Ok (real_affinity x)
  | JSON =>
      Ok match v with
         | PInt _ | PFloat _ => json_number v
         | _ => json_loaded v
         end
  | DATE | DATETIME | BLOB => Ok v
  end.

(** ** Values that pass as they are *)

(** What [sqlite3] asks of a value before anything else: an integer
    fits 64 bits and a text has no surrogate. *)
Definition fits (v : pyval) : bool :=
  match v with
  | PInt z => int64 z
  | PStr s => encodable s
  | _ => true
  end.

(** A value of the column's own Python type that fits: NULL anywhere,
    a text in a [String] column, an integer in an [Integer] column, an
    integer or a float in a [Float] column, a list of texts in a [JSON]
    column. *)
Definition native (t : column_type) (v : pyval) : bool :=
  match t, v with
  | _, PNone => true
  | VARCHAR, PStr s => encodable s
  | INTEGER, PInt z => int64 z
  | FLOAT, PInt z => int64 z
  | FLOAT, PFloat _ => true
  | JSON, PList l =>
      forallb (fun x => match x with PStr _ => true | _ => false end) l
  | _, _ => false
  end.

(** ** Comparisons *)

(** The value of a number kept in a column, when it is finite: SQLite
    compares an INTEGER and a REAL by their exact values. *)
Definition exact (z : Z) : QArith_base.Q := QArith_base.inject_Z z.

Definition number (v : pyval) : option QArith_base.Q :=
  match v with
  | PBool b => Some (exact (if b then 1 else 0))
  | PInt z => Some (exact z)
  | PFloat f =>
      if float_is_finite f then
        let m := float_mantissa f in
        let e := float_exponent f in
        let signed n := if float_sign f then - n else n in
        Some (if Z.leb 0 e then exact (signed (m * 2 ^ e))
              else QArith_base.Qmake (signed m) (Z.to_pos (2 ^ (- e))))
      else None
  | _ => None
  end.

Definition leb (x y : QArith_base.Q) : bool := QArith_base.Qle_bool x y.

(** [str(b)] for [bytes]. *)
Definition bytes_repr (b : list byte) : pystr :=
  let codes := map Byte.to_N b in
  let quote :=
    if existsb (N.eqb 39) codes && negb (existsb (N.eqb 34) codes)
    then 34%N else 39%N in
  let escaped (c : N) : pystr :=
    if N.eqb c quote || N.eqb c 92 then [92%N; c]
    else if N.eqb c 9 then lit "\t"
    else if N.eqb c 10 then lit "\n"
    else if N.eqb c 13 then lit "\r"
    else if N.ltb c 32 || N.leb 127 c
         then lit "\x" ++ [hex_digit (N.div c 16); hex_digit (N.modulo c 16)]
    else [c] in
  98%N :: quote :: flat_map escaped codes ++ [quote].

(** A key given to the constructor, as the [id] column keeps it:
    [None] for NULL. The column has TEXT affinity, so the key is a
    text, or a BLOB, which the model knows by the text [str] makes of
    it. *)
Definition key (v : pyval) : outcome (option pystr) :=
  x <- store VARCHAR v ;;
  Ok match x with
     | PStr s => Some s
     | PBytes b => Some (bytes_repr b)
     | _ => None
     end.

End Sql.
End Sql.

(* ================================================================== *)
(** * models.py *)
(* ================================================================== *)

(** A row of the [foods] table, as a session reads it. The key is kept
    as text; the other columns hold the Python value read back, [PNone]
    for NULL. *)
Module Food.

Record t : Type := mk {
  id : pystr;
  barcode : pyval;
  name : pyval;
  brand : pyval;
  category : pyval;
  calories : pyval;
  protein : pyval;
  fat : pyval;
  carbs : pyval;
  fiber : pyval;
  sugars : pyval;
  sodium : pyval;
  allergens : pyval;
  expiry_date : pyval;
  quantity : pyval;
  location : pyval;
  barcode_image_url : pyval;
  barcode_image_data : pyval;
  created_at : pyval
}.

(** The keywords the callers pass to the constructor: the fields of
    [FoodBase] (schemas.py) and [created_at]. With [id] they are the
    columns of the table. *)
Definition columns : list pystr :=
  map lit
    [ "barcode"; "name"; "brand"; "category"; "calories"; "protein"; "fat";
      "carbs"; "fiber"; "sugars"; "sodium"; "allergens"; "expiry_date";
      "quantity"; "location"; "barcode_image_url"; "barcode_image_data";
      "created_at" ]%string.

Definition is_column (k : pystr) : bool :=
  existsb (PyStr.eqb k) (lit "id" :: columns).

Definition kw (kwargs : dict) (k : string) : pyval :=
  match dict_get (lit k) kwargs with
  | Some v => v
  | None => PNone
  end.

Section Constructor.

Context {G : Engine}.

(** The constructor of the declarative base:
    [for k in kwargs: if not hasattr(cls_, k): raise TypeError(...);
    setattr(self, k, kwargs[k])]. Assigning to a column keeps the value
    for the INSERT, whatever it is. *)
Fixpoint set_attributes (kwargs : dict) : outcome unit :=
  match kwargs with
  | [] => Ok tt
  | (k, v) :: rest =>
      if is_column k then set_attributes rest
      else
        match class_attribute k v with
        | None =>
            Raise (mk_exn TypeError
                     (lit "'" ++ k ++ lit "' is an invalid keyword argument for Food"))
        | Some (Raise e) => Raise e
        | Some (Ok _) => set_attributes rest
        end
  end.

(** The constructor called with [kwargs] as keywords: a new instance,
    given as the key it was constructed with ([None] when there was
    none) and its other attributes; those not given stay unset, and the
    row has no key before the INSERT. *)
Definition init (kwargs : dict) : outcome (pyval * t) :=
  ok <- set_attributes kwargs ;;
  Ok (kw kwargs "id",
      {| id := [];
         barcode := kw kwargs "barcode";
         name := kw kwargs "name";
         brand := kw kwargs "brand";
         category := kw kwargs "category";
         calories := kw kwargs "calories";
         protein := kw kwargs "protein";
         fat := kw kwargs "fat";
         carbs := kw kwargs "carbs";
         fiber := kw kwargs "fiber";
         sugars := kw kwargs "sugars";
         sodium := kw kwargs "sodium";
         allergens := kw kwargs "allergens";
         expiry_date := kw kwargs "expiry_date";
         quantity := kw kwargs "quantity";
         location := kw kwargs "location";
         barcode_image_url := kw kwargs "barcode_image_url";
         barcode_image_data := kw kwargs "barcode_image_data";
         created_at := kw kwargs "created_at" |}).

End Constructor.

(** [x.isoformat() if x else None]. *)
Definition isoformat_or_none (x : pyval) : outcome pyval :=
  if truthy x then
    match x with
    | PDate iso => Ok (PStr iso)
    | _ => Raise (no_attribute x "isoformat")
    end
  else Ok PNone.

(** [x.decode('base64') if x else None]: [base64] is not a text
    encoding, so [bytes.decode] raises [LookupError] whenever it is
    reached. *)
Definition decode_base64_or_none (x : pyval) : outcome pyval :=
  if truthy x then
    match x with
    | PBytes _ =>
        Raise (mk_exn LookupError
                 (lit "'base64' is not a text encoding; use codecs.decode() to handle arbitrary codecs"))
    | _ => Raise (no_attribute x "decode")
    end
  else Ok PNone.

Definition to_dict (self : t) : outcome dict :=
  expiry <- isoformat_or_none (expiry_date self) ;;
  image <- decode_base64_or_none (barcode_image_data self) ;;
  created <- isoformat_or_none (created_at self) ;;
  Ok [ (lit "id", PStr (id self));
       (lit "barcode", barcode self);
       (lit "name", name self);
       (lit "brand", brand self);
       (lit "category", category self);
       (lit "calories", calories self);
       (lit "protein", protein self);
       (lit "fat", fat self);
       (lit "carbs", carbs self);
       (lit "fiber", fiber self);
       (lit "sugars", sugars self);
       (lit "sodium", sodium self);
       (lit "allergens", allergens self);
       (lit "expiry_date", expiry);
       (lit "quantity", quantity self);
       (lit "location", location self);
       (lit "barcode_image_url", barcode_image_url self);
       (lit "barcode_image_data", image);
       (lit "created_at", created) ].

(** The column default applied by the session before the INSERT:
    [quantity] 0. *)
Definition default_quantity (f : t) : t :=
  {| id := id f;
     barcode := barcode f;
     name := name f;
     brand := brand f;
     category := category f;
     calories := calories f;
     protein := protein f;
     fat := fat f;
     carbs := carbs f;
     fiber := fiber f;
     sugars := sugars f;
     sodium := sodium f;
     allergens := allergens f;
     expiry_date := expiry_date f;
     quantity := match quantity f with PNone => PInt 0 | q => q end;
     location := location f;
     barcode_image_url := barcode_image_url f;
     barcode_image_data := barcode_image_data f;
     created_at := created_at f |}.

(** One station of the INSERT applied to every column but the key, in
    the order of the columns, each with its type; the first exception
    ends it. *)
Definition traverse (station : Sql.column_type -> pyval -> outcome pyval)
    (f : t) : outcome t :=
  barcode' <- station Sql.VARCHAR (barcode f) ;;
  name' <- station Sql.VARCHAR (name f) ;;
  brand' <- station Sql.VARCHAR (brand f) ;;
  category' <- station Sql.VARCHAR (category f) ;;
  calories' <- station Sql.INTEGER (calories f) ;;
  protein' <- station Sql.FLOAT (protein f) ;;
  fat' <- station Sql.FLOAT (fat f) ;;
  carbs' <- station Sql.FLOAT (carbs f) ;;
  fiber' <- station Sql.FLOAT (fiber f) ;;
  sugars' <- station Sql.FLOAT (sugars f) ;;
  sodium' <- station Sql.FLOAT (sodium f) ;;
  allergens' <- station Sql.JSON (allergens f) ;;
  expiry_date' <- station Sql.DATE (expiry_date f) ;;
  quantity' <- station Sql.INTEGER (quantity f) ;;
  location' <- station Sql.VARCHAR (location f) ;;
  barcode_image_url' <- station Sql.VARCHAR (barcode_image_url f) ;;
  barcode_image_data' <- station Sql.BLOB (barcode_image_data f) ;;
  created_at' <- station Sql.DATETIME (created_at f) ;;
  Ok {| id := id f;
        barcode := barcode';
        name := name';
        brand := brand';
        category := category';
        calories := calories';
        protein := protein';
        fat := fat';
        carbs := carbs';
        fiber := fiber';
        sugars := sugars';
        sodium := sodium';
        allergens := allergens';
        expiry_date := expiry_date';
        quantity := quantity';
        location := location';
        barcode_image_url := barcode_image_url';
        barcode_image_data := barcode_image_data';
        created_at := created_at' |}.

(** Every column holds a value of its own type that fits. *)
Definition native (f : t) : bool :=
  Sql.native Sql.VARCHAR (barcode f)
  && Sql.native Sql.VARCHAR (name f)
  && Sql.native Sql.VARCHAR (brand f)
  && Sql.native Sql.VARCHAR (category f)
  && Sql.native Sql.INTEGER (calories f)
  && Sql.native Sql.FLOAT (protein f)
  && Sql.native Sql.FLOAT (fat f)
  && Sql.native Sql.FLOAT (carbs f)
  && Sql.native Sql.FLOAT (fiber f)
  && Sql.native Sql.FLOAT (sugars f)
  && Sql.native Sql.FLOAT (sodium f)
  && Sql.native Sql.JSON (allergens f)
  && Sql.native Sql.DATE (expiry_date f)
  && Sql.native Sql.INTEGER (quantity f)
  && Sql.native Sql.VARCHAR (location f)
  && Sql.native Sql.VARCHAR (barcode_image_url f)
  && Sql.native Sql.BLOB (barcode_image_data f)
  && Sql.native Sql.DATETIME (created_at f).

(** What the server supplies: the key the row is stored under, and its
    clock for [created_at] when none was given. *)
Definition server_defaults (key now : pystr) (f : t) : t :=
  {| id := key;
     barcode := barcode f;
     name := name f;
     brand := brand f;
     category := category f;
     calories := calories f;
     protein := protein f;
     fat := fat f;
     carbs := carbs f;
     fiber := fiber f;
     sugars := sugars f;
     sodium := sodium f;
     allergens := allergens f;
     expiry_date := expiry_date f;
     quantity := quantity f;
     location := location f;
     barcode_image_url := barcode_image_url f;
     barcode_image_data := barcode_image_data f;
     created_at := match created_at f with PNone => PDate now | c => c end |}.

(** The NOT NULL columns beside the key. *)
Definition not_null_violation (f : t) : option string :=
  match barcode f, name f with
  | PNone, _ => Some "barcode"%string
  | _, PNone => Some "name"%string
  | _, _ => None
  end.

(** The SQL test [Food.barcode == code]. *)
Definition has_barcode (code : pystr) (f : t) : bool :=
  match barcode f with
  | PStr b => PyStr.eqb b code
  | _ => false
  end.

Definition has_id (key : pystr) (f : t) : bool := PyStr.eqb (id f) key.

End Food.

(** A row of the [nutrition_logs] table. *)
Module NutritionLog.

Record t : Type := mk {
  id : pystr;
  food_id : pystr;
  quantity : Z;
  timestamp : pystr;
  action : pystr
}.

(** The CHECK constraint [check_valid_action]. *)
Definition valid_actions : list pystr :=
  map lit [ "added"; "removed"; "consumed"; "expired" ]%string.

Definition check_valid_action (l : t) : bool :=
  existsb (PyStr.eqb (action l)) valid_actions.

Definition has_id (key : pystr) (l : t) : bool := PyStr.eqb (id l) key.

End NutritionLog.

(** The committed content of the database. *)
Record database : Type := mk_database {
  foods : list Food.t;
  nutrition_logs : list NutritionLog.t
}.

(* ================================================================== *)
(** * schemas.py *)
(* ================================================================== *)

Module Schemas.

Record BarcodeImageUploadRequest : Type := mk_request {
  imageData : pystr;
  imageFormat : pystr;
  action : pystr
}.

Record BarcodeImageUploadResponse : Type := mk_response {
  success : bool;
  barcode : option pystr;
  product_data : option dict;
  message : pystr;
  error : option pystr
}.

End Schemas.

Import Schemas.

(* ================================================================== *)
(** * The world outside the code *)
(* ================================================================== *)

(** What [requests.get] returns: the status code and what
    [response.json()] yields. *)
Record response : Type := mk_http {
  status_code : Z;
  json : outcome pyval
}.

(** A symbol found by [pyzbar]; only its [data] is read. *)
Record Decoded : Type := mk_decoded { data : list byte }.

(** The libraries and services the code calls: [base64], OpenCV, pyzbar,
    the product catalog reached through [requests], and the database
    server (key generation, clock, triggers on [nutrition_logs]). The
    catalog and the server depend on the moment of the call. *)
Class Externals : Type := {
  (* SQLAlchemy and SQLite, where the model takes them as given *)
  engine :: Engine;
  (* a decoded image, [np.ndarray] *)
  image : Type;
  (* [base64.b64decode(s)] *)
  b64decode : pystr -> outcome (list byte);
  (* [cv2.imdecode(np.frombuffer(b, np.uint8), cv2.IMREAD_COLOR)];
     [None] when the bytes are not an image *)
  imdecode : list byte -> outcome (option image);
  (* [pyzbar.decode(img)] *)
  pyzbar_decode : image -> outcome (list Decoded);
  (* [cv2.cvtColor(img, cv2.COLOR_BGR2GRAY)] *)
  cvtColor_BGR2GRAY : image -> outcome image;
  (* [cv2.threshold(img, thresh, maxval, cv2.THRESH_BINARY)[1]] *)
  threshold_BINARY : image -> Z -> Z -> outcome image;
  (* [cv2.adaptiveThreshold(img, maxval, cv2.ADAPTIVE_THRESH_GAUSSIAN_C,
     cv2.THRESH_BINARY, blockSize, C)] *)
  adaptiveThreshold_GAUSSIAN_BINARY : image -> Z -> Z -> Z -> outcome image;
  (* [requests.get(url, timeout=t)] at a given moment *)
  requests_get : nat -> pystr -> Z -> outcome response;
  (* [str(uuid.uuid4())] and the server's [now()] at a given moment *)
  uuid4 : nat -> pystr;
  now : nat -> pystr;
  (* what the triggers of [nutrition_logs] do to [foods] when a row is
     inserted; [update_quantity] relies on them for the new quantity *)
  triggers : NutritionLog.t -> list Food.t -> list Food.t
}.

Section World.

Context {E : Externals}.

(** The calls whose order the properties speak about. *)
Inductive call : Type :=
| Zbar (img : image)
| CvtColor (img : image)
| Threshold (img : image)
| AdaptiveThreshold (img : image)
| HttpGet (url : pystr).

Record world : Type := mk_world {
  db : database;
  clock : nat;
  calls : list call
}.

(** A computation: it reads and changes the world and ends with a
    value or a raised exception; what it did before raising stays
    done. *)
Definition M (A : Type) : Type := world -> outcome A * world.

Definition ret {A} (a : A) : M A := fun w => (Ok a, w).

Definition raise {A} (e : exn) : M A := fun w => (Raise e, w).

Definition bind {A B} (m : M A) (k : A -> M B) : M B :=
  fun w =>
    match m w with
    | (Ok a, w') => k a w'
    | (Raise e, w') => (Raise e, w')
    end.

(** [try: m  except Exception as e: h e]. *)
Definition try_except {A} (m : M A) (h : exn -> M A) : M A :=
  fun w =>
    match m w with
    | (Ok a, w') => (Ok a, w')
    | (Raise e, w') => h e w'
    end.

Definition lift {A} (o : outcome A) : M A := fun w => (o, w).

(** The world after some more calls. *)
Definition after_calls (w : world) (cs : list call) : world :=
  {| db := db w; clock := clock w; calls := calls w ++ cs |}.

(** A recorded call to a library. *)
Definition called {A} (c : call) (o : outcome A) : M A :=
  fun w => (o, after_calls w [c]).

(** A computation that leaves the database and the clock as they
    are. *)
Definition untouched {A} (m : M A) : Prop :=
  forall w, db (snd (m w)) = db w /\ clock (snd (m w)) = clock w.

(** A computation that leaves the database as it is. *)
Definition keeps_db {A} (m : M A) : Prop :=
  forall w, db (snd (m w)) = db w.

(** How often the symbol detector was called. *)
Definition zbar_calls (cs : list call) : nat :=
  List.length (filter (fun c => match c with Zbar _ => true | _ => false end) cs).

Definition tick : M nat :=
  fun w => (Ok (clock w),
            {| db := db w; clock := S (clock w); calls := calls w |}).

Definition get_db : M database := fun w => (Ok (db w), w).

Definition put_db (d : database) : M unit :=
  fun w => (Ok tt, {| db := d; clock := clock w; calls := calls w |}).

End World.

Declare Scope io_scope.
Delimit Scope io_scope with io.
Notation "x <- m ;; k" := (bind m (fun x => k))
  (at level 61, m at next level, right associativity) : io_scope.
Notation "m ;;; k" := (bind m (fun _ => k))
  (at level 61, right associativity) : io_scope.

(* ================================================================== *)
(** * barcode_detector.py *)
(* ================================================================== *)

Module BarcodeDetector.
Section BarcodeDetector.

Context {E : Externals}.

Local Open Scope io_scope.

(** [[barcode.data.decode('utf-8') for barcode in barcodes]]. *)
Definition detected (barcodes : list Decoded) : outcome (list pystr) :=
  omap (fun barcode => Utf8.decode (data barcode)) barcodes.

Definition preprocess_image (img : image) : M (list image) :=
  gray <- called (CvtColor img) (cvtColor_BGR2GRAY img) ;;
  thresh <- called (Threshold gray) (threshold_BINARY gray 128 255) ;;
  adaptive <- called (AdaptiveThreshold gray)
                (adaptiveThreshold_GAUSSIAN_BINARY gray 255 11 2) ;;
  ret [gray; thresh; adaptive].

(** The loop over [processed_images] (barcode_detector.py, lines
    52-60), with the final [return []] when it runs out. *)
Fixpoint scan_processed (processed_images : list image) : M (list pystr) :=
  match processed_images with
  | [] => ret []
  | processed_img :: rest =>
      barcodes <- called (Zbar processed_img) (pyzbar_decode processed_img) ;;
      match barcodes with
      | _ :: _ => lift (detected barcodes)
      | [] => scan_processed rest
      end
  end.

Definition detect_barcodes_with_preprocessing
    (image_data image_format : pystr) : M (list pystr) :=
  try_except
    (image_bytes <- lift (b64decode image_data) ;;
     img <- lift (imdecode image_bytes) ;;
     match img with
     | None => ret []
     | Some img =>
         barcodes <- called (Zbar img) (pyzbar_decode img) ;;
         match barcodes with
         | _ :: _ => lift (detected barcodes)
         | [] =>
             processed_images <- preprocess_image img ;;
             scan_processed processed_images
         end
     end)
    (fun e => ret []).

Definition valid_lengths : list nat := [8; 12; 13; 14]%nat.

Definition validate_barcode_format (barcode : pystr) : bool :=
  if negb (isdigit barcode) then false
  else
    let length := List.length barcode in
    existsb (Nat.eqb length) valid_lengths.

End BarcodeDetector.
End BarcodeDetector.

(* ================================================================== *)
(** * crud.py *)
(* ================================================================== *)

Module Crud.
Section Crud.

Context {E : Externals}.

Local Open Scope io_scope.

(** [db.query(Food).filter(p).first()]. The key or the barcode that
    [p] compares with reaches the query from a path of the API or from
    a decoded symbol, as text that SQLite binds. *)
Definition query_first (p : Food.t -> bool) : M (option Food.t) :=
  d <- get_db ;;
  ret (find p (foods d)).

(** [db.rollback()]: the model keeps the committed content only, and
    every operation here commits at most once, so nothing is left to
    undo. *)
Definition rollback : M unit := ret tt.

(** [db.add(food); db.commit(); db.refresh(food)]. The defaults of the
    session fill in; the bind processors run over the columns; the
    parameters are bound in the order of the columns, the key first;
    SQLite tests NOT NULL and then the primary key; and the row is read
    back as it was stored. A key not given is made by [uuid4]. *)
Definition commit_food (given : pyval) (food : Food.t) : M Food.t :=
  n <- tick ;;
  food <- lift (Food.traverse Sql.process (Food.default_quantity food)) ;;
  key <- lift (match given with
               | PNone => Ok (Some (uuid4 n))
               | _ => Sql.key given
               end) ;;
  food <- lift (Food.traverse Sql.store food) ;;
  match key with
  | None =>
      raise (mk_exn IntegrityError (lit "NOT NULL constraint failed: foods.id"))
  | Some key =>
      let row := Food.server_defaults key (now n) food in
      match Food.not_null_violation row with
      | Some column =>
          raise (mk_exn IntegrityError
                   (lit "NOT NULL constraint failed: foods." ++ lit column))
      | None =>
          d <- get_db ;;
          if existsb (Food.has_id key) (foods d) then
            raise (mk_exn IntegrityError (lit "UNIQUE constraint failed: foods.id"))
          else
            put_db {| foods := foods d ++ [row];
                      nutrition_logs := nutrition_logs d |} ;;;
            ret row
      end
  end.

Definition create_food (food_data : dict) : M Food.t :=
  try_except
    (food <- lift (Food.init food_data) ;;
     commit_food (fst food) (snd food))
    (fun e => rollback ;;; raise e).

Definition get_food_by_barcode (barcode : pystr) : M (option Food.t) :=
  query_first (Food.has_barcode barcode).

Definition get_food_by_id (food_id : pystr) : M (option Food.t) :=
  query_first (Food.has_id food_id).

(** [db.add(nutrition_log); db.commit()]: the row gets its key and
    timestamp; the parameters [food_id], [quantity] and [action] are
    bound in this order; SQLite tests the CHECK constraint and then the
    primary key; and the triggers of the table run. *)
Definition commit_log (food_id : pystr) (quantity : Z) (action : pystr)
  : M NutritionLog.t :=
  n <- tick ;;
  bound <- lift (Sql.bind (PStr food_id)) ;;
  bound <- lift (Sql.bind (PInt quantity)) ;;
  bound <- lift (Sql.bind (PStr action)) ;;
  let row := {| NutritionLog.id := uuid4 n;
                NutritionLog.food_id := food_id;
                NutritionLog.quantity := quantity;
                NutritionLog.timestamp := now n;
                NutritionLog.action := action |} in
  if NutritionLog.check_valid_action row then
    d <- get_db ;;
    if existsb (NutritionLog.has_id (uuid4 n)) (nutrition_logs d) then
      raise (mk_exn IntegrityError
               (lit "UNIQUE constraint failed: nutrition_logs.id"))
    else
      put_db {| foods := triggers row (foods d);
                nutrition_logs := nutrition_logs d ++ [row] |} ;;;
      ret row
  else
    raise (mk_exn IntegrityError (lit "CHECK constraint failed: check_valid_action")).

(** [db.refresh(food)]: the row is read again by its key. *)
Definition refresh (food : Food.t) : M Food.t :=
  found <- query_first (Food.has_id (Food.id food)) ;;
  match found with
  | Some row => ret row
  | None => raise (mk_exn ExternalError (lit "Could not refresh instance"))
  end.

Definition update_quantity (food_id : pystr) (quantity_change : Z)
    (action : pystr) : M (option Food.t) :=
  try_except
    (food <- query_first (Food.has_id food_id) ;;
     match food with
     | None => ret None
     | Some food =>
         commit_log food_id (Z.abs quantity_change) action ;;;
         food <- refresh food ;;
         ret (Some food)
     end)
    (fun e => rollback ;;; raise e).

(** [db.query(Food).filter(p).all()]. *)
Definition query_all (p : Food.t -> bool) : M (list Food.t) :=
  d <- get_db ;;
  ret (filter p (foods d)).

(** [db.delete(food)], as the commit applies it: the row of that key
    goes, and with it (cascade "all, delete-orphan") the log entries
    that refer to it. *)
Definition delete (food : Food.t) : M unit :=
  d <- get_db ;;
  put_db {| foods :=
              filter (fun row => negb (Food.has_id (Food.id food) row)) (foods d);
            nutrition_logs :=
              filter (fun entry =>
                        negb (PyStr.eqb (NutritionLog.food_id entry) (Food.id food)))
                     (nutrition_logs d) |}.

Definition delete_food (food_id : pystr) : M bool :=
  try_except
    (food <- query_first (Food.has_id food_id) ;;
     match food with
     | None => ret false
     | Some food =>
         delete food ;;;
         ret true
     end)
    (fun e => rollback ;;; raise e).

(** [for food in foods_to_delete: db.delete(food)]. *)
Fixpoint delete_each (foods_to_delete : list Food.t) : M unit :=
  match foods_to_delete with
  | [] => ret tt
  | food :: rest =>
      delete food ;;;
      delete_each rest
  end.

Definition delete_food_by_barcode (barcode : pystr) : M bool :=
  try_except
    (foods_to_delete <- query_all (Food.has_barcode barcode) ;;
     match foods_to_delete with
     | [] => ret false
     | _ :: _ =>
         delete_each foods_to_delete ;;;
         ret true
     end)
    (fun e => rollback ;;; raise e).

(** The number in the [quantity] column, when it is a finite one. The
    column has INTEGER affinity, so it holds an INTEGER, a REAL that is
    not a whole number, or what could not be read as a number: NULL, a
    text, a BLOB. *)
Definition stock (food : Food.t) : option QArith_base.Q :=
  Sql.number (Food.quantity food).

(** [and_(Food.quantity <= threshold, Food.quantity >= 0)]: NULL
    satisfies no comparison, a text or a BLOB is above every number,
    and an infinite REAL fails one of the two bounds. *)
Definition low_stock (threshold : Z) (food : Food.t) : bool :=
  match stock food with
  | Some q => Sql.leb q (Sql.exact threshold) && Sql.leb (Sql.exact 0) q
  | None => false
  end.

(** [order_by(asc(Food.quantity))], on rows that have a quantity. *)
Definition stock_leb (a b : Food.t) : bool :=
  match stock a, stock b with
  | Some x, Some y => Sql.leb x y
  | _, _ => true
  end.

Fixpoint insert_by_stock (food : Food.t) (sorted : list Food.t) : list Food.t :=
  match sorted with
  | [] => [food]
  | row :: rest =>
      if stock_leb food row then food :: sorted
      else row :: insert_by_stock food rest
  end.

Definition order_by_stock (rows : list Food.t) : list Food.t :=
  fold_right insert_by_stock [] rows.

(** The order of the report: both rows have a quantity and the first
    is not larger. *)
Definition stock_le (a b : Food.t) : Prop :=
  exists x y, stock a = Some x /\ stock b = Some y /\ QArith_base.Qle x y.

(** The two bounds of the report. *)
Definition in_stock_range (threshold : Z) (q : QArith_base.Q) : Prop :=
  QArith_base.Qle (Sql.exact 0) q /\ QArith_base.Qle q (Sql.exact threshold).

(** The threshold is a parameter of the query, bound as every [int]
    is. *)
Definition get_low_stock_foods (threshold : Z) : M (list Food.t) :=
  bound <- lift (Sql.bind (PInt threshold)) ;;
  d <- get_db ;;
  ret (order_by_stock (filter (low_stock threshold) (foods d))).

End Crud.
End Crud.

(* ================================================================== *)
(** * main.py: the barcode upload endpoint *)
(* ================================================================== *)

Module Main.

(** ** The normalised record (the [food_data] dictionary) *)

Local Open Scope py_scope.

(** [round(nutriments.get(key, 0)) if nutriments.get(key) else None],
    with [rounding] for the one- or two-argument [round]. *)
Definition nutrient (nutriments : pyval) (key : string)
    (rounding : pyval -> outcome pyval) : outcome pyval :=
  present <- get nutriments key PNone ;;
  if truthy present then
    value <- get nutriments key (PInt 0) ;;
    rounding value
  else Ok PNone.

Definition name_of (product : pyval) : outcome pyval :=
  raw <- get product "product_name" (PStr (lit "Unknown Product")) ;;
  stripped <- Py.strip raw ;;
  Ok (PStr stripped).

Definition brand_of (product : pyval) : outcome pyval :=
  raw <- get product "brands" (PStr (lit "")) ;;
  stripped <- Py.strip raw ;;
  Ok (if truthy (PStr stripped) then PStr stripped else PNone).

Definition category_of (product : pyval) : outcome pyval :=
  present <- get product "categories" PNone ;;
  if truthy present then
    raw <- get product "categories" (PStr (lit "")) ;;
    parts <- split_comma raw ;;
    Ok (PStr (PyStr.strip (hd [] parts)))
  else Ok PNone.

Definition allergens_of (product : pyval) : outcome pyval :=
  present <- get product "allergens" PNone ;;
  if truthy present then
    raw <- get product "allergens" (PStr (lit "")) ;;
    parts <- split_comma raw ;;
    Ok (PList (map PStr parts))
  else Ok (PList []).

(** [{k: v for k, v in food_data.items()
      if v is not None and v != '' and v != []}]. *)
Definition remove_none (food_data : dict) : dict :=
  filter (fun kv => is_provided (snd kv)) food_data.

(** The dictionary built from the catalog's [product] (main.py, lines
    296-315): entries evaluated in source order, then filtered. *)
Definition build_food_data (barcode : pystr) (product : pyval) : outcome dict :=
  nutriments <- get product "nutriments" (PDict []) ;;
  name <- name_of product ;;
  brand <- brand_of product ;;
  category <- category_of product ;;
  calories <- nutrient nutriments "energy-kcal_100g" round ;;
  protein <- nutrient nutriments "proteins_100g" round2 ;;
  fat <- nutrient nutriments "fat_100g" round2 ;;
  carbs <- nutrient nutriments "carbohydrates_100g" round2 ;;
  fiber <- nutrient nutriments "fiber_100g" round2 ;;
  sugars <- nutrient nutriments "sugars_100g" round2 ;;
  sodium <- nutrient nutriments "sodium_100g" round2 ;;
  allergens <- allergens_of product ;;
  Ok (remove_none
        [ (lit "barcode", PStr barcode);
          (lit "name", name);
          (lit "brand", brand);
          (lit "category", category);
          (lit "calories", calories);
          (lit "protein", protein);
          (lit "fat", fat);
          (lit "carbs", carbs);
          (lit "fiber", fiber);
          (lit "sugars", sugars);
          (lit "sodium", sodium);
          (lit "allergens", allergens);
          (lit "quantity", PInt 1) ]).

(** The entries of the record, before the filter, when the
    normalisation does not raise. *)
Record entries : Type := mk_entries {
  e_name : pyval; e_brand : pyval; e_category : pyval;
  e_calories : pyval; e_protein : pyval; e_fat : pyval; e_carbs : pyval;
  e_fiber : pyval; e_sugars : pyval; e_sodium : pyval; e_allergens : pyval
}.

Definition unfiltered (barcode : pystr) (e : entries) : dict :=
  [ (lit "barcode", PStr barcode);
    (lit "name", e_name e);
    (lit "brand", e_brand e);
    (lit "category", e_category e);
    (lit "calories", e_calories e);
    (lit "protein", e_protein e);
    (lit "fat", e_fat e);
    (lit "carbs", e_carbs e);
    (lit "fiber", e_fiber e);
    (lit "sugars", e_sugars e);
    (lit "sodium", e_sodium e);
    (lit "allergens", e_allergens e);
    (lit "quantity", PInt 1) ].

(** [product.get('nutriments', {}).get(key)]: what the code reads as
    the source field of a nutrient. *)
Definition source_nutrient (product : pyval) (key : string) : outcome pyval :=
  nutriments <- get product "nutriments" (PDict []) ;;
  get nutriments key PNone.

(** The source fields of the nutrients and the fields they become. *)
Definition nutrient_fields : list (string * string) :=
  [ ("energy-kcal_100g", "calories"); ("proteins_100g", "protein");
    ("fat_100g", "fat"); ("carbohydrates_100g", "carbs");
    ("fiber_100g", "fiber"); ("sugars_100g", "sugars");
    ("sodium_100g", "sodium") ]%string.

(** ** The responses of the endpoint, one per [return] *)

Definition NotFound : BarcodeImageUploadResponse :=
  {| success := false;
     barcode := None;
     product_data := None;
     message := lit "No barcode detected in the uploaded image";
     error := Some (lit "No barcode found") |}.

Definition InvalidFormat : BarcodeImageUploadResponse :=
  {| success := false;
     barcode := None;
     product_data := None;
     message := lit "Invalid barcode format detected";
     error := Some (lit "Invalid barcode format") |}.

Definition BarcodeOnly (code : pystr) : BarcodeImageUploadResponse :=
  {| success := true;
     barcode := Some code;
     product_data := None;
     message := lit "Barcode detected but product not found in OpenFoodFacts database";
     error := None |}.

Definition FetchFailed (e : exn) : BarcodeImageUploadResponse :=
  {| success := false;
     barcode := None;
     product_data := None;
     message := lit "Error fetching product data from OpenFoodFacts";
     error := Some (exn_text e) |}.

Definition AlreadyExists (code : pystr) (existing : dict)
  : BarcodeImageUploadResponse :=
  {| success := true;
     barcode := Some code;
     product_data := Some existing;
     message := lit "Barcode detected and food already exists in database";
     error := None |}.

Definition Saved (code : pystr) (created : dict) : BarcodeImageUploadResponse :=
  {| success := true;
     barcode := Some code;
     product_data := Some created;
     message := lit "Barcode detected and product saved to database";
     error := None |}.

Definition SavedFailed (code : pystr) (food_data : dict)
  : BarcodeImageUploadResponse :=
  {| success := true;
     barcode := Some code;
     product_data := Some food_data;
     message := lit "Barcode detected but error occurred while saving to database";
     error := None |}.

Definition Resolved (code : pystr) (food_data : dict)
  : BarcodeImageUploadResponse :=
  {| success := true;
     barcode := Some code;
     product_data := Some food_data;
     message := lit "Barcode detected successfully";
     error := None |}.

Local Close Scope py_scope.

(** ** The endpoint *)

Section Endpoint.

Context {E : Externals}.

Local Open Scope io_scope.

Definition openfoodfacts_url (barcode : pystr) : pystr :=
  lit "https://world.openfoodfacts.org/api/v0/product/" ++ barcode ++ lit ".json".

(** [requests.get(url, timeout=timeout)]. *)
Definition http_get (url : pystr) (timeout : Z) : M response :=
  n <- tick ;;
  called (HttpGet url) (requests_get n url timeout).

(** The world after the lookup for a barcode: one tick of the clock
    and one recorded request. *)
Definition looked_up (barcode : pystr) (w : world) : world :=
  snd (http_get (openfoodfacts_url barcode) 10 w).

(** The inner [try] around the lookup (main.py, lines 274-289): either
    it returns a response of the endpoint, or the catalog's answer goes
    on to normalisation. *)
Definition fetch (barcode : pystr) : M (BarcodeImageUploadResponse + response) :=
  try_except
    (response <- http_get (openfoodfacts_url barcode) 10 ;;
     if negb (Z.eqb (status_code response) 200) then
       ret (inl (BarcodeOnly barcode))
     else
       body <- lift (json response) ;;
       status <- lift (get body "status" PNone) ;;
       if eq_zero status then ret (inl (BarcodeOnly barcode))
       else ret (inr response))
    (fun e => ret (inl (FetchFailed e))).

(** The [scan_and_save] branch, with its own [try] (main.py, lines
    318-349). *)
Definition save (barcode : pystr) (food_data : dict)
  : M BarcodeImageUploadResponse :=
  try_except
    (existing_food <- Crud.get_food_by_barcode barcode ;;
     match existing_food with
     | Some existing_food =>
         existing <- lift (Food.to_dict existing_food) ;;
         ret (AlreadyExists barcode existing)
     | None =>
         created_food <- Crud.create_food food_data ;;
         created <- lift (Food.to_dict created_food) ;;
         ret (Saved barcode created)
     end)
    (fun e => ret (SavedFailed barcode food_data)).

Definition valid_actions : list pystr := map lit [ "scan"; "scan_and_save" ]%string.

(** From the lookup to the last [return] (main.py, lines 271-357):
    what the endpoint does with a barcode that passed the format
    check. *)
Definition resolve (request : BarcodeImageUploadRequest) (barcode : pystr)
  : M BarcodeImageUploadResponse :=
  fetched <- fetch barcode ;;
  match fetched with
  | inl early => ret early
  | inr response =>
      body <- lift (json response) ;;
      product <- lift (getitem body "product") ;;
      food_data <- lift (build_food_data barcode product) ;;
      if PyStr.eqb (action request) (lit "scan_and_save") then
        save barcode food_data
      else ret (Resolved barcode food_data)
  end.

(** The [except] clauses of the endpoint (main.py, lines 359-366): an
    [HTTPException] goes on as it is, anything else becomes a 500. *)
Definition boundary {A} (e : exn) : M A :=
  match exn_cls e with
  | HTTPException _ => raise e
  | _ =>
      raise (mk_exn (HTTPException 500)
               (lit "Error processing barcode image: " ++ exn_text e))
  end.

Definition upload_barcode_image (request : BarcodeImageUploadRequest)
  : M BarcodeImageUploadResponse :=
  try_except
    (if negb (existsb (PyStr.eqb (action request)) valid_actions) then
       raise (mk_exn (HTTPException 400)
                (lit "Action must be 'scan' or 'scan_and_save'"))
     else
       barcodes <- BarcodeDetector.detect_barcodes_with_preprocessing
                     (imageData request) (imageFormat request) ;;
       match barcodes with
       | [] => ret NotFound
       | barcode :: _ =>
           if negb (BarcodeDetector.validate_barcode_format barcode) then
             ret InvalidFormat
           else resolve request barcode
       end)
    boundary.

End Endpoint.
End Main.

(* ================================================================== *)
(** * A small world to run the code in *)
(* ================================================================== *)

(** Stand-ins for the libraries, used to run the definitions on concrete
    requests. An image is a number. The text ["1..."] is a photograph in
    which the barcode 12345678 is read directly; in ["2..."] it is read
    only after the fixed threshold; nothing else decodes as an image. *)
Module Scenario.

Local Open Scope N_scope.

Definition bytes_of (s : pystr) : list byte :=
  map (fun c => match Byte.of_N c with Some b => b | None => x00 end) s.

Definition fake_b64decode (s : pystr) : outcome (list byte) :=
  if forallb (fun c => N.ltb c 128) s then Ok (bytes_of s)
  else Raise (mk_exn ValueError
                (lit "string argument should contain only ASCII characters")).

Definition fake_imdecode (b : list byte) : outcome (option N) :=
  match b with
  | [] => Raise (mk_exn ExternalError (lit "(-215:Assertion failed) !buf.empty()"))
  | c :: _ =>
      if N.eqb (Byte.to_N c) 49 then Ok (Some 1)
      else if N.eqb (Byte.to_N c) 50 then Ok (Some 2)
      else Ok None
  end.

Definition gray (img : N) : N := img + 100.
Definition thresh (g : N) : N := g + 100.
Definition adaptive (g : N) : N := g + 200.

Definition ean8 : pystr := lit "12345678".

Definition fake_pyzbar_decode (img : N) : outcome (list Decoded) :=
  if N.eqb img 1 || N.eqb img (thresh (gray 2))
  then Ok [ {| data := bytes_of ean8 |} ]
  else Ok [].

Definition stamp (prefix : string) (n : nat) : pystr :=
  lit prefix ++ [48 + N.of_nat n].

(** The runs store values of the types of their columns and set no
    attribute beside the columns, so that the engine is never asked for
    one of its conversions; this one knows none. *)
Definition plain_engine : Engine :=
  {| float_of_text := fun v =>
       Raise (mk_exn ExternalError
                (lit "(builtins.ValueError) could not convert string to float"));
     real_to_text := fun _ => [];
     text_to_number := PStr;
     json_number := fun v => v;
     class_attribute := fun _ _ => None |}.

(** The libraries, around a given catalog; no trigger is installed. *)
Definition env (catalog : nat -> pystr -> Z -> outcome response) : Externals :=
  {| engine := plain_engine;
     image := N;
     b64decode := fake_b64decode;
     imdecode := fake_imdecode;
     pyzbar_decode := fake_pyzbar_decode;
     cvtColor_BGR2GRAY := fun img => Ok (gray img);
     threshold_BINARY := fun g _ _ => Ok (thresh g);
     adaptiveThreshold_GAUSSIAN_BINARY := fun g _ _ _ => Ok (adaptive g);
     requests_get := catalog;
     uuid4 := stamp "food-";
     now := stamp "2024-01-01T00:00:0";
     triggers := fun _ rows => rows |}.

(** Three states of the catalog: unreachable, answering without a
    product, answering with one. *)
Definition timed_out : exn :=
  mk_exn ExternalError (lit "Read timed out. (read timeout=10)").

Definition catalog_down (n : nat) (url : pystr) (timeout : Z) : outcome response :=
  Raise timed_out.

Definition catalog_without_product (n : nat) (url : pystr) (timeout : Z)
  : outcome response :=
  Ok {| status_code := 200;
        json := Ok (PDict [ (lit "status", PInt 1);
                            (lit "code", PStr ean8) ]) |}.

Definition oat_drink : pyval :=
  PDict [ (lit "product_name", PStr (lit " Oat drink "));
          (lit "brands", PStr (lit "Oatly"));
          (lit "categories", PStr (lit "Beverages, Plant milks"));
          (lit "nutriments",
            PDict [ (lit "energy-kcal_100g", PInt 46);
                    (lit "proteins_100g", PInt 0);
                    (lit "fat_100g", PInt 3) ]);
          (lit "allergens", PStr (lit "milk, soy")) ].

Definition catalog_with_product (n : nat) (url : pystr) (timeout : Z)
  : outcome response :=
  Ok {| status_code := 200;
        json := Ok (PDict [ (lit "status", PInt 1);
                            (lit "product", oat_drink) ]) |}.

(** A catalog entry whose name is blank. *)
Definition catalog_with_blank_name (n : nat) (url : pystr) (timeout : Z)
  : outcome response :=
  Ok {| status_code := 200;
        json := Ok (PDict [ (lit "status", PInt 1);
                            (lit "product",
                              PDict [ (lit "product_name", PStr (lit "   ")) ]) ]) |}.

(** The four worlds the runs below take place in. *)
Definition down : Externals := env catalog_down.
Definition without_product : Externals := env catalog_without_product.
Definition with_product : Externals := env catalog_with_product.
Definition with_blank_name : Externals := env catalog_with_blank_name.

Definition empty_db : database := {| foods := []; nutrition_logs := [] |}.

(** A row already stored under the barcode, with and without the bytes
    of a barcode image. *)
Definition stored (image_data : pyval) : Food.t :=
  {| Food.id := lit "food-a";
     Food.barcode := PStr ean8;
     Food.name := PStr (lit "Oat drink, old label");
     Food.brand := PNone;
     Food.category := PNone;
     Food.calories := PInt 40;
     Food.protein := PNone;
     Food.fat := PNone;
     Food.carbs := PNone;
     Food.fiber := PNone;
     Food.sugars := PNone;
     Food.sodium := PNone;
     Food.allergens := PNone;
     Food.expiry_date := PNone;
     Food.quantity := PInt 7;
     Food.location := PNone;
     Food.barcode_image_url := PNone;
     Food.barcode_image_data := image_data;
     Food.created_at := PDate (lit "2023-12-24T18:00:00") |}.

Definition db_with (row : Food.t) : database :=
  {| foods := [row]; nutrition_logs := [] |}.

Definition start {E : Externals} (d : database) : world :=
  {| db := d; clock := 0; calls := [] |}.

Definition request (photo action : string) : BarcodeImageUploadRequest :=
  {| imageData := lit photo; imageFormat := lit "jpeg"; action := lit action |}.

End Scenario.

(** More material for runs: photographs for the pipeline, a pantry with
    two rows and their log, and two catalog entries with the records
    built from them. *)
Module Lab.

Local Open Scope N_scope.

(** Every non-empty payload decodes, to the image numbered by its first
    byte. Image 51 (payload "3...") shows no symbol, neither as it is
    nor in a variant; image 52 (payload "4...") shows a symbol whose
    payload is the single byte 0xFF; image 53 (payload "5...") shows
    nothing as it is, that same symbol in grayscale, and the barcode
    12345678 after the fixed threshold. *)
Definition lab_imdecode (b : list byte) : outcome (option N) :=
  match b with
  | [] => Raise (mk_exn ExternalError (lit "(-215:Assertion failed) !buf.empty()"))
  | c :: _ => Ok (Some (Byte.to_N c))
  end.

Definition lab_pyzbar_decode (img : N) : outcome (list Decoded) :=
  if N.eqb img 52 || N.eqb img (Scenario.gray 53) then Ok [ {| data := [xff] |} ]
  else if N.eqb img (Scenario.thresh (Scenario.gray 53))
  then Ok [ {| data := Scenario.bytes_of Scenario.ean8 |} ]
  else Ok [].

Definition env : Externals :=
  {| engine := Scenario.plain_engine;
     image := N;
     b64decode := Scenario.fake_b64decode;
     imdecode := lab_imdecode;
     pyzbar_decode := lab_pyzbar_decode;
     cvtColor_BGR2GRAY := fun img => Ok (Scenario.gray img);
     threshold_BINARY := fun g _ _ => Ok (Scenario.thresh g);
     adaptiveThreshold_GAUSSIAN_BINARY := fun g _ _ _ => Ok (Scenario.adaptive g);
     requests_get := Scenario.catalog_down;
     uuid4 := Scenario.stamp "food-";
     now := Scenario.stamp "2024-01-01T00:00:0";
     triggers := fun _ rows => rows |}.

(** A second stored row, and a pantry of two rows with one log entry
    each. *)
Definition rice : Food.t :=
  {| Food.id := lit "food-b";
     Food.barcode := PStr (lit "87654321");
     Food.name := PStr (lit "Rice");
     Food.brand := PNone;
     Food.category := PNone;
     Food.calories := PNone;
     Food.protein := PNone;
     Food.fat := PNone;
     Food.carbs := PNone;
     Food.fiber := PNone;
     Food.sugars := PNone;
     Food.sodium := PNone;
     Food.allergens := PNone;
     Food.expiry_date := PNone;
     Food.quantity := PInt 2;
     Food.location := PNone;
     Food.barcode_image_url := PNone;
     Food.barcode_image_data := PNone;
     Food.created_at := PDate (lit "2023-12-25T09:00:00") |}.

Definition entry_for (key food_id : string) (quantity : Z) : NutritionLog.t :=
  {| NutritionLog.id := lit key;
     NutritionLog.food_id := lit food_id;
     NutritionLog.quantity := quantity;
     NutritionLog.timestamp := lit "2023-12-26T10:00:00";
     NutritionLog.action := lit "added" |}.

Definition pantry : database :=
  {| foods := [Scenario.stored PNone; rice];
     nutrition_logs := [entry_for "log-a" "food-a" 7; entry_for "log-b" "food-b" 2] |}.

(** The record built from [Scenario.oat_drink]. *)
Definition oat_record : dict :=
  [ (lit "barcode", PStr Scenario.ean8);
    (lit "name", PStr (lit "Oat drink"));
    (lit "brand", PStr (lit "Oatly"));
    (lit "category", PStr (lit "Beverages"));
    (lit "calories", PInt 46);
    (lit "fat", PInt 3);
    (lit "allergens", PList [ PStr (lit "milk"); PStr (lit " soy") ]);
    (lit "quantity", PInt 1) ].

(** A catalog entry without a name field, and its record. *)
Definition nameless : dict :=
  [ (lit "brands", PStr (lit "  ")) ].

Definition nameless_record : dict :=
  [ (lit "barcode", PStr Scenario.ean8);
    (lit "name", PStr (lit "Unknown Product"));
    (lit "quantity", PInt 1) ].

(** A third row, whose quantity is the float 2.5, and the pantry with
    it. *)
Definition flour : Food.t :=
  {| Food.id := lit "food-c";
     Food.barcode := PStr (lit "11223344");
     Food.name := PStr (lit "Flour");
     Food.brand := PNone;
     Food.category := PNone;
     Food.calories := PNone;
     Food.protein := PNone;
     Food.fat := PNone;
     Food.carbs := PNone;
     Food.fiber := PNone;
     Food.sugars := PNone;
     Food.sodium := PNone;
     Food.allergens := PNone;
     Food.expiry_date := PNone;
     Food.quantity := PFloat 4612811918334230528;
     Food.location := PNone;
     Food.barcode_image_url := PNone;
     Food.barcode_image_data := PNone;
     Food.created_at := PDate (lit "2023-12-27T09:00:00") |}.

Definition larder : database :=
  {| foods := foods pantry ++ [flour];
     nutrition_logs := nutrition_logs pantry |}.

(** A record whose calories do not fit 64 bits. *)
Definition heavy_record : dict :=
  [ (lit "barcode", PStr Scenario.ean8);
    (lit "name", PStr (lit "Oat drink"));
    (lit "calories", PInt (10 ^ 30));
    (lit "quantity", PInt 1) ].

(** Libraries whose key generator repeats itself. *)
Definition stuck : Externals :=
  {| engine := Scenario.plain_engine;
     image := N;
     b64decode := Scenario.fake_b64decode;
     imdecode := lab_imdecode;
     pyzbar_decode := lab_pyzbar_decode;
     cvtColor_BGR2GRAY := fun img => Ok (Scenario.gray img);
     threshold_BINARY := fun g _ _ => Ok (Scenario.thresh g);
     adaptiveThreshold_GAUSSIAN_BINARY := fun g _ _ _ => Ok (Scenario.adaptive g);
     requests_get := Scenario.catalog_down;
     uuid4 := fun _ => lit "food-a";
     now := Scenario.stamp "2024-01-01T00:00:0";
     triggers := fun _ rows => rows |}.

End Lab.

(* ================================================================== *)
(** * Properties *)
(* ================================================================== *)

Import BarcodeDetector.

(** ** Running the definitions *)

Example strip_example : PyStr.strip (lit "  milk  ") = lit "milk".
Proof. reflexivity. Qed.

Example split_example :
  PyStr.split comma (lit "milk, soy") = [lit "milk"; lit " soy"].
Proof. reflexivity. Qed.

Example split_empty : PyStr.split comma (lit "") = [lit ""].
Proof. reflexivity. Qed.

(** [round(2.5) = 2], [round(0.125, 2) = 0.12], [round(2.675, 2) = 2.67]
    (the float nearest to 2.675 lies below it). *)
Example round_examples :
  Py.round (PFloat 0x4004000000000000) = Ok (PInt 2)
  /\ Py.round2 (PFloat 0x3FC0000000000000) = Ok (PFloat 0x3FBEB851EB851EB8)
  /\ Py.round2 (PFloat 0x4005666666666666) = Ok (PFloat 0x40055C28F5C28F5C).
Proof. repeat split; reflexivity. Qed.

(** ** Text *)

Lemma pystr_eqb_eq (a b : pystr) : PyStr.eqb a b = true <-> a = b.
Proof.
  revert b; induction a as [|x a IH]; intros [|y b]; simpl; split;
    try congruence; try reflexivity.
  - intros H. apply andb_true_iff in H as [Hx Hab].
    apply N.eqb_eq in Hx. apply IH in Hab. congruence.
  - intros H. injection H as -> ->. rewrite N.eqb_refl. simpl. now apply IH.
Qed.

Lemma pystr_eqb_refl (a : pystr) : PyStr.eqb a a = true.
Proof. now apply pystr_eqb_eq. Qed.

Lemma split_not_nil (sep : N) (s : pystr) : PyStr.split sep s <> [].
Proof.
  destruct s as [|c s]; simpl; [discriminate|].
  destruct (N.eqb c sep); [discriminate|].
  destruct (PyStr.split sep s); discriminate.
Qed.

(** Below U+0080 the digits of [str.isdigit] are ['0'..'9']. *)
Lemma char_isdigit_ascii (c : N) :
  (c < 128)%N -> char_isdigit c = ascii_digit c.
Proof.
  intros Hc. unfold char_isdigit, ascii_digit, in_ranges, digit_ranges.
  cbn [existsb fst snd].
  repeat match goal with
         | |- context [N.leb ?a c] =>
             lazymatch a with
             | 48%N => fail
             | _ => replace (N.leb a c) with false
                      by (symmetry; apply N.leb_gt; lia)
             end
         end.
  cbn [andb orb]. now rewrite !orb_false_r.
Qed.

(** ** The format validator *)

Lemma isdigit_iff (text : pystr) :
  isdigit text = true <->
  text <> [] /\ Forall (fun c => char_isdigit c = true) text.
Proof.
  destruct text as [|c text].
  - simpl. split; [discriminate|]. intros [H _]. now contradiction H.
  - unfold isdigit. rewrite forallb_forall, Forall_forall.
    split; [intros H; split; [discriminate|exact H] | intros [_ H]; exact H].
Qed.

Lemma valid_length_iff (n : nat) :
  existsb (Nat.eqb n) valid_lengths = true <-> In n [8; 12; 13; 14]%nat.
Proof.
  unfold valid_lengths. rewrite existsb_exists. split.
  - intros (m & Hin & Hm). apply Nat.eqb_eq in Hm. now subst.
  - intros Hin. exists n. split; [assumption|apply Nat.eqb_refl].
Qed.

Lemma validate_barcode_format_steps (text : pystr) :
  validate_barcode_format text = true <->
  isdigit text = true /\ In (List.length text) [8; 12; 13; 14]%nat.
Proof.
  unfold validate_barcode_format. rewrite <- valid_length_iff.
  destruct (isdigit text); cbn [negb]; intuition discriminate.
Qed.

(** [C4], as the code has it: the validator accepts exactly the texts
    all of whose characters are digits in the sense of [str.isdigit]
    (Unicode Numeric_Type Decimal or Digit, not only ['0'..'9']) and
    whose length is 8, 12, 13 or 14. *)
Theorem validate_barcode_format_iff (text : pystr) :
  validate_barcode_format text = true <->
  Forall (fun c => char_isdigit c = true) text
  /\ In (List.length text) [8; 12; 13; 14]%nat.
Proof.
  rewrite validate_barcode_format_steps, isdigit_iff.
  split.
  - intros [[_ Hall] Hlen]. now split.
  - intros [Hall Hlen]. repeat split; try assumption.
    intros ->. simpl in Hlen. lia.
Qed.

(** On texts made of ASCII characters the validator is the test for
    ['0'..'9'] and the four lengths. *)
Lemma validate_barcode_format_ascii (text : pystr) :
  Forall (fun c => (c < 128)%N) text ->
  (validate_barcode_format text = true <->
   Forall (fun c => ascii_digit c = true) text
   /\ In (List.length text) [8; 12; 13; 14]%nat).
Proof.
  intros Hascii.
  assert (Heq : Forall (fun c => char_isdigit c = true) text
                <-> Forall (fun c => ascii_digit c = true) text).
  { rewrite !Forall_forall. rewrite Forall_forall in Hascii.
    split; intros H c Hc; specialize (H c Hc);
      rewrite char_isdigit_ascii in * by auto; assumption. }
  rewrite validate_barcode_format_steps, isdigit_iff, Heq.
  split.
  - intros [[_ Hall] Hlen]. now split.
  - intros [Hall Hlen]. repeat split; try assumption.
    intros ->. simpl in Hlen. lia.
Qed.

(** Eight ARABIC-INDIC digits (U+0661..U+0668) are accepted although
    none of them is an ASCII digit: the claim with ['0'..'9'] fails. *)
Lemma validate_barcode_format_not_ascii_only :
  ~ (forall text : pystr,
       validate_barcode_format text = true <->
       Forall (fun c => ascii_digit c = true) text
       /\ In (List.length text) [8; 12; 13; 14]%nat).
Proof.
  intros H.
  specialize (H [1633; 1634; 1635; 1636; 1637; 1638; 1639; 1640]%N).
  destruct H as [H _].
  destruct (H eq_refl) as [Hall _].
  inversion Hall as [|c l Hc _]. discriminate Hc.
Qed.

(** ** The resolution pipeline *)

Section Pipeline.

Context {E : Externals}.

Lemma after_calls_nil (w : world) : after_calls w [] = w.
Proof. destruct w. unfold after_calls. simpl. now rewrite app_nil_r. Qed.

Lemma after_calls_app (w : world) (a b : list call) :
  after_calls (after_calls w a) b = after_calls w (a ++ b).
Proof. unfold after_calls. simpl. now rewrite app_assoc. Qed.

Lemma preprocess_image_run (img gray thresh adaptive : image) (w : world) :
  cvtColor_BGR2GRAY img = Ok gray ->
  threshold_BINARY gray 128 255 = Ok thresh ->
  adaptiveThreshold_GAUSSIAN_BINARY gray 255 11 2 = Ok adaptive ->
  preprocess_image img w =
  (Ok [gray; thresh; adaptive],
   after_calls w [CvtColor img; Threshold gray; AdaptiveThreshold gray]).
Proof.
  intros Hg Ht Ha. unfold preprocess_image, bind, called, ret.
  rewrite Hg, Ht, Ha. now rewrite !after_calls_app.
Qed.

(** The loop stops at the first variant with a symbol. *)
Lemma scan_processed_first_hit
    (before : list image) (hit : image) (later : list image)
    (barcodes : list Decoded) (w : world) :
  (forall u, In u before -> pyzbar_decode u = Ok []) ->
  pyzbar_decode hit = Ok barcodes ->
  barcodes <> [] ->
  scan_processed (before ++ hit :: later) w =
  (detected barcodes, after_calls w (map Zbar before ++ [Zbar hit])).
Proof.
  revert w. induction before as [|u before IH]; intros w Hnone Hhit Hne.
  - simpl. unfold bind, called, lift. rewrite Hhit.
    destruct barcodes; [contradiction|reflexivity].
  - simpl. unfold bind, called. rewrite (Hnone u (or_introl eq_refl)).
    rewrite IH by (auto using in_cons).
    now rewrite after_calls_app.
Qed.

(** Without any symbol the loop scans every variant and ends empty. *)
Lemma scan_processed_nothing (variants : list image) (w : world) :
  (forall u, In u variants -> pyzbar_decode u = Ok []) ->
  scan_processed variants w = (Ok [], after_calls w (map Zbar variants)).
Proof.
  revert w. induction variants as [|u variants IH]; intros w Hnone.
  - simpl. unfold ret. now rewrite after_calls_nil.
  - simpl. unfold bind, called. rewrite (Hnone u (or_introl eq_refl)).
    rewrite IH by (auto using in_cons).
    now rewrite after_calls_app.
Qed.

(** The pipeline never raises: its [except] clause turns every
    exception into the empty list. *)
Lemma detect_never_raises (image_data image_format : pystr) (w : world) :
  exists texts w',
    detect_barcodes_with_preprocessing image_data image_format w = (Ok texts, w').
Proof.
  unfold detect_barcodes_with_preprocessing, try_except.
  match goal with |- context [match ?m w with _ => _ end] => destruct (m w) as [[texts|e] w'] end.
  - now exists texts, w'.
  - now exists [], w'.
Qed.

(** [C7]: when the request's payload does not decode as an image (the
    base64 text is rejected, or OpenCV raises or finds no image in the
    bytes), the pipeline returns the empty list, raises nothing, and
    has not called the symbol detector. *)
Theorem detect_undecodable_is_empty
    (image_data image_format : pystr) (w : world) :
  (forall image_bytes img,
      b64decode image_data = Ok image_bytes ->
      imdecode image_bytes <> Ok (Some img)) ->
  detect_barcodes_with_preprocessing image_data image_format w = (Ok [], w).
Proof.
  intros Hbad.
  unfold detect_barcodes_with_preprocessing, try_except, bind, lift, ret.
  destruct (b64decode image_data) as [image_bytes|e] eqn:Hb; [|reflexivity].
  destruct (imdecode image_bytes) as [[img|]|e] eqn:Hi; try reflexivity.
  exfalso. now apply (Hbad image_bytes img).
Qed.

(** [C5], as the code has it: on a decoded image, (1) when the
    detector finds symbols on the original, that single call is the
    only one made, no variant being produced or scanned; (2) otherwise,
    the variants grayscale, fixed threshold, adaptive threshold being
    produced, they are scanned in this order up to the first one with
    symbols, and the detector is not called on a later variant. In both
    cases what is returned is the list of the symbols' payloads read as
    UTF-8 when every payload is UTF-8, and the empty list when one is
    not. The calls made are listed in order. *)
Theorem detect_stops_at_first_hit
    (image_data image_format : pystr) (image_bytes : list byte)
    (img : image) (w : world) :
  b64decode image_data = Ok image_bytes ->
  imdecode image_bytes = Ok (Some img) ->
  (forall barcodes,
      pyzbar_decode img = Ok barcodes ->
      barcodes <> [] ->
      detect_barcodes_with_preprocessing image_data image_format w =
      (Ok match detected barcodes with
          | Ok texts => texts
          | Raise _ => []
          end,
       after_calls w [Zbar img]))
  /\
  (forall gray thresh adaptive before hit later barcodes,
      pyzbar_decode img = Ok [] ->
      cvtColor_BGR2GRAY img = Ok gray ->
      threshold_BINARY gray 128 255 = Ok thresh ->
      adaptiveThreshold_GAUSSIAN_BINARY gray 255 11 2 = Ok adaptive ->
      [gray; thresh; adaptive] = before ++ hit :: later ->
      (forall u, In u before -> pyzbar_decode u = Ok []) ->
      pyzbar_decode hit = Ok barcodes ->
      barcodes <> [] ->
      detect_barcodes_with_preprocessing image_data image_format w =
      (Ok match detected barcodes with
          | Ok texts => texts
          | Raise _ => []
          end,
       after_calls w
         ([Zbar img; CvtColor img; Threshold gray; AdaptiveThreshold gray]
            ++ map Zbar before ++ [Zbar hit]))).
Proof.
  intros Hb Hi. split.
  - intros barcodes Hz Hne.
    unfold detect_barcodes_with_preprocessing, try_except, bind, lift, called.
    rewrite Hb, Hi, Hz.
    destruct barcodes; [contradiction|].
    now destruct (detected _).
  - intros gray thresh adaptive before hit later barcodes
           Hz Hg Ht Ha Hsplit Hnone Hhit Hne.
    unfold detect_barcodes_with_preprocessing, try_except, bind, lift, called.
    rewrite Hb, Hi, Hz.
    erewrite preprocess_image_run by eassumption. rewrite Hsplit.
    erewrite scan_processed_first_hit by eassumption.
    rewrite !after_calls_app.
    now destruct (detected barcodes).
Qed.

(** A symbol whose payload is not UTF-8 makes the list comprehension
    raise; the [except] clause then answers with the empty list. *)
Lemma detect_payload_not_utf8
    (image_data image_format : pystr) (image_bytes : list byte)
    (img : image) (barcodes : list Decoded) (e : exn) (w : world) :
  b64decode image_data = Ok image_bytes ->
  imdecode image_bytes = Ok (Some img) ->
  pyzbar_decode img = Ok barcodes ->
  detected barcodes = Raise e ->
  detect_barcodes_with_preprocessing image_data image_format w =
  (Ok [], after_calls w [Zbar img]).
Proof.
  intros Hb Hi Hz Hraise.
  unfold detect_barcodes_with_preprocessing, try_except, bind, lift, called.
  rewrite Hb, Hi, Hz.
  destruct barcodes; [discriminate|]. now rewrite Hraise.
Qed.

(** When neither the original nor a variant shows a symbol, all four
    images have been scanned and the result is empty. *)
Lemma detect_nothing
    (image_data image_format : pystr) (image_bytes : list byte)
    (img gray thresh adaptive : image) (w : world) :
  b64decode image_data = Ok image_bytes ->
  imdecode image_bytes = Ok (Some img) ->
  cvtColor_BGR2GRAY img = Ok gray ->
  threshold_BINARY gray 128 255 = Ok thresh ->
  adaptiveThreshold_GAUSSIAN_BINARY gray 255 11 2 = Ok adaptive ->
  (forall u, In u [img; gray; thresh; adaptive] -> pyzbar_decode u = Ok []) ->
  detect_barcodes_with_preprocessing image_data image_format w =
  (Ok [],
   after_calls w
     [Zbar img; CvtColor img; Threshold gray; AdaptiveThreshold gray;
      Zbar gray; Zbar thresh; Zbar adaptive]).
Proof.
  intros Hb Hi Hg Ht Ha Hnone.
  unfold detect_barcodes_with_preprocessing, try_except, bind, lift, called.
  rewrite Hb, Hi, (Hnone img (or_introl eq_refl)).
  erewrite preprocess_image_run by eassumption.
  rewrite scan_processed_nothing by (intros u Hu; apply Hnone; now right).
  now rewrite !after_calls_app.
Qed.

End Pipeline.

(** ** The normalised record *)

Section Normaliser.

Import Main.

Local Open Scope py_scope.

Lemma obind_ok {A B} (m : outcome A) (k : A -> outcome B) (b : B) :
  obind m k = Ok b -> exists a, m = Ok a /\ k a = Ok b.
Proof. destruct m as [a|e]; simpl; [eauto|discriminate]. Qed.

(** Looking a key up after the filter. *)
Lemma dict_get_remove_none_cons (k k' : pystr) (v : pyval) (l : dict) :
  dict_get k (remove_none ((k', v) :: l)) =
  if PyStr.eqb k' k
  then (if is_provided v then Some v else dict_get k (remove_none l))
  else dict_get k (remove_none l).
Proof.
  unfold remove_none. simpl.
  destruct (is_provided v); simpl; destruct (PyStr.eqb k' k); reflexivity.
Qed.

Lemma dict_get_remove_none_nil (k : pystr) : dict_get k (remove_none []) = None.
Proof. reflexivity. Qed.

Lemma build_food_data_ok (barcode : pystr) (product : pyval) (food_data : dict) :
  build_food_data barcode product = Ok food_data ->
  exists nutriments e,
    get product "nutriments" (PDict []) = Ok nutriments
    /\ name_of product = Ok (e_name e)
    /\ brand_of product = Ok (e_brand e)
    /\ category_of product = Ok (e_category e)
    /\ nutrient nutriments "energy-kcal_100g" round = Ok (e_calories e)
    /\ nutrient nutriments "proteins_100g" round2 = Ok (e_protein e)
    /\ nutrient nutriments "fat_100g" round2 = Ok (e_fat e)
    /\ nutrient nutriments "carbohydrates_100g" round2 = Ok (e_carbs e)
    /\ nutrient nutriments "fiber_100g" round2 = Ok (e_fiber e)
    /\ nutrient nutriments "sugars_100g" round2 = Ok (e_sugars e)
    /\ nutrient nutriments "sodium_100g" round2 = Ok (e_sodium e)
    /\ allergens_of product = Ok (e_allergens e)
    /\ food_data = remove_none (unfiltered barcode e).
Proof.
  unfold build_food_data. intros H.
  apply obind_ok in H as (nutriments & Hn & H).
  apply obind_ok in H as (name & Hname & H).
  apply obind_ok in H as (brand & Hbrand & H).
  apply obind_ok in H as (category & Hcategory & H).
  apply obind_ok in H as (calories & Hcalories & H).
  apply obind_ok in H as (protein & Hprotein & H).
  apply obind_ok in H as (fat & Hfat & H).
  apply obind_ok in H as (carbs & Hcarbs & H).
  apply obind_ok in H as (fiber & Hfiber & H).
  apply obind_ok in H as (sugars & Hsugars & H).
  apply obind_ok in H as (sodium & Hsodium & H).
  apply obind_ok in H as (allergens & Hallergens & H).
  injection H as <-.
  exists nutriments,
    (mk_entries name brand category calories protein fat carbs fiber
                sugars sodium allergens).
  repeat split; assumption.
Qed.

(** A key of the unfiltered record is looked up entry by entry. *)
Ltac lookup_entries :=
  unfold unfiltered;
  repeat (rewrite dict_get_remove_none_cons;
          match goal with
          | |- context [PyStr.eqb ?a ?b] =>
              let r := eval vm_compute in (PyStr.eqb a b) in
              change (PyStr.eqb a b) with r
          end;
          cbv iota);
  try rewrite dict_get_remove_none_nil.

(** A nutrient whose source field is missing or falsy is [None]
    before the filter. *)
Lemma nutrient_falsy (nutriments value : pyval) (key : string)
    (rounding : pyval -> outcome pyval) :
  get nutriments key PNone = Ok value ->
  truthy value = false ->
  nutrient nutriments key rounding = Ok PNone.
Proof.
  intros Hget Hfalsy. unfold nutrient. rewrite Hget. simpl.
  now rewrite Hfalsy.
Qed.

(** [C6]: a nutrient whose source field ([energy-kcal_100g],
    [proteins_100g], [fat_100g], [carbohydrates_100g], [fiber_100g],
    [sugars_100g], [sodium_100g]) is missing or falsy, the number 0
    included, has no entry in the final record. *)
Theorem falsy_nutrient_is_absent
    (barcode : pystr) (product : pyval) (food_data : dict)
    (source field : string) (value : pyval) :
  In (source, field) nutrient_fields ->
  source_nutrient product source = Ok value ->
  truthy value = false ->
  build_food_data barcode product = Ok food_data ->
  dict_get (lit field) food_data = None.
Proof.
  intros Hin Hsource Hfalsy Hbuild.
  apply build_food_data_ok in Hbuild
    as (nutriments & e & Hn & _ & _ & _ & Hcal & Hpro & Hfat & Hcarb
        & Hfib & Hsug & Hsod & _ & ->).
  unfold source_nutrient in Hsource. rewrite Hn in Hsource. simpl in Hsource.
  pose proof (fun r => @nutrient_falsy nutriments value source r Hsource Hfalsy)
    as Hnone.
  unfold nutrient_fields in Hin. simpl in Hin.
  destruct Hin as [Heq|[Heq|[Heq|[Heq|[Heq|[Heq|[Heq|[]]]]]]]];
    injection Heq as <- <-.
  - rewrite Hnone in Hcal. injection Hcal as Hv. lookup_entries.
    now rewrite <- Hv.
  - rewrite Hnone in Hpro. injection Hpro as Hv. lookup_entries.
    now rewrite <- Hv.
  - rewrite Hnone in Hfat. injection Hfat as Hv. lookup_entries.
    now rewrite <- Hv.
  - rewrite Hnone in Hcarb. injection Hcarb as Hv. lookup_entries.
    now rewrite <- Hv.
  - rewrite Hnone in Hfib. injection Hfib as Hv. lookup_entries.
    now rewrite <- Hv.
  - rewrite Hnone in Hsug. injection Hsug as Hv. lookup_entries.
    now rewrite <- Hv.
  - rewrite Hnone in Hsod. injection Hsod as Hv. lookup_entries.
    now rewrite <- Hv.
Qed.

(** A field that is there is read whatever the default. *)
Lemma get_present (o : pyval) (k : string) (v d : pyval) :
  get o k PNone = Ok v -> v <> PNone -> get o k d = Ok v.
Proof.
  destruct o; simpl; try discriminate.
  destruct (dict_get (lit k) d0); intros H Hv; injection H as <-;
    [reflexivity|contradiction].
Qed.

Lemma is_provided_split (source : pystr) :
  is_provided (PList (map PStr (PyStr.split comma source))) = true.
Proof.
  pose proof (split_not_nil comma source).
  destruct (PyStr.split comma source); [contradiction|reflexivity].
Qed.

(** [C2], as the code has it: a non-empty comma-separated allergens
    text becomes the list of its comma-separated pieces, in source
    order and exactly as they stand between the commas; surrounding
    whitespace is kept. *)
Theorem allergens_are_split_untrimmed
    (barcode : pystr) (product : pyval) (food_data : dict) (source : pystr) :
  get product "allergens" PNone = Ok (PStr source) ->
  source <> [] ->
  build_food_data barcode product = Ok food_data ->
  dict_get (lit "allergens") food_data =
  Some (PList (map PStr (PyStr.split comma source))).
Proof.
  intros Hget Hne Hbuild.
  apply build_food_data_ok in Hbuild
    as (nutriments & e & _ & _ & _ & _ & _ & _ & _ & _ & _ & _ & _ & Hall & ->).
  assert (Htruthy : truthy (PStr source) = true)
    by (destruct source; [contradiction|reflexivity]).
  unfold allergens_of in Hall. rewrite Hget in Hall.
  cbn [obind] in Hall. rewrite Htruthy in Hall.
  rewrite (@get_present product "allergens" _ (PStr (lit "")) Hget) in Hall
    by discriminate.
  cbn [obind split_comma] in Hall. injection Hall as Hall.
  lookup_entries. rewrite <- Hall.
  now rewrite is_provided_split.
Qed.

(** The product name, case by case. *)
Lemma name_entry (barcode : pystr) (product : pyval) (food_data : dict)
    (raw : pyval) :
  get product "product_name" (PStr (lit "Unknown Product")) = Ok raw ->
  build_food_data barcode product = Ok food_data ->
  exists text,
    raw = PStr text
    /\ dict_get (lit "name") food_data =
       match PyStr.strip text with
       | [] => None
       | _ => Some (PStr (PyStr.strip text))
       end.
Proof.
  intros Hget Hbuild.
  apply build_food_data_ok in Hbuild
    as (nutriments & e & _ & Hname & _ & _ & _ & _ & _ & _ & _ & _ & _ & _ & ->).
  unfold name_of in Hname. rewrite Hget in Hname. simpl in Hname.
  destruct raw; try discriminate. simpl in Hname. injection Hname as Hname.
  exists s. split; [reflexivity|].
  lookup_entries. rewrite <- Hname.
  now destruct (PyStr.strip s).
Qed.

(** A name that is not blank is kept, trimmed. *)
Lemma name_is_trimmed (barcode : pystr) (product : pyval) (food_data : dict)
    (text : pystr) :
  get product "product_name" PNone = Ok (PStr text) ->
  PyStr.strip text <> [] ->
  build_food_data barcode product = Ok food_data ->
  dict_get (lit "name") food_data = Some (PStr (PyStr.strip text)).
Proof.
  intros Hget Hne Hbuild.
  apply (@get_present product "product_name" _ (PStr (lit "Unknown Product")))
    in Hget; [|discriminate].
  destruct (@name_entry barcode _ food_data _ Hget Hbuild) as (text' & Heq & ->).
  injection Heq as <-. now destruct (PyStr.strip text).
Qed.

(** A product without a name field is called "Unknown Product". *)
Lemma name_defaults_when_absent (barcode : pystr) (fields food_data : dict) :
  dict_get (lit "product_name") fields = None ->
  build_food_data barcode (PDict fields) = Ok food_data ->
  dict_get (lit "name") food_data = Some (PStr (lit "Unknown Product")).
Proof.
  intros Habsent Hbuild.
  assert (Hget : get (PDict fields) "product_name" (PStr (lit "Unknown Product"))
                 = Ok (PStr (lit "Unknown Product"))).
  { simpl. now rewrite Habsent. }
  destruct (@name_entry barcode _ food_data _ Hget Hbuild) as (text' & Heq & ->).
  now injection Heq as <-.
Qed.

(** A name field that is blank leaves the record without a name: the
    default is not applied to it. *)
Lemma name_is_dropped_when_blank (barcode : pystr) (product : pyval)
    (food_data : dict) (text : pystr) :
  get product "product_name" PNone = Ok (PStr text) ->
  PyStr.strip text = [] ->
  build_food_data barcode product = Ok food_data ->
  dict_get (lit "name") food_data = None.
Proof.
  intros Hget Hblank Hbuild.
  apply (@get_present product "product_name" _ (PStr (lit "Unknown Product")))
    in Hget; [|discriminate].
  destruct (@name_entry barcode _ food_data _ Hget Hbuild) as (text' & Heq & ->).
  injection Heq as <-. now rewrite Hblank.
Qed.

End Normaliser.

Import Main.

(** The scenario of [C6]: [proteins_100g = 0] and no other nutrient. *)
Lemma falsy_nutrient_is_absent_witness :
  source_nutrient
    (PDict [ (lit "nutriments", PDict [ (lit "proteins_100g", PInt 0) ]) ])
    "proteins_100g" = Ok (PInt 0)
  /\ dict_get (lit "protein")
       [ (lit "barcode", PStr Scenario.ean8);
         (lit "name", PStr (lit "Unknown Product"));
         (lit "quantity", PInt 1) ] = None.
Proof.
  split; [reflexivity|].
  apply (@falsy_nutrient_is_absent Scenario.ean8
           (PDict [ (lit "nutriments", PDict [ (lit "proteins_100g", PInt 0) ]) ])
           _ "proteins_100g" "protein" (PInt 0)).
  - right; left; reflexivity.
  - reflexivity.
  - reflexivity.
  - reflexivity.
Defined.

(** The allergens text "milk, soy" gives ["milk"; " soy"], the second
    piece with its leading space: the pieces are not trimmed. *)
Lemma allergens_milk_soy_keeps_space :
  exists food_data,
    build_food_data Scenario.ean8
      (PDict [ (lit "allergens", PStr (lit "milk, soy")) ]) = Ok food_data
    /\ dict_get (lit "allergens") food_data =
       Some (PList [ PStr (lit "milk"); PStr (lit " soy") ])
    /\ dict_get (lit "allergens") food_data <>
       Some (PList [ PStr (lit "milk"); PStr (lit "soy") ]).
Proof.
  eexists. split; [reflexivity|]. split; [reflexivity|].
  vm_compute. discriminate.
Qed.

Lemma allergens_are_split_untrimmed_witness :
  dict_get (lit "allergens")
    [ (lit "barcode", PStr Scenario.ean8);
      (lit "name", PStr (lit "Unknown Product"));
      (lit "allergens", PList [ PStr (lit "milk"); PStr (lit " soy") ]);
      (lit "quantity", PInt 1) ]
  = Some (PList (map PStr (PyStr.split comma (lit "milk, soy")))).
Proof.
  apply (@allergens_are_split_untrimmed Scenario.ean8
           (PDict [ (lit "allergens", PStr (lit "milk, soy")) ])).
  - reflexivity.
  - discriminate.
  - reflexivity.
Defined.

(** [C3], the code at a blank product name: the catalog entry has a
    [product_name] of three spaces; the record built from it has no
    [name] at all, where the claim (and the NOT NULL column of the
    model) expect "Unknown Product". *)
Theorem blank_product_name_leaves_no_name :
  build_food_data Scenario.ean8
    (PDict [ (lit "product_name", PStr (lit "   ")) ])
  = Ok [ (lit "barcode", PStr Scenario.ean8); (lit "quantity", PInt 1) ]
  /\ dict_get (lit "name")
       [ (lit "barcode", PStr Scenario.ean8); (lit "quantity", PInt 1) ] = None.
Proof. split; reflexivity. Qed.

(** The same with an empty name. *)
Example empty_product_name_leaves_no_name :
  build_food_data Scenario.ean8 (PDict [ (lit "product_name", PStr (lit "")) ])
  = Ok [ (lit "barcode", PStr Scenario.ean8); (lit "quantity", PInt 1) ].
Proof. reflexivity. Qed.

(** A full catalog entry, normalised. *)
Example oat_drink_normalised :
  build_food_data Scenario.ean8 Scenario.oat_drink
  = Ok [ (lit "barcode", PStr Scenario.ean8);
         (lit "name", PStr (lit "Oat drink"));
         (lit "brand", PStr (lit "Oatly"));
         (lit "category", PStr (lit "Beverages"));
         (lit "calories", PInt 46);
         (lit "fat", PInt 3);
         (lit "allergens", PList [ PStr (lit "milk"); PStr (lit " soy") ]);
         (lit "quantity", PInt 1) ].
Proof. reflexivity. Qed.

(** ** The workflow *)

Section Workflow.

Context {E : Externals}.

(** The pipeline leaves the database and the clock alone. *)
Lemma untouched_ret {A} (a : A) : untouched (ret a).
Proof. intros w. now split. Qed.

Lemma untouched_lift {A} (o : outcome A) : untouched (lift o).
Proof. intros w. now split. Qed.

Lemma untouched_called {A} (c : call) (o : outcome A) : untouched (called c o).
Proof. intros w. now split. Qed.

Lemma untouched_bind {A B} (m : M A) (k : A -> M B) :
  untouched m -> (forall a, untouched (k a)) -> untouched (bind m k).
Proof.
  intros Hm Hk w. unfold bind.
  destruct (Hm w) as [Hd Hc].
  destruct (m w) as [[a|e] w']; simpl in *.
  - destruct (Hk a w') as [Hd' Hc']. now rewrite Hd', Hc'.
  - now split.
Qed.

Lemma untouched_try_except {A} (m : M A) (h : exn -> M A) :
  untouched m -> (forall e, untouched (h e)) -> untouched (try_except m h).
Proof.
  intros Hm Hh w. unfold try_except.
  destruct (Hm w) as [Hd Hc].
  destruct (m w) as [[a|e] w']; simpl in *.
  - now split.
  - destruct (Hh e w') as [Hd' Hc']. now rewrite Hd', Hc'.
Qed.

Lemma scan_processed_untouched (variants : list image) :
  untouched (scan_processed variants).
Proof.
  induction variants as [|u variants IH]; simpl.
  - apply untouched_ret.
  - apply untouched_bind; [apply untouched_called|].
    intros [|b bs]; [assumption|apply untouched_lift].
Qed.

Lemma detect_untouched (image_data image_format : pystr) :
  untouched (detect_barcodes_with_preprocessing image_data image_format).
Proof.
  unfold detect_barcodes_with_preprocessing.
  apply untouched_try_except; [|intros e; apply untouched_ret].
  apply untouched_bind; [apply untouched_lift|]. intros image_bytes.
  apply untouched_bind; [apply untouched_lift|]. intros [img|];
    [|apply untouched_ret].
  apply untouched_bind; [apply untouched_called|].
  intros [|b bs]; [|apply untouched_lift].
  apply untouched_bind; [|apply scan_processed_untouched].
  unfold preprocess_image.
  repeat (apply untouched_bind; [apply untouched_called|]; intros ?).
  apply untouched_ret.
Qed.

Lemma looked_up_db (barcode : pystr) (w : world) :
  db (looked_up barcode w) = db w.
Proof. reflexivity. Qed.

(** Up to the lookup: a valid action, a detected text, a text of the
    right format. *)
Lemma upload_reaches_resolve
    (request : BarcodeImageUploadRequest) (w w1 : world)
    (barcode : pystr) (others : list pystr) :
  existsb (PyStr.eqb (action request)) valid_actions = true ->
  detect_barcodes_with_preprocessing (imageData request) (imageFormat request) w
    = (Ok (barcode :: others), w1) ->
  validate_barcode_format barcode = true ->
  upload_barcode_image request w = try_except (resolve request barcode) boundary w1.
Proof.
  intros Haction Hdetect Hvalid.
  unfold upload_barcode_image, try_except, bind.
  rewrite Haction. cbn [negb]. rewrite Hdetect, Hvalid. reflexivity.
Qed.

(** The three ways the lookup's [try] ends early. *)
Lemma fetch_raised (barcode : pystr) (w : world) (e : exn) :
  requests_get (clock w) (openfoodfacts_url barcode) 10 = Raise e ->
  fetch barcode w = (Ok (inl (FetchFailed e)), looked_up barcode w).
Proof.
  intros Hget. unfold fetch, looked_up, http_get, try_except, bind, tick, called.
  cbn [clock]. now rewrite Hget.
Qed.

Lemma fetch_not_200 (barcode : pystr) (w : world) (r : response) :
  requests_get (clock w) (openfoodfacts_url barcode) 10 = Ok r ->
  status_code r <> 200%Z ->
  fetch barcode w = (Ok (inl (BarcodeOnly barcode)), looked_up barcode w).
Proof.
  intros Hget Hcode.
  unfold fetch, looked_up, http_get, try_except, bind, tick, called.
  cbn [clock]. rewrite Hget.
  apply Z.eqb_neq in Hcode. now rewrite Hcode.
Qed.

Lemma fetch_status_zero (barcode : pystr) (w : world) (r : response)
    (body status : pyval) :
  requests_get (clock w) (openfoodfacts_url barcode) 10 = Ok r ->
  status_code r = 200%Z ->
  json r = Ok body ->
  get body "status" PNone = Ok status ->
  eq_zero status = true ->
  fetch barcode w = (Ok (inl (BarcodeOnly barcode)), looked_up barcode w).
Proof.
  intros Hget Hcode Hjson Hstatus Hzero.
  unfold fetch, looked_up, http_get, try_except, bind, tick, called, lift.
  cbn [clock]. rewrite Hget, Hcode, Hjson, Hstatus, Hzero. reflexivity.
Qed.

(** The lookup succeeded: the answer goes on to normalisation. *)
Lemma fetch_found (barcode : pystr) (w : world) (r : response)
    (body status : pyval) :
  requests_get (clock w) (openfoodfacts_url barcode) 10 = Ok r ->
  status_code r = 200%Z ->
  json r = Ok body ->
  get body "status" PNone = Ok status ->
  eq_zero status = false ->
  fetch barcode w = (Ok (inr r), looked_up barcode w).
Proof.
  intros Hget Hcode Hjson Hstatus Hzero.
  unfold fetch, looked_up, http_get, try_except, bind, tick, called, lift.
  cbn [clock]. rewrite Hget, Hcode, Hjson, Hstatus, Hzero. reflexivity.
Qed.

(** [C1], as the code has it: once a barcode of the right format is
    detected, a lookup that raises (network error, timeout) ends the
    request with the failure response of the lookup's [except] clause
    ([success] false, no barcode, the exception's text as [error]) and
    raises nothing; the BarcodeOnly response is what a status other
    than 200 and a [status] field equal to 0 give. *)
Theorem lookup_outcomes
    (request : BarcodeImageUploadRequest) (w w1 : world)
    (barcode : pystr) (others : list pystr) :
  existsb (PyStr.eqb (action request)) valid_actions = true ->
  detect_barcodes_with_preprocessing (imageData request) (imageFormat request) w
    = (Ok (barcode :: others), w1) ->
  validate_barcode_format barcode = true ->
  (forall e,
      requests_get (clock w1) (openfoodfacts_url barcode) 10 = Raise e ->
      upload_barcode_image request w
      = (Ok (FetchFailed e), looked_up barcode w1))
  /\ (forall r,
      requests_get (clock w1) (openfoodfacts_url barcode) 10 = Ok r ->
      status_code r <> 200%Z ->
      upload_barcode_image request w
      = (Ok (BarcodeOnly barcode), looked_up barcode w1))
  /\ (forall r body status,
      requests_get (clock w1) (openfoodfacts_url barcode) 10 = Ok r ->
      status_code r = 200%Z ->
      json r = Ok body ->
      get body "status" PNone = Ok status ->
      eq_zero status = true ->
      upload_barcode_image request w
      = (Ok (BarcodeOnly barcode), looked_up barcode w1)).
Proof.
  intros Haction Hdetect Hvalid.
  rewrite (upload_reaches_resolve _ _ Haction Hdetect Hvalid).
  unfold try_except, resolve, bind.
  repeat split.
  - intros e Hget. now rewrite (fetch_raised _ _ Hget).
  - intros r Hget Hcode. now rewrite (fetch_not_200 _ _ Hget Hcode).
  - intros r body status Hget Hcode Hjson Hstatus Hzero.
    now rewrite (fetch_status_zero _ _ Hget Hcode Hjson Hstatus Hzero).
Qed.

(** [C9]: when the catalog answers 200 with a JSON object whose
    [status] is not 0 (or is missing) and which has no [product] key,
    none of the endpoint's responses is produced: the [KeyError] of
    [response.json()['product']] reaches the outer [except] clause and
    the request ends with an HTTP 500. *)
Theorem missing_product_is_server_error
    (request : BarcodeImageUploadRequest) (w w1 : world)
    (barcode : pystr) (others : list pystr) (r : response) (body : dict) :
  existsb (PyStr.eqb (action request)) valid_actions = true ->
  detect_barcodes_with_preprocessing (imageData request) (imageFormat request) w
    = (Ok (barcode :: others), w1) ->
  validate_barcode_format barcode = true ->
  requests_get (clock w1) (openfoodfacts_url barcode) 10 = Ok r ->
  status_code r = 200%Z ->
  json r = Ok (PDict body) ->
  (forall status, dict_get (lit "status") body = Some status ->
                  eq_zero status = false) ->
  dict_get (lit "product") body = None ->
  upload_barcode_image request w
  = (Raise (mk_exn (HTTPException 500)
              (lit "Error processing barcode image: 'product'")),
     looked_up barcode w1).
Proof.
  intros Haction Hdetect Hvalid Hget Hcode Hjson Hstatus Hproduct.
  rewrite (upload_reaches_resolve _ _ Haction Hdetect Hvalid).
  assert (Hst : exists status,
             get (PDict body) "status" PNone = Ok status
             /\ eq_zero status = false).
  { simpl. destruct (dict_get (lit "status") body) as [status|] eqn:Hs.
    - exists status. split; [reflexivity|]. now apply Hstatus.
    - now exists PNone. }
  destruct Hst as (status & Hs & Hnz).
  unfold try_except, resolve, bind.
  rewrite (fetch_found _ _ Hget Hcode Hjson Hs Hnz).
  unfold lift. rewrite Hjson. cbn [getitem]. rewrite Hproduct.
  reflexivity.
Qed.

(** *** Saving when the barcode is already stored *)

(** With a row already stored under the barcode, the save step writes
    nothing; it answers with that row's dictionary, or, when
    [to_dict] raises, with the candidate record. *)
Lemma save_existing (barcode : pystr) (food_data : dict) (w : world)
    (existing : Food.t) :
  find (Food.has_barcode barcode) (foods (db w)) = Some existing ->
  save barcode food_data w
  = (Ok match Food.to_dict existing with
        | Ok stored => AlreadyExists barcode stored
        | Raise _ => SavedFailed barcode food_data
        end,
     w).
Proof.
  intros Hfind.
  unfold save, try_except, bind, Crud.get_food_by_barcode, Crud.query_first,
    bind, get_db, ret, lift.
  rewrite Hfind. now destruct (Food.to_dict existing).
Qed.

(** [to_dict] succeeds on a row without image bytes whose dates are
    dates. *)
Lemma to_dict_without_image (row : Food.t) :
  truthy (Food.barcode_image_data row) = false ->
  (Food.expiry_date row = PNone \/ exists d, Food.expiry_date row = PDate d) ->
  (Food.created_at row = PNone \/ exists d, Food.created_at row = PDate d) ->
  exists stored,
    Food.to_dict row = Ok stored
    /\ dict_get (lit "id") stored = Some (PStr (Food.id row))
    /\ dict_get (lit "barcode") stored = Some (Food.barcode row)
    /\ dict_get (lit "name") stored = Some (Food.name row)
    /\ dict_get (lit "quantity") stored = Some (Food.quantity row).
Proof.
  intros Himage Hexpiry Hcreated.
  unfold Food.to_dict, Food.decode_base64_or_none. rewrite Himage.
  destruct Hexpiry as [-> | [d ->]], Hcreated as [-> | [d' ->]];
    simpl; eexists; repeat split.
Qed.

(** [to_dict] raises on a row that holds image bytes. *)
Lemma to_dict_with_image (row : Food.t) (b : byte) (bs : list byte) :
  Food.barcode_image_data row = PBytes (b :: bs) ->
  (Food.expiry_date row = PNone \/ exists d, Food.expiry_date row = PDate d) ->
  exists e, Food.to_dict row = Raise e /\ exn_cls e = LookupError.
Proof.
  intros Himage Hexpiry.
  unfold Food.to_dict, Food.decode_base64_or_none. rewrite Himage.
  destruct Hexpiry as [-> | [d ->]]; simpl; eexists; split; reflexivity.
Qed.

(** A [scan_and_save] request for a barcode that is already stored
    leaves the database as it was, whatever it answers. *)
Lemma scan_and_save_existing
    (request : BarcodeImageUploadRequest) (w w1 : world)
    (barcode : pystr) (others : list pystr) (r : response)
    (body status product : pyval) (food_data : dict) (existing : Food.t) :
  action request = lit "scan_and_save" ->
  detect_barcodes_with_preprocessing (imageData request) (imageFormat request) w
    = (Ok (barcode :: others), w1) ->
  validate_barcode_format barcode = true ->
  requests_get (clock w1) (openfoodfacts_url barcode) 10 = Ok r ->
  status_code r = 200%Z ->
  json r = Ok body ->
  get body "status" PNone = Ok status ->
  eq_zero status = false ->
  getitem body "product" = Ok product ->
  build_food_data barcode product = Ok food_data ->
  find (Food.has_barcode barcode) (foods (db w)) = Some existing ->
  upload_barcode_image request w
  = (Ok match Food.to_dict existing with
        | Ok stored => AlreadyExists barcode stored
        | Raise _ => SavedFailed barcode food_data
        end,
     looked_up barcode w1)
  /\ db (looked_up barcode w1) = db w.
Proof.
  intros Haction Hdetect Hvalid Hget Hcode Hjson Hstatus Hnz Hproduct Hbuild Hfind.
  assert (Hdb : db w1 = db w).
  { pose proof (detect_untouched (imageData request) (imageFormat request) w)
      as [Hd _].
    now rewrite Hdetect in Hd. }
  split; [|now rewrite looked_up_db].
  rewrite (@upload_reaches_resolve request w w1 barcode others);
    [|now rewrite Haction|assumption|assumption].
  unfold try_except, resolve, bind.
  rewrite (fetch_found _ _ Hget Hcode Hjson Hstatus Hnz).
  unfold lift. rewrite Hjson, Hproduct, Hbuild, Haction.
  rewrite pystr_eqb_refl.
  rewrite save_existing with (existing := existing);
    [reflexivity|].
  now rewrite looked_up_db, Hdb.
Qed.

End Workflow.

(** ** Quantity updates *)

Section Quantities.

Context {E : Externals}.

Import Crud.


Lemma find_has_id (key : pystr) (rows : list Food.t) (food : Food.t) :
  find (Food.has_id key) rows = Some food -> Food.id food = key.
Proof.
  intros H. apply find_some in H as [_ H]. now apply pystr_eqb_eq.
Qed.

(** What the INSERT of a log entry does, case by case, in the order in
    which SQLite meets the cases. *)
Lemma commit_log_run (food_id : pystr) (quantity : Z) (action : pystr)
    (w : world) :
  let w1 := {| db := db w; clock := S (clock w); calls := calls w |} in
  let entry := {| NutritionLog.id := uuid4 (clock w);
                  NutritionLog.food_id := food_id;
                  NutritionLog.quantity := quantity;
                  NutritionLog.timestamp := now (clock w);
                  NutritionLog.action := action |} in
  commit_log food_id quantity action w =
  if negb (Sql.encodable food_id)
  then (Raise (Sql.surrogates_not_allowed food_id), w1)
  else if negb (Sql.int64 quantity) then (Raise Sql.int_too_large, w1)
  else if negb (Sql.encodable action)
  then (Raise (Sql.surrogates_not_allowed action), w1)
  else if negb (NutritionLog.check_valid_action entry)
  then (Raise (mk_exn IntegrityError
                 (lit "CHECK constraint failed: check_valid_action")), w1)
  else if existsb (NutritionLog.has_id (uuid4 (clock w))) (nutrition_logs (db w))
  then (Raise (mk_exn IntegrityError
                 (lit "UNIQUE constraint failed: nutrition_logs.id")), w1)
  else (Ok entry,
        {| db := {| foods := triggers entry (foods (db w));
                    nutrition_logs := nutrition_logs (db w) ++ [entry] |};
           clock := S (clock w);
           calls := calls w |}).
Proof.
  unfold commit_log, bind, tick, lift, get_db, put_db, ret, raise, Sql.bind.
  cbn [clock db calls].
  destruct (Sql.encodable food_id); cbn [negb]; [|reflexivity].
  destruct (Sql.int64 quantity); cbn [negb]; [|reflexivity].
  destruct (Sql.encodable action); cbn [negb]; [|reflexivity].
  match goal with
  | |- context [NutritionLog.check_valid_action ?row] =>
      destruct (NutritionLog.check_valid_action row)
  end; cbn [negb]; [|reflexivity].
  now destruct (existsb _ _).
Qed.

Lemma valid_action_is_encodable (action : pystr) :
  In action NutritionLog.valid_actions -> Sql.encodable action = true.
Proof.
  intros H. repeat (destruct H as [<-|H]; [reflexivity|]). destruct H.
Qed.

Lemma check_valid_action_iff (entry : NutritionLog.t) :
  NutritionLog.check_valid_action entry = true <->
  In (NutritionLog.action entry) NutritionLog.valid_actions.
Proof.
  unfold NutritionLog.check_valid_action. rewrite existsb_exists. split.
  - intros (a & Hin & Heq). apply pystr_eqb_eq in Heq. now rewrite Heq.
  - intros Hin. exists (NutritionLog.action entry). split; [assumption|].
    apply pystr_eqb_refl.
Qed.

Lemma has_log_id_false (key : pystr) (entries : list NutritionLog.t) :
  ~ In key (map NutritionLog.id entries) ->
  existsb (NutritionLog.has_id key) entries = false.
Proof.
  intros Hfresh. destruct (existsb _ _) eqn:Hex; [|reflexivity].
  exfalso. apply Hfresh. apply existsb_exists in Hex as (entry & Hin & Heq).
  unfold NutritionLog.has_id in Heq. apply pystr_eqb_eq in Heq.
  rewrite <- Heq. now apply in_map.
Qed.

(** With a row under the key, a key and a change that SQLite can bind
    (text without surrogates, an absolute value below 2^63), an action
    of the CHECK constraint, a fresh key for the log entry, and triggers
    that keep the row's key, the update succeeds. *)
Lemma update_quantity_succeeds (food_id : pystr) (quantity_change : Z)
      (action : pystr) (w : world) (food : Food.t) :
  find (Food.has_id food_id) (foods (db w)) = Some food ->
  Sql.encodable food_id = true ->
  (Z.abs quantity_change < 2 ^ 63)%Z ->
  In action NutritionLog.valid_actions ->
  ~ In (uuid4 (clock w)) (map NutritionLog.id (nutrition_logs (db w))) ->
  (forall entry rows,
      find (Food.has_id food_id) rows <> None ->
      find (Food.has_id food_id) (triggers entry rows) <> None) ->
  exists food' w',
    update_quantity food_id quantity_change action w = (Ok (Some food'), w').
Proof.
  intros Hfind Hkey Hrange Haction Hfresh Htrig.
  pose proof (find_has_id _ _ Hfind) as Hid.
  unfold update_quantity, try_except, bind, query_first, bind, get_db, ret.
  rewrite Hfind, commit_log_run. cbv zeta.
  rewrite Hkey, (@valid_action_is_encodable _ Haction). cbn [negb].
  assert (Hint : Sql.int64 (Z.abs quantity_change) = true).
  { unfold Sql.int64. apply andb_true_iff. split.
    - apply Z.leb_le. pose proof (Z.abs_nonneg quantity_change). lia.
    - now apply Z.ltb_lt. }
  rewrite Hint. cbn [negb].
  match goal with
  | |- context [NutritionLog.check_valid_action ?row] =>
      replace (NutritionLog.check_valid_action row) with true
        by (symmetry; now apply check_valid_action_iff)
  end.
  cbn [negb]. rewrite (@has_log_id_false _ _ Hfresh).
  unfold refresh, bind, query_first, bind, get_db, ret.
  cbn [db foods]. rewrite Hid.
  match goal with
  | |- context [triggers ?entry ?rows] =>
      pose proof (Htrig entry rows) as Hkept;
      destruct (find (Food.has_id food_id) (triggers entry rows)) as [food'|]
  end.
  - eauto.
  - exfalso. apply Hkept; [now rewrite Hfind|reflexivity].
Qed.

(** [C10]: a quantity update that succeeds on an existing row has
    appended exactly one log entry; its quantity is the absolute value
    of the requested change, hence never negative, and the action tag
    is the one given: the sign of the change is not in the entry's
    quantity. *)
Theorem update_quantity_logs_absolute_value
    (food_id : pystr) (quantity_change : Z) (action : pystr)
    (w w' : world) (food : Food.t) :
  update_quantity food_id quantity_change action w = (Ok (Some food), w') ->
  exists entry,
    nutrition_logs (db w') = nutrition_logs (db w) ++ [entry]
    /\ NutritionLog.quantity entry = Z.abs quantity_change
    /\ (0 <= NutritionLog.quantity entry)%Z
    /\ NutritionLog.action entry = action
    /\ NutritionLog.food_id entry = food_id.
Proof.
  unfold update_quantity, try_except, bind, query_first, bind, get_db, ret.
  destruct (find (Food.has_id food_id) (foods (db w))) as [found|];
    [|discriminate].
  rewrite commit_log_run. cbv zeta. unfold rollback, ret, raise.
  destruct (negb (Sql.encodable food_id)); [discriminate|].
  destruct (negb (Sql.int64 (Z.abs quantity_change))); [discriminate|].
  destruct (negb (Sql.encodable action)); [discriminate|].
  match goal with
  | |- context [NutritionLog.check_valid_action ?row] =>
      set (entry := row); destruct (negb (NutritionLog.check_valid_action entry))
  end; [discriminate|].
  destruct (existsb _ _); [discriminate|].
  unfold refresh, bind, query_first, bind, get_db, ret, raise.
  cbn [db foods].
  match goal with
  | |- context [find ?p ?rows] => destruct (find p rows)
  end; [|discriminate].
  intros H. injection H as _ <-. cbn [db nutrition_logs].
  exists entry. repeat split. cbn. apply Z.abs_nonneg.
Qed.

End Quantities.

(** ** Runs *)

Import Scenario.

(** The barcode of photograph "2" shows only after the fixed threshold:
    the grayscale variant is scanned first, the adaptive one never. *)
Lemma detect_stops_at_first_hit_witness :
  detect_barcodes_with_preprocessing (E := down) (lit "2") (lit "jpeg")
    (start empty_db)
  = (Ok [ean8],
     after_calls (start empty_db)
       ([Zbar (E := down) 2%N; CvtColor (E := down) 2%N; Threshold (E := down) 102%N; AdaptiveThreshold (E := down) 102%N]
          ++ map (Zbar (E := down)) [102%N] ++ [Zbar (E := down) 202%N])).
Proof.
  apply (proj2 (@detect_stops_at_first_hit down (lit "2") (lit "jpeg")
                  (bytes_of (lit "2")) 2%N (start empty_db) eq_refl eq_refl)
               102%N 202%N 302%N [102%N] 202%N [302%N]
               [ {| data := bytes_of ean8 |} ]).
  - reflexivity.
  - reflexivity.
  - reflexivity.
  - reflexivity.
  - reflexivity.
  - intros u [<-|[]]. reflexivity.
  - reflexivity.
  - discriminate.
Defined.

(** Photograph "5": the original shows nothing and the grayscale
    variant is the first with a symbol, but the payload of that symbol
    is not UTF-8. The pipeline stops there and returns the empty list:
    what the detector found on the first variant with a result is not
    returned, and the fixed-threshold variant, on which 12345678 would
    be read, is never scanned. *)
Lemma undecodable_hit_returns_nothing :
  pyzbar_decode (Externals := Lab.env) 53%N = Ok []
  /\ pyzbar_decode (Externals := Lab.env) 153%N = Ok [ {| data := [xff] |} ]
  /\ pyzbar_decode (Externals := Lab.env) 253%N
     = Ok [ {| data := bytes_of ean8 |} ]
  /\ detect_barcodes_with_preprocessing (E := Lab.env) (lit "5") (lit "png")
       (start empty_db)
     = (Ok [],
        after_calls (start empty_db)
          [Zbar (E := Lab.env) 53%N; CvtColor (E := Lab.env) 53%N;
           Threshold (E := Lab.env) 153%N; AdaptiveThreshold (E := Lab.env) 153%N;
           Zbar (E := Lab.env) 153%N])
  /\ forall texts,
       fst (detect_barcodes_with_preprocessing (E := Lab.env) (lit "5") (lit "png")
              (start empty_db)) = Ok texts ->
       List.length texts <> 1%nat.
Proof.
  repeat split.
  intros texts H. vm_compute in H. injection H as <-. discriminate.
Qed.

(** The barcode of photograph "1" is read at once. *)
Example detect_fast_path :
  detect_barcodes_with_preprocessing (E := down) (lit "1") (lit "jpeg")
    (start empty_db)
  = (Ok [ean8], after_calls (start empty_db) [Zbar (E := down) 1%N]).
Proof. reflexivity. Qed.

Lemma detect_undecodable_is_empty_witness :
  detect_barcodes_with_preprocessing (E := down) (lit "not an image") (lit "jpeg")
    (start empty_db)
  = (Ok [], start empty_db).
Proof.
  apply (@detect_undecodable_is_empty down).
  intros image_bytes img Hb. vm_compute in Hb. injection Hb as <-.
  vm_compute. discriminate.
Defined.

(** The catalog times out: the request ends with the failure response
    of the lookup, which is not the BarcodeOnly response. *)
Lemma timed_out_lookup_is_not_barcode_only :
  requests_get (Externals := down) 0 (openfoodfacts_url ean8) 10 = Raise timed_out
  /\ fst (upload_barcode_image (E := down) (request "1" "scan") (start empty_db))
     = Ok (FetchFailed timed_out)
  /\ fst (upload_barcode_image (E := down) (request "1" "scan") (start empty_db))
     <> Ok (BarcodeOnly ean8).
Proof.
  split; [reflexivity|]. split; [reflexivity|].
  vm_compute. discriminate.
Qed.

Lemma lookup_outcomes_witness :
  upload_barcode_image (E := down) (request "1" "scan") (start empty_db)
  = (Ok (FetchFailed timed_out),
     looked_up ean8 (after_calls (start empty_db) [Zbar (E := down) 1%N])).
Proof.
  apply (proj1 (@lookup_outcomes down (request "1" "scan") (start empty_db)
                  (after_calls (start empty_db) [Zbar (E := down) 1%N]) ean8 []
                  eq_refl eq_refl eq_refl)).
  reflexivity.
Defined.

(** A status other than 200 does give BarcodeOnly. *)
Example not_found_is_barcode_only :
  fst (upload_barcode_image
         (E := env (fun _ _ _ => Ok {| status_code := 404;
                                       json := Raise timed_out |}))
         (request "1" "scan") (start empty_db))
  = Ok (BarcodeOnly ean8).
Proof. reflexivity. Qed.

Lemma missing_product_is_server_error_witness :
  upload_barcode_image (E := without_product) (request "1" "scan") (start empty_db)
  = (Raise (mk_exn (HTTPException 500)
              (lit "Error processing barcode image: 'product'")),
     looked_up ean8 (after_calls (start empty_db) [Zbar (E := without_product) 1%N])).
Proof.
  apply (@missing_product_is_server_error without_product
           (request "1" "scan") (start empty_db)
           (after_calls (start empty_db) [Zbar (E := without_product) 1%N]) ean8 []
           {| status_code := 200;
              json := Ok (PDict [ (lit "status", PInt 1);
                                  (lit "code", PStr ean8) ]) |}
           [ (lit "status", PInt 1); (lit "code", PStr ean8) ]).
  - reflexivity.
  - reflexivity.
  - reflexivity.
  - reflexivity.
  - reflexivity.
  - reflexivity.
  - intros status H. vm_compute in H. injection H as <-. reflexivity.
  - reflexivity.
Defined.

(** [C8], the code at a stored row that holds image bytes: the barcode
    12345678 is already stored, with one byte of barcode image. The
    [scan_and_save] request does not answer with the stored row:
    [to_dict] raises [LookupError] on the image bytes, the [except]
    clause of the save step catches it, and the answer carries the
    freshly normalised candidate under the message of a failed save.
    The database is left as it was. *)
Theorem stored_image_bytes_answer_with_candidate :
  fst (upload_barcode_image (E := with_product) (request "1" "scan_and_save")
         (start (db_with (stored (PBytes [x89])))))
  = Ok (SavedFailed ean8
          [ (lit "barcode", PStr ean8);
            (lit "name", PStr (lit "Oat drink"));
            (lit "brand", PStr (lit "Oatly"));
            (lit "category", PStr (lit "Beverages"));
            (lit "calories", PInt 46);
            (lit "fat", PInt 3);
            (lit "allergens", PList [ PStr (lit "milk"); PStr (lit " soy") ]);
            (lit "quantity", PInt 1) ])
  /\ db (snd (upload_barcode_image (E := with_product)
                (request "1" "scan_and_save")
                (start (db_with (stored (PBytes [x89]))))))
     = db_with (stored (PBytes [x89]))
  /\ exists e, Food.to_dict (stored (PBytes [x89])) = Raise e
               /\ exn_cls e = LookupError.
Proof.
  split; [reflexivity|]. split; [reflexivity|].
  eexists. split; reflexivity.
Qed.

(** The same request when the stored row holds no image: the stored
    row is the answer, old label and quantity included, and nothing is
    written. *)
Example stored_row_wins :
  exists stored_dict,
    upload_barcode_image (E := with_product) (request "1" "scan_and_save")
      (start (db_with (stored PNone)))
    = (Ok (AlreadyExists ean8 stored_dict),
       looked_up ean8 (after_calls (start (db_with (stored PNone))) [Zbar (E := with_product) 1%N]))
    /\ dict_get (lit "name") stored_dict = Some (PStr (lit "Oat drink, old label"))
    /\ dict_get (lit "quantity") stored_dict = Some (PInt 7)
    /\ db (looked_up ean8 (after_calls (start (db_with (stored PNone))) [Zbar (E := with_product) 1%N]))
       = db_with (stored PNone).
Proof. eexists. repeat split. Qed.

(** A new barcode is stored, with a fresh key. *)
Example new_row_is_saved :
  exists created w',
    upload_barcode_image (E := with_product) (request "2" "scan_and_save")
      (start empty_db)
    = (Ok (Saved ean8 created), w')
    /\ dict_get (lit "id") created = Some (PStr (lit "food-1"))
    /\ List.length (foods (db w')) = 1%nat.
Proof.
  destruct (upload_barcode_image (E := with_product) (request "2" "scan_and_save")
              (start empty_db)) as [r w'] eqn:Hrun.
  vm_compute in Hrun. injection Hrun as <- <-.
  eexists. eexists. split; [reflexivity|]. split; reflexivity.
Qed.

(** The blank name of [C3] on its way to the database: the candidate
    has no name, the INSERT violates NOT NULL, and the request ends as
    a failed save with nothing stored. *)
Example blank_name_cannot_be_saved :
  upload_barcode_image (E := with_blank_name) (request "1" "scan_and_save")
    (start empty_db)
  = (Ok (SavedFailed ean8 [ (lit "barcode", PStr ean8); (lit "quantity", PInt 1) ]),
     {| db := empty_db; clock := 2;
        calls := [Zbar (E := with_blank_name) 1%N; HttpGet (E := with_blank_name) (openfoodfacts_url ean8)] |}).
Proof. reflexivity. Qed.

(** Five units consumed: the log entry says 5, tagged "consumed". *)
Lemma update_quantity_logs_absolute_value_witness :
  exists entry,
    nutrition_logs
      (db (snd (Crud.update_quantity (E := down) (lit "food-a") (-5)
                  (lit "consumed") (start (db_with (stored PNone))))))
    = nutrition_logs (db (start (E := down) (db_with (stored PNone)))) ++ [entry]
    /\ NutritionLog.quantity entry = Z.abs (-5)
    /\ (0 <= NutritionLog.quantity entry)%Z
    /\ NutritionLog.action entry = lit "consumed"
    /\ NutritionLog.food_id entry = lit "food-a".
Proof.
  apply (@update_quantity_logs_absolute_value down (lit "food-a") (-5)
           (lit "consumed") (start (db_with (stored PNone))) _ (stored PNone)).
  reflexivity.
Defined.

Example update_quantity_run :
  fst (Crud.update_quantity (E := down) (lit "food-a") (-5) (lit "consumed")
         (start (db_with (stored PNone))))
  = Ok (Some (stored PNone))
  /\ nutrition_logs
       (db (snd (Crud.update_quantity (E := down) (lit "food-a") (-5)
                   (lit "consumed") (start (db_with (stored PNone))))))
     = [ {| NutritionLog.id := lit "food-0";
            NutritionLog.food_id := lit "food-a";
            NutritionLog.quantity := 5;
            NutritionLog.timestamp := lit "2024-01-01T00:00:00";
            NutritionLog.action := lit "consumed" |} ].
Proof. split; reflexivity. Qed.


(* ================================================================== *)
(** * Further properties *)
(* ================================================================== *)

(** ** More on the resolution pipeline *)

Section PipelineFootprint.

Context {E : Externals}.

Lemma zbar_calls_app (a b : list call) :
  zbar_calls (a ++ b) = (zbar_calls a + zbar_calls b)%nat.
Proof. unfold zbar_calls. now rewrite filter_app, length_app. Qed.

Lemma zbar_calls_map (l : list image) : zbar_calls (map Zbar l) = List.length l.
Proof.
  unfold zbar_calls. induction l as [|u l IH]; simpl; [reflexivity|].
  now rewrite IH.
Qed.

(** The loop calls the detector on a prefix of the variants and does
    nothing else. *)
Lemma scan_processed_calls (variants : list image) (w : world) :
  exists scanned,
    snd (scan_processed variants w) = after_calls w (map Zbar scanned)
    /\ (List.length scanned <= List.length variants)%nat.
Proof.
  revert w. induction variants as [|u variants IH]; intros w; simpl.
  - exists []. split; [symmetry; apply after_calls_nil|reflexivity].
  - unfold bind, called, lift.
    destruct (pyzbar_decode u) as [[|b bs]|e]; simpl.
    + destruct (IH (after_calls w [Zbar u])) as (scanned & Hs & Hlen).
      exists (u :: scanned). split; [|simpl; lia].
      rewrite Hs, after_calls_app. reflexivity.
    + exists [u]. split; [reflexivity|simpl; lia].
    + exists [u]. split; [reflexivity|simpl; lia].
Qed.

(** Whatever the payload and whatever the libraries return or raise,
    the pipeline leaves the database and the clock alone, and calls the
    symbol detector at most four times. *)
Theorem detect_footprint (image_data image_format : pystr) (w : world) :
  exists cs,
    snd (detect_barcodes_with_preprocessing image_data image_format w)
    = after_calls w cs
    /\ (zbar_calls cs <= 4)%nat.
Proof.
  unfold detect_barcodes_with_preprocessing, try_except, bind, lift, ret.
  destruct (b64decode image_data) as [image_bytes|e];
    [|exists []; split;
      [symmetry; apply after_calls_nil|unfold zbar_calls; simpl; lia]].
  destruct (imdecode image_bytes) as [[img|]|e];
    try (exists []; split; [symmetry; apply after_calls_nil|unfold zbar_calls; simpl; lia]).
  unfold called.
  destruct (pyzbar_decode img) as [[|b bs]|e]; simpl;
    try (exists [Zbar img]; split;
         [now destruct (detected (b :: bs)) | unfold zbar_calls; simpl; lia]);
    try (exists [Zbar img]; split; [reflexivity | unfold zbar_calls; simpl; lia]).
  unfold preprocess_image, bind, called, ret.
  destruct (cvtColor_BGR2GRAY img) as [gray|e]; simpl;
    [|exists [Zbar img; CvtColor img]; split;
      [now rewrite after_calls_app | unfold zbar_calls; simpl; lia]].
  destruct (threshold_BINARY gray 128 255) as [thresh|e]; simpl;
    [|exists [Zbar img; CvtColor img; Threshold gray]; split;
      [now rewrite !after_calls_app | unfold zbar_calls; simpl; lia]].
  destruct (adaptiveThreshold_GAUSSIAN_BINARY gray 255 11 2) as [adaptive|e];
    cbv beta iota;
    [|exists [Zbar img; CvtColor img; Threshold gray; AdaptiveThreshold gray];
      split; [now rewrite !after_calls_app | unfold zbar_calls; simpl; lia]].
  match goal with
  | |- context [scan_processed ?l ?w0] =>
      destruct (scan_processed_calls l w0) as (scanned & Hs & Hlen);
      destruct (scan_processed l w0) as [[texts|e] w']
  end; simpl in Hs, Hlen |- *; subst w';
    exists ([Zbar img; CvtColor img; Threshold gray; AdaptiveThreshold gray]
              ++ map Zbar scanned);
    (split;
     [now rewrite !after_calls_app
     | rewrite zbar_calls_app, zbar_calls_map; unfold zbar_calls; simpl; lia]).
Qed.

(** A text the loop returns was decoded from a symbol found on one of
    the variants. *)
Lemma scan_processed_sound (variants : list image) (w w' : world)
    (texts : list pystr) :
  scan_processed variants w = (Ok texts, w') ->
  texts <> [] ->
  exists u barcodes,
    In u variants
    /\ pyzbar_decode u = Ok barcodes
    /\ detected barcodes = Ok texts.
Proof.
  revert w. induction variants as [|u variants IH]; intros w; simpl.
  - unfold ret. intros H Hne. injection H as <- _. contradiction.
  - unfold bind, called, lift.
    destruct (pyzbar_decode u) as [[|b bs]|e] eqn:Hu; simpl.
    + intros H Hne. destruct (IH _ H Hne) as (v & barcodes & Hin & Hv & Hd).
      exists v, barcodes. auto.
    + intros H _. exists u, (b :: bs). repeat split; auto.
      now injection H as -> _.
    + discriminate.
Qed.

(** The pipeline invents nothing: a non-empty result is the UTF-8
    decoding of the symbols the detector found on the decoded image or
    on one of its three variants. *)
Theorem detect_sound (image_data image_format : pystr) (w w' : world)
    (texts : list pystr) :
  detect_barcodes_with_preprocessing image_data image_format w = (Ok texts, w') ->
  texts <> [] ->
  exists image_bytes img u barcodes,
    b64decode image_data = Ok image_bytes
    /\ imdecode image_bytes = Ok (Some img)
    /\ (u = img
        \/ exists gray thresh adaptive,
             cvtColor_BGR2GRAY img = Ok gray
             /\ threshold_BINARY gray 128 255 = Ok thresh
             /\ adaptiveThreshold_GAUSSIAN_BINARY gray 255 11 2 = Ok adaptive
             /\ In u [gray; thresh; adaptive])
    /\ pyzbar_decode u = Ok barcodes
    /\ detected barcodes = Ok texts.
Proof.
  unfold detect_barcodes_with_preprocessing, try_except, bind, lift, ret.
  destruct (b64decode image_data) as [image_bytes|e] eqn:Hb;
    [|intros H Hne; injection H as <- _; contradiction].
  destruct (imdecode image_bytes) as [[img|]|e] eqn:Hi;
    try (intros H Hne; injection H as <- _; contradiction).
  unfold called.
  destruct (pyzbar_decode img) as [[|b bs]|e] eqn:Hz; simpl;
    try (intros H Hne; injection H as <- _; contradiction).
  - unfold preprocess_image, bind, called, ret.
    destruct (cvtColor_BGR2GRAY img) as [gray|e] eqn:Hg; simpl;
      [|intros H Hne; injection H as <- _; contradiction].
    destruct (threshold_BINARY gray 128 255) as [thresh|e] eqn:Ht; simpl;
      [|intros H Hne; injection H as <- _; contradiction].
    destruct (adaptiveThreshold_GAUSSIAN_BINARY gray 255 11 2)
      as [adaptive|e] eqn:Ha; cbv beta iota;
      [|intros H Hne; injection H as <- _; contradiction].
    match goal with
    | |- context [scan_processed ?l ?w0] =>
        destruct (scan_processed l w0) as [[found|e] w1] eqn:Hscan
    end; intros H Hne; injection H as <- _; [|contradiction].
    destruct (scan_processed_sound _ _ Hscan Hne) as (u & barcodes & Hin & Hu & Hd).
    exists image_bytes, img, u, barcodes.
    repeat split; auto. right. exists gray, thresh, adaptive. auto.
  - destruct (detected (b :: bs)) as [found|e] eqn:Hd;
      intros H Hne; injection H as <- _; [|contradiction].
    exists image_bytes, img, img, (b :: bs). repeat split; auto.
Qed.

End PipelineFootprint.

(** ** More on the normalised record *)

Section Record.

Local Open Scope py_scope.

Ltac lookup_entry :=
  unfold unfiltered;
  repeat (rewrite dict_get_remove_none_cons;
          match goal with
          | |- context [PyStr.eqb ?a ?b] =>
              let r := eval vm_compute in (PyStr.eqb a b) in
              change (PyStr.eqb a b) with r
          end;
          cbv iota);
  try rewrite dict_get_remove_none_nil.

(** Splitting at a separator and joining with it gives the text back. *)
Lemma join_split (sep : N) (s : pystr) :
  PyStr.join sep (PyStr.split sep s) = s.
Proof.
  induction s as [|c s IH]; [reflexivity|].
  simpl PyStr.split.
  pose proof (split_not_nil sep s) as Hne.
  destruct (N.eqb c sep) eqn:Hc.
  - apply N.eqb_eq in Hc. subst c.
    destruct (PyStr.split sep s) as [|w ws]; [contradiction|].
    change (PyStr.join sep ([] :: w :: ws)) with (sep :: PyStr.join sep (w :: ws)).
    now rewrite IH.
  - destruct (PyStr.split sep s) as [|w ws]; [contradiction|].
    destruct ws as [|w' ws].
    + simpl in IH |- *. now rewrite IH.
    + change (PyStr.join sep ((c :: w) :: w' :: ws))
        with (c :: (w ++ sep :: PyStr.join sep (w' :: ws))).
      change (PyStr.join sep (w :: w' :: ws))
        with (w ++ sep :: PyStr.join sep (w' :: ws)) in IH.
      now rewrite IH.
Qed.

(** No piece of a split contains the separator. *)
Lemma split_without_sep (sep : N) (s : pystr) :
  Forall (fun piece => ~ In sep piece) (PyStr.split sep s).
Proof.
  induction s as [|c s IH]; simpl.
  - constructor; [intros []|constructor].
  - destruct (N.eqb c sep) eqn:Hc.
    + constructor; [intros []|assumption].
    + destruct (PyStr.split sep s) as [|w ws]; [repeat constructor; intros [H|[]]|].
      * apply N.eqb_neq in Hc. congruence.
      * inversion IH as [|? ? Hw Hws]; subst. constructor; [|assumption].
        intros [H|H]; [|now apply Hw].
        apply N.eqb_neq in Hc. congruence.
Qed.

(** Stripping only removes characters. *)
Lemma lstrip_incl (c : N) (s : pystr) : In c (PyStr.lstrip s) -> In c s.
Proof.
  induction s as [|x s IH]; simpl; [auto|].
  destruct (char_isspace x); simpl; auto.
Qed.

Lemma strip_incl (c : N) (s : pystr) : In c (PyStr.strip s) -> In c s.
Proof.
  unfold PyStr.strip, PyStr.rstrip. intros H.
  apply in_rev in H. apply lstrip_incl in H. apply in_rev in H.
  now apply lstrip_incl.
Qed.

(** The allergens entry of a record. *)
Lemma allergens_entry (barcode : pystr) (product : pyval) (food_data : dict)
    (source : pystr) :
  get product "allergens" PNone = Ok (PStr source) ->
  source <> [] ->
  build_food_data barcode product = Ok food_data ->
  dict_get (lit "allergens") food_data =
  Some (PList (map PStr (PyStr.split comma source))).
Proof.
  intros Hget Hne Hbuild.
  apply build_food_data_ok in Hbuild
    as (nutriments & e & _ & _ & _ & _ & _ & _ & _ & _ & _ & _ & _ & Hall & ->).
  assert (Htruthy : truthy (PStr source) = true)
    by (destruct source; [contradiction|reflexivity]).
  unfold allergens_of in Hall. rewrite Hget in Hall.
  cbn [obind] in Hall. rewrite Htruthy in Hall.
  rewrite (@get_present product "allergens" _ (PStr (lit "")) Hget) in Hall
    by discriminate.
  cbn [obind split_comma] in Hall. injection Hall as Hall.
  lookup_entry. rewrite <- Hall.
  now rewrite is_provided_split.
Qed.

(** The allergens list loses nothing of its source: its pieces contain
    no comma, and joined with commas they give the source text back. *)
Theorem allergens_round_trip
    (barcode : pystr) (product : pyval) (food_data : dict) (source : pystr) :
  get product "allergens" PNone = Ok (PStr source) ->
  source <> [] ->
  build_food_data barcode product = Ok food_data ->
  exists pieces,
    dict_get (lit "allergens") food_data = Some (PList (map PStr pieces))
    /\ PyStr.join comma pieces = source
    /\ Forall (fun piece => ~ In comma piece) pieces.
Proof.
  intros Hget Hne Hbuild.
  exists (PyStr.split comma source). split; [|split].
  - now apply allergens_entry with (barcode := barcode) (product := product).
  - apply join_split.
  - apply split_without_sep.
Qed.

(** The brand is the trimmed [brands] field; a missing or blank field
    leaves the record without a brand. *)
Theorem brand_entry (barcode : pystr) (product : pyval) (food_data : dict)
    (text : pystr) :
  get product "brands" (PStr (lit "")) = Ok (PStr text) ->
  build_food_data barcode product = Ok food_data ->
  dict_get (lit "brand") food_data =
  match PyStr.strip text with
  | [] => None
  | _ :: _ => Some (PStr (PyStr.strip text))
  end.
Proof.
  intros Hget Hbuild.
  apply build_food_data_ok in Hbuild
    as (nutriments & e & _ & _ & Hbrand & _ & _ & _ & _ & _ & _ & _ & _ & _ & ->).
  unfold brand_of in Hbrand. rewrite Hget in Hbrand.
  cbn [obind Py.strip] in Hbrand. injection Hbrand as Hbrand.
  lookup_entry. rewrite <- Hbrand.
  now destruct (PyStr.strip text).
Qed.

(** The category is the first comma-separated piece of the
    [categories] field, trimmed; it never contains a comma, and a
    missing, falsy or blank-first field leaves the record without a
    category. *)
Theorem category_entry (barcode : pystr) (product : pyval) (food_data : dict)
    (raw : pyval) :
  get product "categories" PNone = Ok raw ->
  build_food_data barcode product = Ok food_data ->
  dict_get (lit "category") food_data =
  match raw with
  | PStr text =>
      match PyStr.strip (hd [] (PyStr.split comma text)) with
      | [] => None
      | _ :: _ => Some (PStr (PyStr.strip (hd [] (PyStr.split comma text))))
      end
  | _ => None
  end
  /\ forall category,
       dict_get (lit "category") food_data = Some (PStr category) ->
       ~ In comma category.
Proof.
  intros Hget Hbuild.
  apply build_food_data_ok in Hbuild
    as (nutriments & e & _ & _ & _ & Hcat & _ & _ & _ & _ & _ & _ & _ & _ & ->).
  unfold category_of in Hcat. rewrite Hget in Hcat. cbn [obind] in Hcat.
  assert (Hentry :
            dict_get (lit "category") (remove_none (unfiltered barcode e)) =
            match raw with
            | PStr text =>
                match PyStr.strip (hd [] (PyStr.split comma text)) with
                | [] => None
                | _ :: _ =>
                    Some (PStr (PyStr.strip (hd [] (PyStr.split comma text))))
                end
            | _ => None
            end).
  { lookup_entry.
    destruct (truthy raw) eqn:Htruthy.
    - assert (Hraw : raw <> PNone) by (intros ->; discriminate).
      rewrite (@get_present product "categories" _ (PStr (lit "")) Hget Hraw)
        in Hcat.
      cbn [obind] in Hcat.
      destruct raw; try discriminate.
      cbn [obind split_comma] in Hcat. injection Hcat as Hcat.
      rewrite <- Hcat. now destruct (PyStr.strip (hd [] (PyStr.split comma s))).
    - injection Hcat as Hcat. rewrite <- Hcat. cbn [is_provided].
      destruct raw; try reflexivity.
      destruct s; [reflexivity|discriminate]. }
  split; [exact Hentry|].
  intros category Hc. rewrite Hentry in Hc.
  destruct raw; try discriminate.
  destruct (PyStr.strip (hd [] (PyStr.split comma s))) eqn:Hs; [discriminate|].
  injection Hc as <-. intros Hin. rewrite <- Hs in Hin.
  apply strip_incl in Hin.
  pose proof (split_without_sep comma s) as Hall.
  pose proof (split_not_nil comma s) as Hne.
  destruct (PyStr.split comma s) as [|piece pieces]; [contradiction|].
  inversion Hall; subst. simpl in Hin. contradiction.
Qed.

Lemma round_is_int (value result : pyval) :
  Py.round value = Ok result -> exists z, result = PInt z.
Proof.
  unfold Py.round. destruct value; try discriminate.
  - intros H. injection H as <-. eauto.
  - intros H. injection H as <-. eauto.
  - destruct (float_is_finite bits).
    + match goal with
      | |- Ok (PInt ?n) = Ok _ -> _ => generalize n
      end.
      intros n H. injection H as <-. eauto.
    + destruct (Z.eqb (float_frac bits) 0); discriminate.
Qed.

Lemma round2_is_number (value result : pyval) :
  Py.round2 value = Ok result ->
  (exists z, result = PInt z) \/ (exists bits, result = PFloat bits).
Proof.
  unfold Py.round2. destruct value; try discriminate.
  - intros H. injection H as <-. eauto.
  - intros H. injection H as <-. eauto.
  - destruct (float_is_finite bits).
    + match goal with
      | |- context [nearest_float ?a ?b ?c] => destruct (nearest_float a b c)
      end; [|discriminate].
      intros H. injection H as <-. eauto.
    + intros H. injection H as <-. eauto.
Qed.

(** What a nutrient entry can be. *)
Lemma nutrient_result (nutriments : pyval) (key : string)
    (rounding : pyval -> outcome pyval) (result : pyval) :
  nutrient nutriments key rounding = Ok result ->
  result = PNone \/ exists value, rounding value = Ok result.
Proof.
  unfold nutrient.
  destruct (get nutriments key PNone) as [present|]; [|discriminate].
  cbn [obind]. destruct (truthy present).
  - destruct (get nutriments key (PInt 0)) as [value|]; [|discriminate].
    cbn [obind]. eauto.
  - intros H. injection H as <-. now left.
Qed.

(** The entries of a record are typed as the columns expect: [calories],
    when present, is an integer, and every other nutrient, when present,
    is an integer or a float. *)
Theorem nutrients_are_numbers
    (barcode : pystr) (product : pyval) (food_data : dict) :
  build_food_data barcode product = Ok food_data ->
  (forall v, dict_get (lit "calories") food_data = Some v -> exists z, v = PInt z)
  /\ (forall source field v,
         In (source, field) nutrient_fields ->
         dict_get (lit field) food_data = Some v ->
         (exists z, v = PInt z) \/ (exists bits, v = PFloat bits)).
Proof.
  intros Hbuild.
  apply build_food_data_ok in Hbuild
    as (nutriments & e & _ & _ & _ & _ & Hcal & Hpro & Hfat & Hcarb
        & Hfib & Hsug & Hsod & _ & ->).
  assert (Hint : forall v,
             dict_get (lit "calories") (remove_none (unfiltered barcode e)) = Some v ->
             exists z, v = PInt z).
  { intros v. lookup_entry.
    destruct (nutrient_result _ _ _ Hcal) as [Hnone|[value Hvalue]].
    - rewrite Hnone. discriminate.
    - destruct (round_is_int _ Hvalue) as [z Hz]. rewrite Hz.
      cbn [is_provided]. intros H. injection H as <-. eauto. }
  split; [exact Hint|].
  intros source field v Hin.
  unfold nutrient_fields in Hin. simpl in Hin.
  destruct Hin as [Heq|[Heq|[Heq|[Heq|[Heq|[Heq|[Heq|[]]]]]]]];
    injection Heq as <- <-;
    [ intros Hv; left; now apply Hint | .. ];
    lookup_entry;
    match goal with
    | |- (if is_provided ?entry then _ else _) = _ -> _ =>
        match goal with
        | H : nutrient _ _ round2 = Ok entry |- _ =>
            destruct (nutrient_result _ _ _ H) as [Hnone|[value Hvalue]];
            [ rewrite Hnone; discriminate
            | destruct (is_provided entry); [|discriminate];
              intros Hv; injection Hv as <-;
              exact (round2_is_number _ Hvalue) ]
        end
    end.
Qed.

Lemma record_shape
    (barcode : pystr) (product : pyval) (food_data : dict) :
  barcode <> [] ->
  build_food_data barcode product = Ok food_data ->
  dict_get (lit "barcode") food_data = Some (PStr barcode)
  /\ dict_get (lit "quantity") food_data = Some (PInt 1)
  /\ Forall (fun kv => is_provided (snd kv) = true) food_data
  /\ Forall (fun kv => In (fst kv) Food.columns) food_data.
Proof.
  intros Hne Hbuild.
  apply build_food_data_ok in Hbuild
    as (nutriments & e & _ & _ & _ & _ & _ & _ & _ & _ & _ & _ & _ & _ & ->).
  repeat split.
  - lookup_entry. destruct barcode; [contradiction|reflexivity].
  - lookup_entry. reflexivity.
  - apply Forall_forall. intros kv Hin.
    unfold remove_none in Hin. apply filter_In in Hin. tauto.
  - apply Forall_forall. intros kv Hin.
    unfold remove_none in Hin. apply filter_In in Hin as [Hin _].
    unfold unfiltered in Hin. simpl in Hin.
    repeat (destruct Hin as [<-|Hin]; [vm_compute; tauto|]).
    contradiction.
Qed.

(** Every record built for a non-empty barcode carries that barcode
    and the quantity 1; none of its entries is [None], an empty string
    or an empty list; and its keys are columns of the table, so that the
    constructor of [Food] accepts it. *)
Theorem food_data_shape
    (barcode : pystr) (product : pyval) (food_data : dict) :
  barcode <> [] ->
  build_food_data barcode product = Ok food_data ->
  dict_get (lit "barcode") food_data = Some (PStr barcode)
  /\ dict_get (lit "quantity") food_data = Some (PInt 1)
  /\ Forall (fun kv => is_provided (snd kv) = true) food_data
  /\ Forall (fun kv => In (fst kv) Food.columns) food_data.
Proof.
  intros Hne Hbuild. now apply record_shape with (product := product).
Qed.

End Record.

(** ** More on the database operations *)

(** *** What is stored as it stands *)

Section Storage.

Context {G : Engine}.

Lemma process_none (t : Sql.column_type) : Sql.process t PNone = Ok PNone.
Proof. now destruct t. Qed.

Lemma process_varchar (v : pyval) : Sql.process Sql.VARCHAR v = Ok v.
Proof. now destruct v. Qed.

Lemma process_integer (v : pyval) : Sql.process Sql.INTEGER v = Ok v.
Proof. now destruct v. Qed.

Lemma store_text (s : pystr) :
  Sql.encodable s = true -> Sql.store Sql.VARCHAR (PStr s) = Ok (PStr s).
Proof. intros H. unfold Sql.store, Sql.bind. now rewrite H. Qed.

(** A text that is stored in a text column is stored as it is. *)
Lemma store_text_inv (s : pystr) (v : pyval) :
  Sql.store Sql.VARCHAR (PStr s) = Ok v -> v = PStr s.
Proof.
  unfold Sql.store, Sql.bind. destruct (Sql.encodable s); [|discriminate].
  cbn. congruence.
Qed.

Lemma store_int (z : Z) :
  Sql.int64 z = true -> Sql.store Sql.INTEGER (PInt z) = Ok (PInt z).
Proof. intros H. unfold Sql.store, Sql.bind. now rewrite H. Qed.

(** An integer of 64 bits has a float. *)
Lemma float_of_int_int64 (z : Z) :
  Sql.int64 z = true -> exists f, Sql.float_of_int z = Some f.
Proof.
  intros H. unfold Sql.int64 in H. apply andb_true_iff in H as [Hlo Hhi].
  apply Z.leb_le in Hlo. apply Z.ltb_lt in Hhi.
  assert (Hlog : (Z.log2 (Z.abs z) < 64)%Z).
  { destruct (Z.eq_dec (Z.abs z) 0) as [->|Hnz]; [reflexivity|].
    apply Z.log2_lt_pow2; lia. }
  unfold Sql.float_of_int, nearest_float.
  destruct (Z.eqb (Z.abs z) 0); [eauto|].
  change (Z.log2 1) with 0%Z.
  set (n := Z.abs z) in *.
  match goal with
  | |- context [Z.max ?a (-1074)] => set (e1 := a)
  end.
  assert (He1 : (e1 <= 11)%Z).
  { subst e1. match goal with |- context [if ?c then _ else _] => destruct c end; lia. }
  set (e := Z.max e1 (-1074)).
  assert (He : (e <= 11)%Z) by (subst e; lia).
  clearbody e. clear He1. clearbody e1.
  match goal with
  | |- context [Z.eqb ?m (2 ^ 53)] => generalize m
  end.
  intros mantissa. destruct (Z.eqb mantissa (2 ^ 53)).
  - replace (Z.ltb 971 (e + 1)) with false by (symmetry; apply Z.ltb_ge; lia).
    match goal with |- context [if ?c then _ else _] => destruct c end; eauto.
  - replace (Z.ltb 971 e) with false by (symmetry; apply Z.ltb_ge; lia).
    match goal with |- context [if ?c then _ else _] => destruct c end; eauto.
Qed.

Lemma json_loaded_texts (l : list pyval) :
  forallb (fun x => match x with PStr _ => true | _ => false end) l = true ->
  map Sql.json_loaded l = l /\ Sql.unserialisable (PList l) = None.
Proof.
  induction l as [|x l IH]; [now split|].
  cbn [forallb]. intros H. apply andb_true_iff in H as [Hx Hl].
  destruct (IH Hl) as [IHmap IHser].
  destruct x; try discriminate. split.
  - cbn [map Sql.json_loaded]. now rewrite IHmap.
  - cbn in IHser |- *. exact IHser.
Qed.

(** A native value passes the bind processor and the INSERT; in a
    column of texts or integers it is read back as it was given. *)
Lemma native_passes (t : Sql.column_type) (v : pyval) :
  Sql.native t v = true ->
  exists x y,
    Sql.process t v = Ok x
    /\ Sql.store t x = Ok y
    /\ (t = Sql.VARCHAR \/ t = Sql.INTEGER -> y = v).
Proof.
  intros H. destruct v.
  - exists PNone, PNone. rewrite process_none. now destruct t.
  - destruct t; discriminate.
  - destruct t; try discriminate.
    + exists (PInt z), (PInt z). rewrite process_integer.
      cbn [Sql.native] in H. rewrite (store_int _ H). auto.
    + cbn [Sql.native] in H. destruct (float_of_int_int64 _ H) as [f Hf].
      exists (PFloat f). cbn [Sql.process]. rewrite Hf.
      unfold Sql.store, Sql.bind. cbn [obind]. eexists.
      repeat split. intros [Ht|Ht]; discriminate.
  - destruct t; try discriminate.
    exists (PFloat bits). cbn [Sql.process].
    unfold Sql.store, Sql.bind. cbn [obind]. eexists.
    repeat split. intros [Ht|Ht]; discriminate.
  - destruct t; try discriminate.
    exists (PStr s), (PStr s). rewrite process_varchar.
    cbn [Sql.native] in H. rewrite (store_text _ H). auto.
  - destruct t; discriminate.
  - destruct t; discriminate.
  - destruct t; try discriminate.
    cbn [Sql.native] in H. destruct (json_loaded_texts _ H) as [Hmap Hser].
    exists (PList l). unfold Sql.process. rewrite Hser.
    eexists. repeat split. intros [Ht|Ht]; discriminate.
  - destruct t; discriminate.
Qed.

(** What a station made of the three columns the properties below
    speak about. *)
Lemma traverse_fields (station : Sql.column_type -> pyval -> outcome pyval)
    (f f' : Food.t) :
  Food.traverse station f = Ok f' ->
  station Sql.VARCHAR (Food.barcode f) = Ok (Food.barcode f')
  /\ station Sql.VARCHAR (Food.name f) = Ok (Food.name f')
  /\ station Sql.INTEGER (Food.quantity f) = Ok (Food.quantity f')
  /\ Food.id f' = Food.id f.
Proof.
  unfold Food.traverse. intros H.
  repeat match type of H with
         | obind (station ?t ?v) _ = _ =>
             destruct (station t v) eqn:?; cbn [obind] in H; [|discriminate]
         end.
  injection H as <-. cbn. auto.
Qed.

(** A row of native values passes both stations, and its barcode, name
    and quantity are read back as they were given. *)
Lemma native_row_passes (f : Food.t) :
  Food.native f = true ->
  exists processed stored,
    Food.traverse Sql.process f = Ok processed
    /\ Food.traverse Sql.store processed = Ok stored
    /\ Food.barcode stored = Food.barcode f
    /\ Food.name stored = Food.name f
    /\ Food.quantity stored = Food.quantity f
    /\ Food.id stored = Food.id f.
Proof.
  unfold Food.native. intros H.
  repeat match type of H with
         | (_ && _)%bool = true =>
             let H' := fresh "Hcolumn" in
             apply andb_true_iff in H as [H H'];
             apply native_passes in H' as (? & ? & ? & ? & ?)
         end.
  apply native_passes in H as (? & ? & ? & ? & ?).
  unfold Food.traverse.
  repeat match goal with
         | Hp : Sql.process ?t ?v = Ok _ |- context [Sql.process ?t ?v] =>
             rewrite Hp; clear Hp
         end.
  cbn [obind]. eexists. eexists. split; [reflexivity|].
  cbn [Food.barcode Food.name Food.brand Food.category Food.calories
       Food.protein Food.fat Food.carbs Food.fiber Food.sugars Food.sodium
       Food.allergens Food.expiry_date Food.quantity Food.location
       Food.barcode_image_url Food.barcode_image_data Food.created_at Food.id].
  repeat match goal with
         | Hs : Sql.store ?t ?v = Ok _ |- context [Sql.store ?t ?v] =>
             rewrite Hs; clear Hs
         end.
  cbn [obind]. split; [reflexivity|].
  cbn [Food.barcode Food.name Food.quantity Food.id].
  repeat split; auto.
Qed.

End Storage.

(** *** Creating rows, and updating quantities *)

Section Rows.

Context {E : Externals}.

Import Crud.

Lemma find_app {A} (p : A -> bool) (l l' : list A) :
  find p (l ++ l') = match find p l with Some a => Some a | None => find p l' end.
Proof.
  induction l as [|a l IH]; simpl; [reflexivity|].
  now destruct (p a).
Qed.

Lemma dict_get_in (k : pystr) (d : dict) (v : pyval) :
  dict_get k d = Some v -> In (k, v) d.
Proof.
  induction d as [|[k' v'] d IH]; simpl; [discriminate|].
  destruct (PyStr.eqb k' k) eqn:Hk.
  - intros H. injection H as <-. apply pystr_eqb_eq in Hk. subst. now left.
  - auto.
Qed.

(** The constructor accepts the keywords that name columns. *)
Lemma set_attributes_columns (kwargs : dict) :
  Forall (fun kv => In (fst kv) Food.columns) kwargs ->
  Food.set_attributes kwargs = Ok tt.
Proof.
  intros Hkeys. induction Hkeys as [|[k v] kwargs Hkv _ IH]; [reflexivity|].
  cbn [Food.set_attributes].
  assert (Hin : Food.is_column k = true).
  { unfold Food.is_column. apply existsb_exists. exists k.
    split; [now right|apply pystr_eqb_refl]. }
  now rewrite Hin.
Qed.

Lemma has_id_false (key : pystr) (rows : list Food.t) :
  ~ In key (map Food.id rows) -> existsb (Food.has_id key) rows = false.
Proof.
  intros Hfresh. destruct (existsb _ _) eqn:Hex; [|reflexivity].
  exfalso. apply Hfresh. apply existsb_exists in Hex as (row & Hin & Heq).
  unfold Food.has_id in Heq. apply pystr_eqb_eq in Heq.
  rewrite <- Heq. now apply in_map.
Qed.

Lemma has_id_fresh (key : pystr) (rows : list Food.t) :
  existsb (Food.has_id key) rows = false -> ~ In key (map Food.id rows).
Proof.
  intros Hex Hin. apply in_map_iff in Hin as (row & Hid & Hin).
  assert (H : existsb (Food.has_id key) rows = true).
  { apply existsb_exists. exists row. split; [assumption|].
    unfold Food.has_id. rewrite Hid. apply pystr_eqb_refl. }
  congruence.
Qed.

(** What [create_food] does, case by case: either the row it returns is
    appended, under a key no row had, with a barcode and a name, and a
    barcode given as text is the barcode of the row; or it raises and
    the database is as it was. *)
Lemma create_food_cases (food_data : dict) (w : world) :
  (exists row,
      create_food food_data w =
      (Ok row,
       {| db := {| foods := foods (db w) ++ [row];
                   nutrition_logs := nutrition_logs (db w) |};
          clock := S (clock w);
          calls := calls w |})
      /\ Food.not_null_violation row = None
      /\ ~ In (Food.id row) (map Food.id (foods (db w)))
      /\ (forall code,
             dict_get (lit "barcode") food_data = Some (PStr code) ->
             Food.barcode row = PStr code))
  \/ (exists e w', create_food food_data w = (Raise e, w') /\ db w' = db w).
Proof.
  unfold create_food, try_except, bind, lift, rollback, ret, raise.
  destruct (Food.init food_data) as [[given food]|e] eqn:Hinit; [|right; eauto].
  cbn [fst snd].
  unfold commit_food, bind, tick, lift, get_db, put_db, ret, raise.
  cbn [clock db calls].
  destruct (Food.traverse Sql.process (Food.default_quantity food))
    as [processed|e] eqn:Hprocess; [|right; eauto].
  match goal with
  | |- context [match ?k with Ok _ => _ | Raise _ => _ end] =>
      destruct k as [key|e]; [|right; eauto]
  end.
  destruct (Food.traverse Sql.store processed) as [stored|e] eqn:Hstore;
    [|right; eauto].
  destruct key as [key|]; [|right; eauto].
  destruct (Food.not_null_violation
              (Food.server_defaults key (now (clock w)) stored))
    as [column|] eqn:Hnull; [right; eauto|].
  cbn [clock db calls].
  destruct (existsb (Food.has_id key) (foods (db w))) eqn:Hkey; [right; eauto|].
  left. eexists. split; [reflexivity|]. split; [exact Hnull|]. split.
  - cbn [Food.server_defaults Food.id]. now apply has_id_fresh.
  - intros code Hcode. cbn [Food.server_defaults Food.barcode].
    apply traverse_fields in Hprocess as (Hp & _).
    apply traverse_fields in Hstore as (Hs & _).
    unfold Food.init in Hinit.
    destruct (Food.set_attributes food_data); [|discriminate].
    cbn [obind] in Hinit. injection Hinit as _ <-.
    cbn [Food.default_quantity Food.barcode] in Hp.
    unfold Food.kw in Hp. rewrite Hcode, process_varchar in Hp.
    injection Hp as Hp. rewrite <- Hp in Hs.
    now apply store_text_inv in Hs.
Qed.

(** [create_food] is all or nothing: it either appends exactly the row
    it returns, whose barcode and name are not NULL, and leaves the log
    alone, or it raises and leaves the database as it was. *)
Theorem create_food_all_or_nothing (food_data : dict) (w : world) :
  match create_food food_data w with
  | (Ok row, w') =>
      foods (db w') = foods (db w) ++ [row]
      /\ nutrition_logs (db w') = nutrition_logs (db w)
      /\ Food.barcode row <> PNone
      /\ Food.name row <> PNone
  | (Raise _, w') => db w' = db w
  end.
Proof.
  destruct (create_food_cases food_data w)
    as [(row & -> & Hnull & _)|(e & w' & -> & Hdb)]; [|assumption].
  cbn [db foods nutrition_logs]. repeat split.
  - unfold Food.not_null_violation in Hnull. intros Hb. now rewrite Hb in Hnull.
  - unfold Food.not_null_violation in Hnull. intros Hn. rewrite Hn in Hnull.
    now destruct (Food.barcode _).
Qed.

Ltac lookup_row :=
  unfold unfiltered;
  repeat (rewrite dict_get_remove_none_cons;
          match goal with
          | |- context [PyStr.eqb ?a ?b] =>
              let r := eval vm_compute in (PyStr.eqb a b) in
              change (PyStr.eqb a b) with r
          end;
          cbv iota);
  try rewrite dict_get_remove_none_nil.


(** A keyword is absent, or it is one of the entries. *)
Lemma kw_fits (kwargs : dict) (k : string) :
  Forall (fun kv => Sql.fits (snd kv) = true) kwargs ->
  Sql.fits (Food.kw kwargs k) = true.
Proof.
  intros Hfits. unfold Food.kw.
  destruct (dict_get (lit k) kwargs) as [v|] eqn:Hget; [|reflexivity].
  apply dict_get_in in Hget. rewrite Forall_forall in Hfits.
  exact (Hfits _ Hget).
Qed.

Lemma native_text (v : pyval) :
  v = PNone \/ (exists s, v = PStr s) ->
  Sql.fits v = true -> Sql.native Sql.VARCHAR v = true.
Proof. intros [->|[s ->]]; auto. Qed.

Lemma native_integer (v : pyval) :
  v = PNone \/ (exists z, v = PInt z) ->
  Sql.fits v = true -> Sql.native Sql.INTEGER v = true.
Proof. intros [->|[z ->]]; auto. Qed.

Lemma native_number (v : pyval) :
  v = PNone \/ (exists z, v = PInt z) \/ (exists bits, v = PFloat bits) ->
  Sql.fits v = true -> Sql.native Sql.FLOAT v = true.
Proof. intros [->|[[z ->]|[bits ->]]]; auto. Qed.

Lemma native_texts (v : pyval) :
  v = PNone \/ (exists pieces, v = PList (map PStr pieces)) ->
  Sql.native Sql.JSON v = true.
Proof.
  intros [->|[pieces ->]]; [reflexivity|]. cbn [Sql.native].
  induction pieces as [|piece pieces IH]; [reflexivity|exact IH].
Qed.

(** What the entries of a record can be, before the filter. *)
Lemma entry_kinds (barcode : pystr) (product : pyval) (food_data : dict) :
  build_food_data barcode product = Ok food_data ->
  exists e,
    food_data = remove_none (unfiltered barcode e)
    /\ (exists s, e_name e = PStr s)
    /\ (e_brand e = PNone \/ exists s, e_brand e = PStr s)
    /\ (e_category e = PNone \/ exists s, e_category e = PStr s)
    /\ (e_calories e = PNone \/ exists z, e_calories e = PInt z)
    /\ Forall (fun v => v = PNone \/ (exists z, v = PInt z)
                        \/ (exists bits, v = PFloat bits))
         [e_protein e; e_fat e; e_carbs e; e_fiber e; e_sugars e; e_sodium e]
    /\ (exists pieces, e_allergens e = PList (map PStr pieces)).
Proof.
  intros Hbuild.
  apply build_food_data_ok in Hbuild
    as (nutriments & e & _ & Hname & Hbrand & Hcat & Hcal & Hpro & Hfat & Hcarb
        & Hfib & Hsug & Hsod & Hall & ->).
  exists e. split; [reflexivity|].
  assert (Hnumber : forall key result,
             nutrient nutriments key round2 = Ok result ->
             result = PNone \/ (exists z, result = PInt z)
             \/ (exists bits, result = PFloat bits)).
  { intros key result H.
    destruct (nutrient_result _ _ _ H) as [->|[value Hvalue]]; [now left|].
    right. exact (round2_is_number _ Hvalue). }
  split; [|split; [|split; [|split; [|split]]]].
  - unfold name_of in Hname.
    destruct (get product "product_name" _) as [raw|]; [|discriminate].
    cbn [obind] in Hname. destruct (Py.strip raw); [|discriminate].
    cbn [obind] in Hname. injection Hname as <-. eauto.
  - unfold brand_of in Hbrand.
    destruct (get product "brands" _) as [raw|]; [|discriminate].
    cbn [obind] in Hbrand. destruct (Py.strip raw) as [stripped|]; [|discriminate].
    cbn [obind] in Hbrand. injection Hbrand as <-.
    destruct stripped; eauto.
  - unfold category_of in Hcat.
    destruct (get product "categories" PNone) as [present|]; [|discriminate].
    cbn [obind] in Hcat. destruct (truthy present).
    + destruct (get product "categories" _) as [raw|]; [|discriminate].
      cbn [obind] in Hcat. destruct (split_comma raw); [|discriminate].
      cbn [obind] in Hcat. injection Hcat as <-. eauto.
    + injection Hcat as <-. now left.
  - destruct (nutrient_result _ _ _ Hcal) as [->|[value Hvalue]]; [now left|].
    right. exact (round_is_int _ Hvalue).
  - repeat (apply Forall_cons; [eapply Hnumber; eassumption|]). apply Forall_nil.
  - unfold allergens_of in Hall.
    destruct (get product "allergens" PNone) as [present|]; [|discriminate].
    cbn [obind] in Hall. destruct (truthy present).
    + destruct (get product "allergens" _) as [raw|]; [|discriminate].
      cbn [obind] in Hall. destruct (split_comma raw) as [parts|]; [|discriminate].
      cbn [obind] in Hall. injection Hall as <-. eauto.
    + injection Hall as <-. now exists [].
Qed.

(** The instance made from a record of the endpoint: no key is given,
    and every column holds a native value once the values fit. *)
Lemma record_instance (barcode : pystr) (product : pyval) (food_data : dict) :
  barcode <> [] ->
  build_food_data barcode product = Ok food_data ->
  Forall (fun kv => Sql.fits (snd kv) = true) food_data ->
  exists food,
    Food.init food_data = Ok (PNone, food)
    /\ Food.native (Food.default_quantity food) = true
    /\ Food.barcode food = Food.kw food_data "barcode"
    /\ Food.name food = Food.kw food_data "name"
    /\ Food.quantity food = PInt 1.
Proof.
  intros Hne Hbuild Hfits.
  destruct (@record_shape barcode product food_data Hne Hbuild)
    as (Hbarcode & Hquantity & _ & Hkeys).
  destruct (entry_kinds _ _ Hbuild)
    as (e & Hdata & Hname & Hbrand & Hcat & Hcal & Hnumbers & Hall).
  inversion Hnumbers as [|? ? Hpro Hn1]; subst.
  inversion Hn1 as [|? ? Hfat Hn2]; subst.
  inversion Hn2 as [|? ? Hcarb Hn3]; subst.
  inversion Hn3 as [|? ? Hfib Hn4]; subst.
  inversion Hn4 as [|? ? Hsug Hn5]; subst.
  inversion Hn5 as [|? ? Hsod _]; subst.
  clear Hnumbers Hn1 Hn2 Hn3 Hn4 Hn5.
  unfold Food.init. rewrite (@set_attributes_columns _ Hkeys). cbn [obind].
  assert (Hkw : forall k entry,
             dict_get (lit k) (remove_none (unfiltered barcode e))
             = (if is_provided entry then Some entry else None) ->
             Food.kw (remove_none (unfiltered barcode e)) k
             = if is_provided entry then entry else PNone).
  { intros k entry H. unfold Food.kw. rewrite H. now destruct (is_provided entry). }
  assert (Hid : Food.kw (remove_none (unfiltered barcode e)) "id" = PNone).
  { unfold Food.kw. lookup_row. reflexivity. }
  rewrite Hid. eexists. split; [reflexivity|].
  assert (Hq : Food.kw (remove_none (unfiltered barcode e)) "quantity" = PInt 1).
  { unfold Food.kw. now rewrite Hquantity. }
  split; [|now repeat split].
  unfold Food.native.
  cbn [Food.default_quantity Food.barcode Food.name Food.brand Food.category
       Food.calories Food.protein Food.fat Food.carbs Food.fiber Food.sugars
       Food.sodium Food.allergens Food.expiry_date Food.quantity Food.location
       Food.barcode_image_url Food.barcode_image_data Food.created_at].
  rewrite Hq.
  assert (Hkind : forall entry (P : pyval -> Prop),
             P PNone -> P entry -> P (if is_provided entry then entry else PNone)).
  { intros entry P H0 H1. now destruct (is_provided entry). }
  repeat (apply andb_true_iff; split).
  - apply native_text; [|now apply kw_fits].
    unfold Food.kw. rewrite Hbarcode. eauto.
  - apply native_text; [|now apply kw_fits].
    rewrite (Hkw "name"%string (e_name e)) by (lookup_row; reflexivity).
    apply Hkind; [now left|now right].
  - apply native_text; [|now apply kw_fits].
    rewrite (Hkw "brand"%string (e_brand e)) by (lookup_row; reflexivity).
    apply Hkind; [now left|assumption].
  - apply native_text; [|now apply kw_fits].
    rewrite (Hkw "category"%string (e_category e)) by (lookup_row; reflexivity).
    apply Hkind; [now left|assumption].
  - apply native_integer; [|now apply kw_fits].
    rewrite (Hkw "calories"%string (e_calories e)) by (lookup_row; reflexivity).
    apply Hkind; [now left|assumption].
  - apply native_number; [|now apply kw_fits].
    rewrite (Hkw "protein"%string (e_protein e)) by (lookup_row; reflexivity).
    apply Hkind; [now left|assumption].
  - apply native_number; [|now apply kw_fits].
    rewrite (Hkw "fat"%string (e_fat e)) by (lookup_row; reflexivity).
    apply Hkind; [now left|assumption].
  - apply native_number; [|now apply kw_fits].
    rewrite (Hkw "carbs"%string (e_carbs e)) by (lookup_row; reflexivity).
    apply Hkind; [now left|assumption].
  - apply native_number; [|now apply kw_fits].
    rewrite (Hkw "fiber"%string (e_fiber e)) by (lookup_row; reflexivity).
    apply Hkind; [now left|assumption].
  - apply native_number; [|now apply kw_fits].
    rewrite (Hkw "sugars"%string (e_sugars e)) by (lookup_row; reflexivity).
    apply Hkind; [now left|assumption].
  - apply native_number; [|now apply kw_fits].
    rewrite (Hkw "sodium"%string (e_sodium e)) by (lookup_row; reflexivity).
    apply Hkind; [now left|assumption].
  - apply native_texts.
    rewrite (Hkw "allergens"%string (e_allergens e)) by (lookup_row; reflexivity).
    apply Hkind; [now left|now right].
  - unfold Food.kw. lookup_row. reflexivity.
  - reflexivity.
  - reflexivity.
  - unfold Food.kw. lookup_row. reflexivity.
  - unfold Food.kw. lookup_row. reflexivity.
  - unfold Food.kw. lookup_row. reflexivity.
  - unfold Food.kw. lookup_row. reflexivity.
Qed.

(** A record of the endpoint that has a name, whose integers fit 64
    bits and whose texts have no surrogate, is accepted whenever the
    key made for it is not taken: the new row gets that key, which no
    row had, carries the record's barcode and name and the quantity 1,
    and is the only change to the database. *)
Theorem create_food_of_record
    (barcode : pystr) (product : pyval) (food_data : dict) (name : pyval)
    (w : world) :
  barcode <> [] ->
  build_food_data barcode product = Ok food_data ->
  dict_get (lit "name") food_data = Some name ->
  Forall (fun kv => Sql.fits (snd kv) = true) food_data ->
  ~ In (uuid4 (clock w)) (map Food.id (foods (db w))) ->
  exists row w',
    create_food food_data w = (Ok row, w')
    /\ Food.id row = uuid4 (clock w)
    /\ Food.barcode row = PStr barcode
    /\ Food.name row = name
    /\ Food.quantity row = PInt 1
    /\ foods (db w') = foods (db w) ++ [row]
    /\ nutrition_logs (db w') = nutrition_logs (db w).
Proof.
  intros Hne Hbuild Hname Hfits Hfresh.
  destruct (@record_shape barcode product food_data Hne Hbuild)
    as (Hbarcode & _ & Hprovided & _).
  assert (Hnn : name <> PNone).
  { intros ->. apply dict_get_in in Hname.
    rewrite Forall_forall in Hprovided. specialize (Hprovided _ Hname).
    discriminate. }
  destruct (@record_instance barcode product food_data Hne Hbuild Hfits)
    as (food & Hinit & Hnative & Hb & Hn & Hq).
  unfold Food.kw in Hb, Hn. rewrite Hbarcode in Hb. rewrite Hname in Hn.
  destruct (native_row_passes _ Hnative)
    as (processed & stored & Hprocess & Hstore & Hsb & Hsn & Hsq & _).
  cbn [Food.default_quantity Food.barcode Food.name Food.quantity] in Hsb, Hsn, Hsq.
  rewrite Hb in Hsb. rewrite Hn in Hsn. rewrite Hq in Hsq.
  unfold create_food, try_except, bind, lift, rollback, ret, raise.
  rewrite Hinit. cbn [fst snd].
  unfold commit_food, bind, tick, lift, get_db, put_db, ret, raise.
  cbn [clock db calls]. rewrite Hprocess, Hstore.
  unfold Food.not_null_violation.
  cbn [Food.server_defaults Food.barcode Food.name]. rewrite Hsb, Hsn.
  destruct name; try contradiction;
    (cbv beta iota; cbn [clock db calls]; rewrite (@has_id_false _ _ Hfresh);
     eexists; eexists; split; [reflexivity|];
     cbn [db foods nutrition_logs Food.server_defaults Food.id Food.barcode
          Food.name Food.quantity];
     repeat split; assumption).
Qed.

(** Insert, then look up: after [create_food] the barcode of the new
    row is found, and if no row had that barcode before, the row found
    is the new one. *)
Theorem created_row_is_found
    (food_data : dict) (w w' : world) (row : Food.t) (code : pystr) :
  create_food food_data w = (Ok row, w') ->
  Food.barcode row = PStr code ->
  (exists found,
      get_food_by_barcode code w' = (Ok (Some found), w')
      /\ Food.barcode found = PStr code)
  /\ (find (Food.has_barcode code) (foods (db w)) = None ->
      get_food_by_barcode code w' = (Ok (Some row), w')).
Proof.
  intros Hrun Hcode.
  assert (Hfoods : foods (db w') = foods (db w) ++ [row]).
  { destruct (create_food_cases food_data w)
      as [(row' & Hrun' & _)|(e & w'' & Hrun' & _)];
      rewrite Hrun in Hrun'; [|discriminate].
    injection Hrun' as -> ->. reflexivity. }
  assert (Hrow : Food.has_barcode code row = true).
  { unfold Food.has_barcode. rewrite Hcode. apply pystr_eqb_refl. }
  unfold get_food_by_barcode, query_first, bind, get_db, ret.
  rewrite Hfoods, find_app. cbn [find]. rewrite Hrow.
  split.
  - destruct (find (Food.has_barcode code) (foods (db w))) as [found|] eqn:Hfind.
    + exists found. split; [reflexivity|].
      apply find_some in Hfind as [_ Hfound].
      unfold Food.has_barcode in Hfound.
      destruct (Food.barcode found); try discriminate.
      apply pystr_eqb_eq in Hfound. now subst.
    + exists row. now split.
  - intros Hnone. now rewrite Hnone.
Qed.

(** By itself [update_quantity] only logs: where no trigger acts on the
    table, a successful update leaves every row as it was, and the row
    it returns is the stored one, its quantity unchanged. *)
Theorem update_quantity_keeps_stock
    (food_id : pystr) (quantity_change : Z) (action : pystr)
    (w w' : world) (food : Food.t) :
  (forall entry rows, triggers entry rows = rows) ->
  update_quantity food_id quantity_change action w = (Ok (Some food), w') ->
  foods (db w') = foods (db w)
  /\ find (Food.has_id food_id) (foods (db w)) = Some food.
Proof.
  intros Htrig.
  unfold update_quantity, try_except, bind, query_first, bind, get_db, ret.
  destruct (find (Food.has_id food_id) (foods (db w))) as [found|] eqn:Hfind;
    [|discriminate].
  pose proof (find_has_id _ _ Hfind) as Hid.
  rewrite commit_log_run. cbv zeta. unfold rollback, ret, raise.
  destruct (negb (Sql.encodable food_id)); [discriminate|].
  destruct (negb (Sql.int64 (Z.abs quantity_change))); [discriminate|].
  destruct (negb (Sql.encodable action)); [discriminate|].
  match goal with
  | |- context [NutritionLog.check_valid_action ?row] =>
      destruct (negb (NutritionLog.check_valid_action row))
  end; [discriminate|].
  destruct (existsb _ _); [discriminate|].
  unfold refresh, bind, query_first, bind, get_db, ret, raise.
  cbv beta iota zeta. cbn [db foods]. rewrite Htrig, Hid, Hfind.
  intros H. injection H as <- <-. cbn [db foods]. now split.
Qed.

(** An update with an action outside the CHECK constraint fails and
    nothing is logged. SQLite binds the parameters before it tests the
    constraint, so the exception is the integrity error of the
    constraint only when the key, the absolute value of the change and
    the action can be bound; otherwise it is the error of the first of
    them that cannot. *)
Theorem update_quantity_rejects_action
    (food_id : pystr) (quantity_change : Z) (action : pystr)
    (w : world) (food : Food.t) :
  find (Food.has_id food_id) (foods (db w)) = Some food ->
  ~ In action NutritionLog.valid_actions ->
  exists e w',
    update_quantity food_id quantity_change action w = (Raise e, w')
    /\ db w' = db w
    /\ exn_cls e =
       if negb (Sql.encodable food_id) then UnicodeEncodeError
       else if negb (Sql.int64 (Z.abs quantity_change)) then OverflowError
       else if negb (Sql.encodable action) then UnicodeEncodeError
       else IntegrityError.
Proof.
  intros Hfind Haction.
  unfold update_quantity, try_except, bind, query_first, bind, get_db, ret.
  rewrite Hfind, commit_log_run. cbv zeta. unfold rollback, ret, raise.
  destruct (negb (Sql.encodable food_id)); [eexists; eexists; repeat split|].
  destruct (negb (Sql.int64 (Z.abs quantity_change)));
    [eexists; eexists; repeat split|].
  destruct (negb (Sql.encodable action)); [eexists; eexists; repeat split|].
  match goal with
  | |- context [NutritionLog.check_valid_action ?row] =>
      destruct (NutritionLog.check_valid_action row) eqn:Hcheck
  end.
  - exfalso. apply Haction. now apply check_valid_action_iff in Hcheck.
  - cbn [negb]. eexists. eexists. repeat split.
Qed.

End Rows.

(** ** Deleting rows and reading the stock *)

Section Deletion.

Context {E : Externals}.

Import Crud.

Lemma filter_filter {A} (p q : A -> bool) (l : list A) :
  filter p (filter q l) = filter (fun a => q a && p a) l.
Proof.
  induction l as [|a l IH]; simpl; [reflexivity|].
  destruct (q a); simpl; [destruct (p a)|]; now rewrite IH.
Qed.

Lemma find_filter_none {A} (p : A -> bool) (l : list A) :
  find p (filter (fun a => negb (p a)) l) = None.
Proof.
  induction l as [|a l IH]; simpl; [reflexivity|].
  destruct (p a) eqn:Hp; simpl; [assumption|]. now rewrite Hp.
Qed.

(** Deleting a row by its key: afterwards the key is not found, the
    log holds no entry for it, and every other row and every other
    entry is still there. *)
Theorem delete_food_removes (food_id : pystr) (w : world) (food : Food.t) :
  find (Food.has_id food_id) (foods (db w)) = Some food ->
  exists w',
    delete_food food_id w = (Ok true, w')
    /\ get_food_by_id food_id w' = (Ok None, w')
    /\ (forall row,
          In row (foods (db w')) <->
          In row (foods (db w)) /\ Food.id row <> food_id)
    /\ (forall entry,
          In entry (nutrition_logs (db w')) <->
          In entry (nutrition_logs (db w))
          /\ NutritionLog.food_id entry <> food_id).
Proof.
  intros Hfind. pose proof (find_has_id _ _ Hfind) as Hid.
  unfold delete_food, try_except, bind, query_first, bind, get_db, ret.
  rewrite Hfind.
  unfold delete, bind, get_db, put_db, ret. cbn [db foods nutrition_logs].
  rewrite Hid.
  eexists. split; [reflexivity|].
  unfold get_food_by_id, query_first, bind, get_db, ret. cbn [db foods nutrition_logs].
  split; [now rewrite find_filter_none|].
  split.
  - intros row. rewrite filter_In. unfold Food.has_id.
    split; intros [Hin Hrow]; (split; [assumption|]).
    + intros Heq. rewrite Heq, pystr_eqb_refl in Hrow. discriminate.
    + destruct (PyStr.eqb (Food.id row) food_id) eqn:Heq; [|reflexivity].
      apply pystr_eqb_eq in Heq. contradiction.
  - intros entry. rewrite filter_In.
    split; intros [Hin Hentry]; (split; [assumption|]).
    + intros Heq. rewrite Heq, pystr_eqb_refl in Hentry. discriminate.
    + destruct (PyStr.eqb (NutritionLog.food_id entry) food_id) eqn:Heq;
        [|reflexivity].
      apply pystr_eqb_eq in Heq. contradiction.
Qed.

(** An unknown key deletes nothing. *)
Lemma delete_food_missing (food_id : pystr) (w : world) :
  find (Food.has_id food_id) (foods (db w)) = None ->
  delete_food food_id w = (Ok false, w).
Proof.
  intros Hfind.
  unfold delete_food, try_except, bind, query_first, bind, get_db, ret.
  now rewrite Hfind.
Qed.

(** The loop of deletions removes the rows whose key is the key of a
    row to delete, and the log entries that refer to such a key. *)
Lemma delete_each_run (doomed : list Food.t) (w : world) :
  delete_each doomed w =
  (Ok tt,
   {| db :=
        {| foods :=
             filter (fun row =>
                       negb (existsb (fun d => Food.has_id (Food.id d) row) doomed))
                    (foods (db w));
           nutrition_logs :=
             filter (fun entry =>
                       negb (existsb
                               (fun d => PyStr.eqb (NutritionLog.food_id entry)
                                                   (Food.id d))
                               doomed))
                    (nutrition_logs (db w)) |};
      clock := clock w;
      calls := calls w |}).
Proof.
  revert w. induction doomed as [|d doomed IH]; intros w.
  - simpl. unfold ret. destruct w as [[fs ls] c cs]. simpl.
    f_equal. f_equal. f_equal.
    + induction fs as [|f fs IHf]; simpl; [reflexivity|]. now rewrite <- IHf.
    + induction ls as [|l ls IHl]; simpl; [reflexivity|]. now rewrite <- IHl.
  - cbn [delete_each]. unfold bind at 1.
    unfold delete at 1, bind, get_db, put_db, ret.
    rewrite IH. cbn [db foods nutrition_logs clock calls].
    rewrite !filter_filter.
    f_equal. f_equal. f_equal.
    + apply filter_ext. intros row. cbn [existsb].
      now rewrite negb_orb.
    + apply filter_ext. intros entry. cbn [existsb].
      now rewrite negb_orb.
Qed.

Lemma same_key_same_row (rows : list Food.t) (a b : Food.t) :
  NoDup (map Food.id rows) ->
  In a rows -> In b rows -> Food.id a = Food.id b -> a = b.
Proof.
  induction rows as [|r rows IH]; simpl; [contradiction|].
  intros Hnd Ha Hb Hid. inversion Hnd as [|? ? Hnotin Hnd']; subst.
  destruct Ha as [<-|Ha], Hb as [<-|Hb]; auto.
  - exfalso. apply Hnotin. rewrite Hid. now apply in_map.
  - exfalso. apply Hnotin. rewrite <- Hid. now apply in_map.
Qed.

(** Deleting by barcode, on a table whose keys are unique: exactly the
    rows with that barcode go, in one step, with the log entries of
    those rows; afterwards the barcode is not found. *)
Theorem delete_food_by_barcode_removes
    (barcode : pystr) (w : world) (food : Food.t) :
  NoDup (map Food.id (foods (db w))) ->
  find (Food.has_barcode barcode) (foods (db w)) = Some food ->
  exists w',
    delete_food_by_barcode barcode w = (Ok true, w')
    /\ foods (db w')
       = filter (fun row => negb (Food.has_barcode barcode row)) (foods (db w))
    /\ get_food_by_barcode barcode w' = (Ok None, w')
    /\ (forall entry,
          In entry (nutrition_logs (db w')) <->
          In entry (nutrition_logs (db w))
          /\ ~ exists row,
                 In row (foods (db w))
                 /\ Food.has_barcode barcode row = true
                 /\ Food.id row = NutritionLog.food_id entry).
Proof.
  intros Hnd Hfind.
  unfold delete_food_by_barcode, try_except, bind, query_all, bind, get_db, ret.
  destruct (filter (Food.has_barcode barcode) (foods (db w)))
    as [|d doomed] eqn:Hdoomed.
  { exfalso. apply find_some in Hfind as [Hin Hb].
    assert (Hx : In food (filter (Food.has_barcode barcode) (foods (db w))))
      by (apply filter_In; auto).
    now rewrite Hdoomed in Hx. }
  rewrite delete_each_run. rewrite <- Hdoomed.
  eexists. split; [reflexivity|].
  cbn [db foods nutrition_logs].
  assert (Hfoods :
            filter (fun row =>
                      negb (existsb (fun d0 => Food.has_id (Food.id d0) row)
                              (filter (Food.has_barcode barcode) (foods (db w)))))
                   (foods (db w))
            = filter (fun row => negb (Food.has_barcode barcode row)) (foods (db w))).
  { apply filter_ext_in. intros row Hrow. f_equal.
    destruct (Food.has_barcode barcode row) eqn:Hb.
    - apply existsb_exists. exists row. split; [apply filter_In; auto|].
      apply pystr_eqb_refl.
    - destruct (existsb _ _) eqn:Hex; [|reflexivity].
      apply existsb_exists in Hex as (d0 & Hd0 & Hsame).
      apply filter_In in Hd0 as [Hd0 Hb0].
      apply pystr_eqb_eq in Hsame.
      rewrite (@same_key_same_row (foods (db w)) row d0 Hnd Hrow Hd0 Hsame) in Hb.
      congruence. }
  split; [exact Hfoods|].
  split.
  - unfold get_food_by_barcode, query_first, bind, get_db, ret.
    cbn [db foods]. rewrite Hfoods. now rewrite find_filter_none.
  - intros entry. rewrite filter_In. split.
    + intros [Hin Hkeep]. split; [assumption|].
      intros (row & Hrow & Hb & Hid).
      apply negb_true_iff in Hkeep.
      assert (Hex : existsb
                      (fun d0 => PyStr.eqb (NutritionLog.food_id entry) (Food.id d0))
                      (filter (Food.has_barcode barcode) (foods (db w))) = true).
      { apply existsb_exists. exists row. split; [apply filter_In; auto|].
        rewrite Hid. apply pystr_eqb_refl. }
      congruence.
    + intros [Hin Hnone]. split; [assumption|].
      apply negb_true_iff.
      destruct (existsb _ _) eqn:Hex; [|reflexivity].
      exfalso. apply Hnone.
      apply existsb_exists in Hex as (row & Hrow & Hsame).
      apply filter_In in Hrow as [Hrow Hb].
      apply pystr_eqb_eq in Hsame. exists row. auto.
Qed.

(** *** The low-stock report *)

Lemma insert_by_stock_perm (food : Food.t) (rows : list Food.t) :
  Permutation (insert_by_stock food rows) (food :: rows).
Proof.
  induction rows as [|row rows IH]; simpl; [reflexivity|].
  destruct (stock_leb food row); [reflexivity|].
  rewrite IH. apply perm_swap.
Qed.

Lemma order_by_stock_perm (rows : list Food.t) :
  Permutation (order_by_stock rows) rows.
Proof.
  induction rows as [|row rows IH]; simpl; [reflexivity|].
  rewrite insert_by_stock_perm. now constructor.
Qed.

Lemma leb_false_le (x y : QArith_base.Q) :
  Sql.leb x y = false -> QArith_base.Qle y x.
Proof.
  intros H. destruct (QArith_base.Qlt_le_dec y x) as [Hlt|Hle].
  - now apply QArith_base.Qlt_le_weak.
  - apply QArith_base.Qle_bool_iff in Hle. unfold Sql.leb in H. congruence.
Qed.

Lemma insert_by_stock_sorted (food : Food.t) (rows : list Food.t) :
  stock food <> None ->
  Forall (fun row => stock row <> None) rows ->
  StronglySorted stock_le rows ->
  StronglySorted stock_le (insert_by_stock food rows).
Proof.
  intros Hfood Hrows Hsorted.
  induction Hsorted as [|row rows Hsorted IH Hall]; simpl.
  - repeat constructor.
  - inversion Hrows as [|? ? Hrow Hrows']; subst.
    destruct (stock food) as [x|] eqn:Hx; [|contradiction].
    destruct (stock row) as [y|] eqn:Hy; [|contradiction].
    unfold stock_leb. rewrite Hx, Hy.
    destruct (Sql.leb x y) eqn:Hxy.
    + apply QArith_base.Qle_bool_iff in Hxy.
      constructor; [now constructor|].
      constructor; [exists x, y; auto|].
      eapply Forall_impl; [|exact Hall].
      intros r (y' & z & Hy' & Hz & Hle). exists x, z.
      rewrite Hy in Hy'. injection Hy' as <-. repeat split; auto.
      now apply QArith_base.Qle_trans with (y := y).
    + apply leb_false_le in Hxy.
      constructor; [now apply IH|].
      apply Forall_forall. intros r Hr.
      apply (Permutation_in _ (insert_by_stock_perm food rows)) in Hr.
      destruct Hr as [<-|Hr].
      * exists y, x. repeat split; auto.
      * rewrite Forall_forall in Hall. now apply Hall.
Qed.

Lemma order_by_stock_sorted (rows : list Food.t) :
  Forall (fun row => stock row <> None) rows ->
  StronglySorted stock_le (order_by_stock rows).
Proof.
  induction 1 as [|row rows Hrow Hrows IH]; simpl; [constructor|].
  apply insert_by_stock_sorted; auto.
  apply Forall_forall. intros r Hr.
  apply (Permutation_in _ (order_by_stock_perm rows)) in Hr.
  rewrite Forall_forall in Hrows. now apply Hrows.
Qed.

(** The low-stock report. A threshold of 64 bits is bound, and then the
    report reads without writing: it lists exactly the rows whose
    quantity is a number between 0 and the threshold, an integer or
    not, each as often as the table holds it, in ascending order of
    quantity; a row whose quantity is NULL, a text or a BLOB is never
    listed. A threshold beyond 64 bits cannot be bound: the query
    raises [OverflowError]. *)
Theorem get_low_stock_foods_report (threshold : Z) (w : world) :
  (Sql.int64 threshold = true ->
   exists report,
     get_low_stock_foods threshold w = (Ok report, w)
     /\ Permutation report (filter (low_stock threshold) (foods (db w)))
     /\ (forall row,
           In row report <->
           In row (foods (db w))
           /\ exists q, stock row = Some q /\ in_stock_range threshold q)
     /\ StronglySorted stock_le report)
  /\ (Sql.int64 threshold = false ->
      exists e,
        get_low_stock_foods threshold w = (Raise e, w)
        /\ exn_cls e = OverflowError).
Proof.
  unfold get_low_stock_foods, bind, lift, get_db, ret, Sql.bind.
  split; intros Hbound; rewrite Hbound; [|eexists; split; reflexivity].
  eexists. split; [reflexivity|].
  assert (Hlow : forall row,
             low_stock threshold row = true <->
             exists q, stock row = Some q /\ in_stock_range threshold q).
  { intros row. unfold low_stock, in_stock_range, Sql.leb.
    destruct (stock row) as [q|].
    - rewrite andb_true_iff, !QArith_base.Qle_bool_iff. split.
      + intros [H1 H2]. exists q. now repeat split.
      + intros (q' & Hq & H1 & H2). injection Hq as <-. now split.
    - split; [discriminate|]. intros (q & Hq & _). discriminate. }
  split; [apply order_by_stock_perm|].
  split.
  - intros row. rewrite <- Hlow, <- filter_In.
    split; intros H.
    + now apply (Permutation_in _ (order_by_stock_perm _)).
    + now apply (Permutation_in _ (Permutation_sym (order_by_stock_perm _))).
  - apply order_by_stock_sorted. apply Forall_forall. intros row Hrow.
    apply filter_In in Hrow as [_ Hrow]. apply Hlow in Hrow as (q & Hq & _).
    congruence.
Qed.

End Deletion.

(** ** More on the endpoint *)

Section Responses.

Context {E : Externals}.

Import Crud.

Lemma keeps_db_ret {A} (a : A) : keeps_db (ret a).
Proof. intros w. reflexivity. Qed.

Lemma keeps_db_raise {A} (e : exn) : keeps_db (raise (A := A) e).
Proof. intros w. reflexivity. Qed.

Lemma keeps_db_lift {A} (o : outcome A) : keeps_db (lift o).
Proof. intros w. reflexivity. Qed.

Lemma keeps_db_called {A} (c : call) (o : outcome A) : keeps_db (called c o).
Proof. intros w. reflexivity. Qed.

Lemma keeps_db_tick : keeps_db tick.
Proof. intros w. reflexivity. Qed.

Lemma keeps_db_bind {A B} (m : M A) (k : A -> M B) :
  keeps_db m -> (forall a, keeps_db (k a)) -> keeps_db (bind m k).
Proof.
  intros Hm Hk w. unfold bind. specialize (Hm w).
  destruct (m w) as [[a|e] w']; simpl in *; [|assumption].
  now rewrite Hk.
Qed.

Lemma keeps_db_try_except {A} (m : M A) (h : exn -> M A) :
  keeps_db m -> (forall e, keeps_db (h e)) -> keeps_db (try_except m h).
Proof.
  intros Hm Hh w. unfold try_except. specialize (Hm w).
  destruct (m w) as [[a|e] w']; simpl in *; [assumption|].
  now rewrite Hh.
Qed.

Lemma keeps_db_detect (image_data image_format : pystr) :
  keeps_db (detect_barcodes_with_preprocessing image_data image_format).
Proof. intros w. apply detect_untouched. Qed.

Lemma keeps_db_fetch (barcode : pystr) : keeps_db (fetch barcode).
Proof.
  unfold fetch, http_get.
  apply keeps_db_try_except; [|intros e; apply keeps_db_ret].
  apply keeps_db_bind.
  - apply keeps_db_bind; [apply keeps_db_tick|intros n; apply keeps_db_called].
  - intros r. destruct (negb (Z.eqb (status_code r) 200)); [apply keeps_db_ret|].
    apply keeps_db_bind; [apply keeps_db_lift|]. intros body.
    apply keeps_db_bind; [apply keeps_db_lift|]. intros status.
    destruct (eq_zero status); apply keeps_db_ret.
Qed.

Lemma keeps_db_boundary {A} (e : exn) : keeps_db (boundary (A := A) e).
Proof. unfold boundary. destruct (exn_cls e); apply keeps_db_raise. Qed.

(** Only [scan_and_save] writes: a request with any other action
    leaves the database as it was, whatever the image, the catalog and
    the libraries do, and whether it ends with a response or an
    exception. *)
Theorem only_scan_and_save_writes
    (request : BarcodeImageUploadRequest) (w : world) :
  action request <> lit "scan_and_save" ->
  db (snd (upload_barcode_image request w)) = db w.
Proof.
  intros Haction.
  assert (Heqb : PyStr.eqb (action request) (lit "scan_and_save") = false).
  { destruct (PyStr.eqb _ _) eqn:Heq; [|reflexivity].
    apply pystr_eqb_eq in Heq. contradiction. }
  revert w. change (keeps_db (upload_barcode_image request)).
  unfold upload_barcode_image.
  apply keeps_db_try_except; [|intros e; apply keeps_db_boundary].
  destruct (negb _); [apply keeps_db_raise|].
  apply keeps_db_bind; [apply keeps_db_detect|].
  intros [|barcode others]; [apply keeps_db_ret|].
  destruct (negb _); [apply keeps_db_ret|].
  unfold resolve. apply keeps_db_bind; [apply keeps_db_fetch|].
  intros [early|r]; [apply keeps_db_ret|].
  apply keeps_db_bind; [apply keeps_db_lift|]. intros body.
  apply keeps_db_bind; [apply keeps_db_lift|]. intros product.
  apply keeps_db_bind; [apply keeps_db_lift|]. intros food_data.
  rewrite Heqb. apply keeps_db_ret.
Qed.

(** Nothing but an [HTTPException] leaves the endpoint. *)
Theorem upload_raises_http_only
    (request : BarcodeImageUploadRequest) (w w' : world) (e : exn) :
  upload_barcode_image request w = (Raise e, w') ->
  exists status, exn_cls e = HTTPException status.
Proof.
  unfold upload_barcode_image, try_except.
  match goal with
  | |- context [match ?m w with _ => _ end] => destruct (m w) as [[r|e0] w0]
  end; [discriminate|].
  unfold boundary, raise.
  destruct (exn_cls e0) eqn:Hcls; intros H; injection H as <- _;
    cbn [exn_cls]; eauto.
Qed.

(** The three early exits: an unknown action is refused with a 400
    before anything is done; an image without a symbol gives NotFound;
    a first text of the wrong format gives InvalidFormat, whatever
    other texts were detected. In none of them is the catalog asked:
    the world is as the pipeline left it. *)
Theorem early_exits (request : BarcodeImageUploadRequest) (w : world) :
  (existsb (PyStr.eqb (action request)) valid_actions = false ->
   upload_barcode_image request w
   = (Raise (mk_exn (HTTPException 400)
               (lit "Action must be 'scan' or 'scan_and_save'")), w))
  /\ (forall w1,
        existsb (PyStr.eqb (action request)) valid_actions = true ->
        detect_barcodes_with_preprocessing (imageData request)
          (imageFormat request) w = (Ok [], w1) ->
        upload_barcode_image request w = (Ok NotFound, w1))
  /\ (forall w1 first others,
        existsb (PyStr.eqb (action request)) valid_actions = true ->
        detect_barcodes_with_preprocessing (imageData request)
          (imageFormat request) w = (Ok (first :: others), w1) ->
        validate_barcode_format first = false ->
        upload_barcode_image request w = (Ok InvalidFormat, w1)).
Proof.
  repeat split.
  - intros Ha. unfold upload_barcode_image, try_except.
    now rewrite Ha.
  - intros w1 Ha Hd. unfold upload_barcode_image, try_except, bind.
    rewrite Ha. cbn [negb]. now rewrite Hd.
  - intros w1 first others Ha Hd Hv.
    unfold upload_barcode_image, try_except, bind.
    rewrite Ha. cbn [negb]. now rewrite Hd, Hv.
Qed.

(** The lookup's [try] never raises, and when it ends the request it
    is with BarcodeOnly or with the failure response. *)
Lemma fetch_outcomes (barcode : pystr) (w : world) :
  exists answer w',
    fetch barcode w = (Ok answer, w')
    /\ match answer with
       | inl early => early = BarcodeOnly barcode \/ exists e, early = FetchFailed e
       | inr _ => True
       end.
Proof.
  unfold fetch, try_except.
  match goal with
  | |- context [match ?m w with _ => _ end] => destruct (m w) as [[answer|e] w0] eqn:Hrun
  end.
  - exists answer, w0. split; [reflexivity|].
    destruct answer as [early|r]; [|exact I].
    revert Hrun. unfold bind, http_get, bind, tick, called, lift, ret.
    destruct (requests_get _ _ _) as [r|e]; [|discriminate].
    destruct (negb (Z.eqb (status_code r) 200)).
    + intros H. injection H as <- _. now left.
    + destruct (json r) as [body|e]; [|discriminate].
      destruct (get body "status" PNone) as [status|e]; [|discriminate].
      destruct (eq_zero status); intros H; [|discriminate].
      injection H as <- _. now left.
  - exists (inl (FetchFailed e)), w0. split; [reflexivity|]. right. eauto.
Qed.

(** The save step never raises and ends with one of three responses. *)
Lemma save_outcomes (barcode : pystr) (food_data : dict) (w : world) :
  exists r w',
    save barcode food_data w = (Ok r, w')
    /\ ((exists stored, r = AlreadyExists barcode stored)
        \/ (exists created, r = Saved barcode created)
        \/ r = SavedFailed barcode food_data).
Proof.
  unfold save, try_except.
  match goal with
  | |- context [match ?m w with _ => _ end] => destruct (m w) as [[r|e] w0] eqn:Hrun
  end.
  - exists r, w0. split; [reflexivity|].
    revert Hrun. unfold bind, get_food_by_barcode, query_first, bind, get_db, ret, lift.
    destruct (find _ _) as [existing|].
    + destruct (Food.to_dict existing) as [stored|e]; [|discriminate].
      intros H. injection H as <- _. left. eauto.
    + destruct (create_food food_data w) as [[row|e] w1]; [|discriminate].
      destruct (Food.to_dict row) as [created|e]; [|discriminate].
      intros H. injection H as <- _. right. left. eauto.
  - exists (SavedFailed barcode food_data), w0. split; [reflexivity|]. now right; right.
Qed.

(** A response carries a barcode exactly when it reports success; the
    barcode is then the first text the pipeline detected and has the
    right format. A response that reports failure carries an error text
    and no product data. *)
Theorem response_invariant
    (request : BarcodeImageUploadRequest) (w w' : world)
    (r : BarcodeImageUploadResponse) :
  upload_barcode_image request w = (Ok r, w') ->
  match barcode r with
  | Some code =>
      success r = true
      /\ error r = None
      /\ validate_barcode_format code = true
      /\ exists others w1,
           detect_barcodes_with_preprocessing (imageData request)
             (imageFormat request) w = (Ok (code :: others), w1)
  | None =>
      success r = false
      /\ product_data r = None
      /\ error r <> None
  end.
Proof.
  unfold upload_barcode_image, try_except.
  match goal with
  | |- context [match ?m w with _ => _ end] => destruct (m w) as [[r0|e] w0] eqn:Hrun
  end; [|unfold boundary, raise; destruct (exn_cls e); discriminate].
  intros H. injection H as -> ->.
  revert Hrun.
  destruct (negb _); [discriminate|].
  unfold bind at 1.
  destruct (detect_barcodes_with_preprocessing _ _ w)
    as [[[|code others]|e] w1] eqn:Hdetect; [| |discriminate].
  { unfold ret. intros H. injection H as <- _. cbn. repeat split. discriminate. }
  destruct (validate_barcode_format code) eqn:Hvalid; cbn [negb];
    [|unfold ret; intros H; injection H as <- _; cbn; repeat split; discriminate].
  unfold resolve, bind at 1.
  destruct (fetch_outcomes code w1) as (answer & w2 & -> & Hanswer).
  destruct answer as [early|resp].
  - unfold ret. intros H. injection H as <- _.
    destruct Hanswer as [->|[e ->]]; cbn.
    + repeat split; eauto.
    + repeat split. discriminate.
  - unfold bind, lift.
    destruct (json resp) as [body|e]; [|discriminate].
    destruct (getitem body "product") as [product|e]; [|discriminate].
    destruct (build_food_data code product) as [food_data|e]; [|discriminate].
    destruct (PyStr.eqb (action request) (lit "scan_and_save")).
    + destruct (save_outcomes code food_data w2) as (r1 & w3 & -> & Hr1).
      intros H. injection H as <- _.
      destruct Hr1 as [[stored ->]|[[created ->]| ->]]; cbn; repeat split; eauto.
    + unfold ret. intros H. injection H as <- _. cbn. repeat split; eauto.
Qed.

(** Saving twice stores once: after a save that stored a new row, a
    second save under the same barcode, whatever candidate it brings,
    answers with the row the first one stored and writes nothing. *)
Theorem second_save_returns_first
    (barcode : pystr) (food_data candidate created : dict) (w w' : world) :
  dict_get (lit "barcode") food_data = Some (PStr barcode) ->
  save barcode food_data w = (Ok (Saved barcode created), w') ->
  save barcode candidate w' = (Ok (AlreadyExists barcode created), w').
Proof.
  intros Hbarcode.
  assert (Hmessage : forall (r : BarcodeImageUploadResponse) (w0 : world),
             message r <> message (Saved barcode created) ->
             (Ok r, w0) = (Ok (Saved barcode created), w') -> False).
  { intros r w0 Hm H. apply Hm. injection H as -> _. reflexivity. }
  unfold save at 1, try_except, bind, get_food_by_barcode, query_first, bind,
    get_db, ret, lift.
  destruct (find (Food.has_barcode barcode) (foods (db w))) as [existing|] eqn:Hfind.
  { destruct (Food.to_dict existing); intros H; exfalso;
      apply (Hmessage _ _ ltac:(vm_compute; discriminate) H). }
  destruct (create_food_cases food_data w)
    as [(row & -> & _ & _ & Hcode)|(e & w1 & -> & _)].
  2:{ intros H; exfalso. apply (Hmessage _ _ ltac:(vm_compute; discriminate) H). }
  destruct (Food.to_dict row) as [stored|e] eqn:Hdict.
  2:{ intros H; exfalso. apply (Hmessage _ _ ltac:(vm_compute; discriminate) H). }
  intros H. injection H as Hstored <-.
  assert (Hrow : Food.has_barcode barcode row = true).
  { unfold Food.has_barcode. rewrite (Hcode _ Hbarcode). apply pystr_eqb_refl. }
  rewrite save_existing with (existing := row).
  - rewrite Hdict. now rewrite Hstored.
  - cbn [db foods]. rewrite find_app, Hfind. cbn [find]. now rewrite Hrow.
Qed.

End Responses.

(** ** Runs for the further properties *)

Lemma detect_sound_witness :
  exists image_bytes img u barcodes,
    b64decode (Externals := down) (lit "2") = Ok image_bytes
    /\ imdecode (Externals := down) image_bytes = Ok (Some img)
    /\ (u = img
        \/ exists gray thresh adaptive,
             cvtColor_BGR2GRAY (Externals := down) img = Ok gray
             /\ threshold_BINARY (Externals := down) gray 128 255 = Ok thresh
             /\ adaptiveThreshold_GAUSSIAN_BINARY (Externals := down) gray 255 11 2
                = Ok adaptive
             /\ In u [gray; thresh; adaptive])
    /\ pyzbar_decode (Externals := down) u = Ok barcodes
    /\ detected barcodes = Ok [ean8].
Proof.
  apply (@detect_sound down (lit "2") (lit "jpeg") (start empty_db)
           (after_calls (start empty_db)
              [Zbar (E := down) 2%N; CvtColor (E := down) 2%N;
               Threshold (E := down) 102%N; AdaptiveThreshold (E := down) 102%N;
               Zbar (E := down) 102%N; Zbar (E := down) 202%N])
           [ean8]).
  - reflexivity.
  - discriminate.
Defined.

(** Photograph "3" shows nothing: all four images are scanned. *)
Lemma detect_nothing_witness :
  detect_barcodes_with_preprocessing (E := Lab.env) (lit "3") (lit "png")
    (start empty_db)
  = (Ok [],
     after_calls (start empty_db)
       [Zbar (E := Lab.env) 51%N; CvtColor (E := Lab.env) 51%N;
        Threshold (E := Lab.env) 151%N; AdaptiveThreshold (E := Lab.env) 151%N;
        Zbar (E := Lab.env) 151%N; Zbar (E := Lab.env) 251%N;
        Zbar (E := Lab.env) 351%N]).
Proof.
  apply (@detect_nothing Lab.env (lit "3") (lit "png") (bytes_of (lit "3"))
           51%N 151%N 251%N 351%N (start empty_db));
    try reflexivity.
  intros u [<-|[<-|[<-|[<-|[]]]]]; reflexivity.
Defined.

(** Photograph "4" shows a symbol whose payload is not UTF-8. *)
Lemma detect_payload_not_utf8_witness :
  detect_barcodes_with_preprocessing (E := Lab.env) (lit "4") (lit "png")
    (start empty_db)
  = (Ok [], after_calls (start empty_db) [Zbar (E := Lab.env) 52%N]).
Proof.
  apply (@detect_payload_not_utf8 Lab.env (lit "4") (lit "png")
           (bytes_of (lit "4")) 52%N [ {| data := [xff] |} ]
           (mk_exn UnicodeDecodeError (lit "'utf-8' codec can't decode bytes"))
           (start empty_db));
    reflexivity.
Defined.

Lemma validate_barcode_format_ascii_witness :
  validate_barcode_format (lit "4006381333931") = true <->
  Forall (fun c => ascii_digit c = true) (lit "4006381333931")
  /\ In (List.length (lit "4006381333931")) [8; 12; 13; 14]%nat.
Proof.
  apply validate_barcode_format_ascii.
  vm_compute. repeat constructor.
Defined.

Lemma allergens_round_trip_witness :
  exists pieces,
    dict_get (lit "allergens") Lab.oat_record = Some (PList (map PStr pieces))
    /\ PyStr.join comma pieces = lit "milk, soy"
    /\ Forall (fun piece => ~ In comma piece) pieces.
Proof.
  apply (@allergens_round_trip ean8 oat_drink Lab.oat_record (lit "milk, soy")).
  - reflexivity.
  - discriminate.
  - reflexivity.
Defined.

Lemma name_is_trimmed_witness :
  dict_get (lit "name") Lab.oat_record = Some (PStr (PyStr.strip (lit " Oat drink "))).
Proof.
  apply (@name_is_trimmed ean8 oat_drink Lab.oat_record (lit " Oat drink ")).
  - reflexivity.
  - vm_compute. discriminate.
  - reflexivity.
Defined.

Lemma name_defaults_when_absent_witness :
  dict_get (lit "name") Lab.nameless_record = Some (PStr (lit "Unknown Product")).
Proof.
  apply (@name_defaults_when_absent ean8 Lab.nameless Lab.nameless_record).
  - reflexivity.
  - reflexivity.
Defined.

(** A blank [brands] field: no brand in the record. *)
Lemma brand_entry_witness :
  dict_get (lit "brand") Lab.nameless_record =
  match PyStr.strip (lit "  ") with
  | [] => None
  | _ :: _ => Some (PStr (PyStr.strip (lit "  ")))
  end.
Proof.
  apply (@brand_entry ean8 (PDict Lab.nameless) Lab.nameless_record (lit "  ")).
  - reflexivity.
  - reflexivity.
Defined.

(** "Beverages, Plant milks" becomes "Beverages". *)
Lemma category_entry_witness :
  dict_get (lit "category") Lab.oat_record = Some (PStr (lit "Beverages"))
  /\ forall category,
       dict_get (lit "category") Lab.oat_record = Some (PStr category) ->
       ~ In comma category.
Proof.
  apply (@category_entry ean8 oat_drink Lab.oat_record
           (PStr (lit "Beverages, Plant milks"))).
  - reflexivity.
  - reflexivity.
Defined.

Lemma nutrients_are_numbers_witness :
  (forall v, dict_get (lit "calories") Lab.oat_record = Some v ->
             exists z, v = PInt z)
  /\ (forall source field v,
         In (source, field) nutrient_fields ->
         dict_get (lit field) Lab.oat_record = Some v ->
         (exists z, v = PInt z) \/ (exists bits, v = PFloat bits)).
Proof.
  apply (@nutrients_are_numbers ean8 oat_drink Lab.oat_record).
  reflexivity.
Defined.

Lemma food_data_shape_witness :
  dict_get (lit "barcode") Lab.oat_record = Some (PStr ean8)
  /\ dict_get (lit "quantity") Lab.oat_record = Some (PInt 1)
  /\ Forall (fun kv => is_provided (snd kv) = true) Lab.oat_record
  /\ Forall (fun kv => In (fst kv) Food.columns) Lab.oat_record.
Proof.
  apply (@food_data_shape ean8 oat_drink Lab.oat_record).
  - discriminate.
  - reflexivity.
Defined.

Lemma create_food_of_record_witness :
  exists row w',
    Crud.create_food (E := down) Lab.oat_record (start Lab.pantry) = (Ok row, w')
    /\ Food.id row = lit "food-0"
    /\ Food.barcode row = PStr ean8
    /\ Food.name row = PStr (lit "Oat drink")
    /\ Food.quantity row = PInt 1
    /\ foods (db w') = foods Lab.pantry ++ [row]
    /\ nutrition_logs (db w') = nutrition_logs Lab.pantry.
Proof.
  apply (@create_food_of_record down ean8 oat_drink Lab.oat_record
           (PStr (lit "Oat drink")) (start Lab.pantry)).
  - discriminate.
  - reflexivity.
  - reflexivity.
  - repeat constructor.
  - vm_compute. intros [H|[H|[]]]; discriminate H.
Defined.


(** A new barcode in an empty table: the row found is the row stored. *)
Lemma created_row_is_found_witness :
  (exists found,
      Crud.get_food_by_barcode (E := down) ean8
        (snd (Crud.create_food (E := down) Lab.oat_record (start empty_db)))
      = (Ok (Some found),
         snd (Crud.create_food (E := down) Lab.oat_record (start empty_db)))
      /\ Food.barcode found = PStr ean8)
  /\ (find (Food.has_barcode ean8) (foods (db (start (E := down) empty_db))) = None ->
      exists row,
        fst (Crud.create_food (E := down) Lab.oat_record (start empty_db)) = Ok row
        /\ Crud.get_food_by_barcode (E := down) ean8
             (snd (Crud.create_food (E := down) Lab.oat_record (start empty_db)))
           = (Ok (Some row),
              snd (Crud.create_food (E := down) Lab.oat_record (start empty_db)))).
Proof.
  destruct (Crud.create_food (E := down) Lab.oat_record (start empty_db))
    as [result w'] eqn:Hrun.
  vm_compute in Hrun. injection Hrun as <- <-.
  match goal with
  | |- context [Crud.get_food_by_barcode _ (snd (Ok ?row, ?w'))] =>
      pose proof (@created_row_is_found down Lab.oat_record (start empty_db) w'
                    row ean8 eq_refl eq_refl) as [Hfound Hnew]
  end.
  split; [exact Hfound|].
  intros Hnone. eexists. split; [reflexivity|]. exact (Hnew Hnone).
Defined.


Lemma update_quantity_succeeds_witness :
  exists food' w',
    Crud.update_quantity (E := down) (lit "food-b") (-1) (lit "consumed")
      (start Lab.pantry)
    = (Ok (Some food'), w').
Proof.
  apply (@update_quantity_succeeds down (lit "food-b") (-1) (lit "consumed")
           (start Lab.pantry) Lab.rice).
  - reflexivity.
  - reflexivity.
  - reflexivity.
  - right; right; left; reflexivity.
  - vm_compute. intros [H|[H|[]]]; discriminate H.
  - intros entry rows H. exact H.
Defined.

(** One unit of rice consumed, no trigger installed: the table still
    says 2. *)
Lemma update_quantity_keeps_stock_witness :
  foods (db (snd (Crud.update_quantity (E := down) (lit "food-b") (-1)
                    (lit "consumed") (start Lab.pantry))))
  = foods (db (start (E := down) Lab.pantry))
  /\ find (Food.has_id (lit "food-b")) (foods (db (start (E := down) Lab.pantry)))
     = Some Lab.rice.
Proof.
  apply (@update_quantity_keeps_stock down (lit "food-b") (-1) (lit "consumed")
           (start Lab.pantry) _ Lab.rice).
  - intros entry rows. reflexivity.
  - reflexivity.
Defined.

Lemma update_quantity_rejects_action_witness :
  exists e w',
    Crud.update_quantity (E := down) (lit "food-b") 1 (lit "donated")
      (start Lab.pantry)
    = (Raise e, w')
    /\ db w' = db (start (E := down) Lab.pantry)
    /\ exn_cls e = IntegrityError.
Proof.
  apply (@update_quantity_rejects_action down (lit "food-b") 1 (lit "donated")
           (start Lab.pantry) Lab.rice).
  - reflexivity.
  - vm_compute. intros [H|[H|[H|[H|[]]]]]; discriminate H.
Defined.

(** A change of 2^63: the parameter cannot be bound, whatever the
    action, and nothing is logged. *)
Example update_quantity_overflow :
  forall action : pystr,
    exists e,
      Crud.update_quantity (E := down) (lit "food-b") (2 ^ 63) action
        (start Lab.pantry)
      = (Raise e, {| db := Lab.pantry; clock := 1; calls := [] |})
      /\ exn_cls e = OverflowError.
Proof.
  intros action. eexists.
  unfold Crud.update_quantity, try_except, bind, Crud.query_first, bind, get_db, ret.
  match goal with
  | |- context [find ?p ?rows] =>
      replace (find p rows) with (Some Lab.rice) by reflexivity
  end.
  rewrite commit_log_run. split; reflexivity.
Qed.

Lemma delete_food_removes_witness :
  exists w',
    Crud.delete_food (E := down) (lit "food-a") (start Lab.pantry) = (Ok true, w')
    /\ Crud.get_food_by_id (E := down) (lit "food-a") w' = (Ok None, w')
    /\ (forall row,
          In row (foods (db w')) <->
          In row (foods (db (start (E := down) Lab.pantry)))
          /\ Food.id row <> lit "food-a")
    /\ (forall entry,
          In entry (nutrition_logs (db w')) <->
          In entry (nutrition_logs (db (start (E := down) Lab.pantry)))
          /\ NutritionLog.food_id entry <> lit "food-a").
Proof.
  apply (@delete_food_removes down (lit "food-a") (start Lab.pantry) (stored PNone)).
  reflexivity.
Defined.

Lemma delete_food_by_barcode_removes_witness :
  exists w',
    Crud.delete_food_by_barcode (E := down) ean8 (start Lab.pantry) = (Ok true, w')
    /\ foods (db w')
       = filter (fun row => negb (Food.has_barcode ean8 row))
                (foods (db (start (E := down) Lab.pantry)))
    /\ Crud.get_food_by_barcode (E := down) ean8 w' = (Ok None, w')
    /\ (forall entry,
          In entry (nutrition_logs (db w')) <->
          In entry (nutrition_logs (db (start (E := down) Lab.pantry)))
          /\ ~ exists row,
                 In row (foods (db (start (E := down) Lab.pantry)))
                 /\ Food.has_barcode ean8 row = true
                 /\ Food.id row = NutritionLog.food_id entry).
Proof.
  apply (@delete_food_by_barcode_removes down ean8 (start Lab.pantry)
           (stored PNone)).
  - vm_compute. constructor.
    + intros [H|[]]. discriminate H.
    + constructor; [intros []|constructor].
  - reflexivity.
Defined.

(** The three rows of the larder hold 7, 2 and 2.5: below 5 are the
    rice and then the flour. *)
Lemma get_low_stock_foods_report_witness :
  exists report,
    Crud.get_low_stock_foods (E := down) 5 (start Lab.larder)
    = (Ok report, start Lab.larder)
    /\ Permutation report
         (filter (Crud.low_stock 5) (foods (db (start (E := down) Lab.larder))))
    /\ (forall row,
          In row report <->
          In row (foods (db (start (E := down) Lab.larder)))
          /\ exists q, Crud.stock row = Some q /\ Crud.in_stock_range 5 q)
    /\ StronglySorted Crud.stock_le report.
Proof.
  apply (proj1 (@get_low_stock_foods_report down 5 (start Lab.larder))).
  reflexivity.
Defined.

Example low_stock_run :
  Crud.get_low_stock_foods (E := down) 5 (start Lab.larder)
  = (Ok [Lab.rice; Lab.flour], start Lab.larder)
  /\ exists e,
       Crud.get_low_stock_foods (E := down) (2 ^ 63) (start Lab.larder)
       = (Raise e, start Lab.larder)
       /\ exn_cls e = OverflowError.
Proof.
  split; [vm_compute; reflexivity|].
  eexists. split; reflexivity.
Qed.

(** Calories beyond 64 bits cannot be bound; a key that is taken
    violates the primary key; in both cases nothing is stored. *)
Example create_food_refusals :
  (exists e,
      Crud.create_food (E := down) Lab.heavy_record (start Lab.pantry)
      = (Raise e, {| db := Lab.pantry; clock := 1; calls := [] |})
      /\ exn_cls e = OverflowError)
  /\ (exists e,
         Crud.create_food (E := Lab.stuck) Lab.oat_record (start Lab.pantry)
         = (Raise e, {| db := Lab.pantry; clock := 1; calls := [] |})
         /\ e = mk_exn IntegrityError (lit "UNIQUE constraint failed: foods.id")).
Proof.
  split; eexists; (split; [vm_compute; reflexivity|reflexivity]).
Qed.

(** The row is read back as SQLite keeps it: the integer 3 given for
    [fat], a [Float] column, comes back as the float 3.0. *)
Example create_food_reads_back :
  exists row w',
    Crud.create_food (E := down) Lab.oat_record (start Lab.pantry) = (Ok row, w')
    /\ Food.calories row = PInt 46
    /\ Food.fat row = PFloat 4613937818241073152
    /\ Food.quantity row = PInt 1.
Proof.
  destruct (Crud.create_food (E := down) Lab.oat_record (start Lab.pantry))
    as [result w'] eqn:Hrun.
  vm_compute in Hrun. injection Hrun as <- <-.
  eexists. eexists. repeat split.
Qed.

Lemma only_scan_and_save_writes_witness :
  db (snd (upload_barcode_image (E := with_product) (request "1" "scan")
             (start Lab.pantry)))
  = db (start (E := with_product) Lab.pantry).
Proof.
  apply (@only_scan_and_save_writes with_product).
  vm_compute. discriminate.
Defined.

Lemma upload_raises_http_only_witness :
  exists status,
    exn_cls (mk_exn (HTTPException 500)
               (lit "Error processing barcode image: 'product'"))
    = HTTPException status.
Proof.
  apply (@upload_raises_http_only without_product (request "1" "scan")
           (start empty_db)
           (looked_up ean8 (after_calls (start empty_db) [Zbar (E := without_product) 1%N]))).
  reflexivity.
Defined.

Lemma response_invariant_witness :
  success (Resolved ean8 Lab.oat_record) = true
  /\ error (Resolved ean8 Lab.oat_record) = None
  /\ validate_barcode_format ean8 = true
  /\ exists others w1,
       detect_barcodes_with_preprocessing (E := with_product)
         (imageData (request "1" "scan")) (imageFormat (request "1" "scan"))
         (start empty_db)
       = (Ok (ean8 :: others), w1).
Proof.
  apply (@response_invariant with_product (request "1" "scan") (start empty_db)
           (looked_up ean8 (after_calls (start empty_db) [Zbar (E := with_product) 1%N]))
           (Resolved ean8 Lab.oat_record)).
  reflexivity.
Defined.

(** The oat drink saved twice into an empty table. *)
Lemma second_save_returns_first_witness :
  exists created,
    fst (save (E := with_product) ean8 Lab.oat_record (start empty_db))
    = Ok (Saved ean8 created)
    /\ save (E := with_product) ean8 Lab.nameless_record
         (snd (save (E := with_product) ean8 Lab.oat_record (start empty_db)))
       = (Ok (AlreadyExists ean8 created),
          snd (save (E := with_product) ean8 Lab.oat_record (start empty_db))).
Proof.
  destruct (save (E := with_product) ean8 Lab.oat_record (start empty_db))
    as [result w'] eqn:Hrun.
  vm_compute in Hrun. injection Hrun as <- <-.
  eexists. split; [reflexivity|].
  apply (@second_save_returns_first with_product ean8 Lab.oat_record
           Lab.nameless_record _ (start empty_db)).
  - reflexivity.
  - reflexivity.
Defined.

Lemma scan_and_save_existing_witness :
  exists stored_dict,
    Food.to_dict (stored PNone) = Ok stored_dict
    /\ upload_barcode_image (E := with_product) (request "1" "scan_and_save")
         (start Lab.pantry)
       = (Ok (AlreadyExists ean8 stored_dict),
          looked_up ean8 (after_calls (start Lab.pantry) [Zbar (E := with_product) 1%N]))
    /\ db (looked_up ean8
             (after_calls (start Lab.pantry) [Zbar (E := with_product) 1%N]))
       = db (start (E := with_product) Lab.pantry).
Proof.
  eexists. split; [reflexivity|].
  apply (@scan_and_save_existing with_product (request "1" "scan_and_save")
           (start Lab.pantry)
           (after_calls (start Lab.pantry) [Zbar (E := with_product) 1%N])
           ean8 []
           {| status_code := 200;
              json := Ok (PDict [ (lit "status", PInt 1);
                                  (lit "product", oat_drink) ]) |}
           (PDict [ (lit "status", PInt 1); (lit "product", oat_drink) ])
           (PInt 1) oat_drink Lab.oat_record (stored PNone));
    reflexivity.
Defined.
